(** * OllamaFixer: the resilient request layer, embedded shallowly

    The development follows the TypeScript sources:
    - [utils/retry.ts]    : [RetryManager] ([withRetry], [defaultIsRetryable]);
    - [chatProvider.ts]   : [OllamaCodeFixerChatProvider.getOllamaResponse];
    - [extension.ts]      : [getCorrectionFromOllama] and the command
                            [ollama-code-fixer.fixSelectedCode].

    JavaScript strings that carry model text are sequences of UTF-16 code
    units ([JsString.t]); configuration keys, URLs and UI labels, which the
    code only compares and concatenates, are [string]s.  Asynchronous
    functions become state-passing functions over an explicit world whose
    log records every observable action in program order.  JavaScript
    numbers that hold a delay are binary64 floating-point numbers
    ([PrimFloat.float]) and their product is the rounded product of
    IEEE 754 ([PrimFloat.mul]). *)

From Stdlib Require Import Floats.PrimFloat.
From Stdlib Require Import List ZArith NArith String Ascii Bool Lia.
From Stdlib Require Import DecimalString.
Import ListNotations.

Set Warnings "-inexact-float".


(* ===================================================================== *)
(** * JavaScript strings and the code-block extraction                    *)
(* ===================================================================== *)

Module JsString.

(** A JS string is a sequence of UTF-16 code units. *)
Definition t := list N.

(** Literals are written as Rocq strings, which hold UTF-8 bytes;
    [utf8_decode] turns them into the code units JavaScript sees. *)
Fixpoint utf8_decode (bytes : list N) : t :=
  match bytes with
  | [] => []
  | b0 :: r =>
      if (b0 <? 192)%N then b0 :: utf8_decode r
      else if (b0 <? 224)%N then
        match r with
        | b1 :: r1 => ((b0 - 192) * 64 + (b1 - 128))%N :: utf8_decode r1
        | [] => [b0]
        end
      else if (b0 <? 240)%N then
        match r with
        | b1 :: b2 :: r2 =>
            ((b0 - 224) * 4096 + (b1 - 128) * 64 + (b2 - 128))%N
              :: utf8_decode r2
        | _ => b0 :: r
        end
      else
        match r with
        | b1 :: b2 :: b3 :: r3 =>
            let cp := ((b0 - 240) * 262144 + (b1 - 128) * 4096
                       + (b2 - 128) * 64 + (b3 - 128) - 65536)%N in
            (55296 + cp / 1024)%N :: (56320 + cp mod 1024)%N :: utf8_decode r3
        | _ => b0 :: r
        end
  end.

Definition of_string (s : string) : t :=
  utf8_decode (map N_of_ascii (list_ascii_of_string s)).

(** Decimal rendering of an integer, as in a template literal. *)
Definition of_Z (z : Z) : t :=
  of_string (DecimalString.NilZero.string_of_int (Z.to_int z)).

Fixpoint eqb (a b : t) : bool :=
  match a, b with
  | [], [] => true
  | x :: a', y :: b' => N.eqb x y && eqb a' b'
  | _, _ => false
  end.

(** [WhiteSpace] and [LineTerminator] of ECMAScript: what
    [String.prototype.trim] removes and what [\s] matches. *)
Definition is_ws (c : N) : bool :=
  ((9 <=? c) && (c <=? 13) || (c =? 32) || (c =? 160) || (c =? 5760)
   || (8192 <=? c) && (c <=? 8202) || (c =? 8232) || (c =? 8233)
   || (c =? 8239) || (c =? 8287) || (c =? 12288) || (c =? 65279))%N.

(** [\w] without the [u] and [i] flags: [A-Za-z0-9_]. *)
Definition is_word (c : N) : bool :=
  ((65 <=? c) && (c <=? 90) || (97 <=? c) && (c <=? 122)
   || (48 <=? c) && (c <=? 57) || (c =? 95))%N.

Fixpoint drop_ws (s : t) : t :=
  match s with
  | c :: r => if is_ws c then drop_ws r else s
  | [] => []
  end.

(** [s.trim()] *)
Definition trim (s : t) : t := rev (drop_ws (rev (drop_ws s))).

(** The fence [```] (three U+0060). *)
Definition fence : t := [96; 96; 96]%N.

(** [strip_prefix p s] is the rest of [s] after the literal [p]. *)
Fixpoint strip_prefix (p s : t) : option t :=
  match p, s with
  | [], _ => Some s
  | x :: p', y :: s' => if N.eqb x y then strip_prefix p' s' else None
  | _ :: _, [] => None
  end.

Definition ends_with (p s : t) : bool :=
  match strip_prefix (rev p) (rev s) with Some _ => true | None => false end.

(** ** The regular expression [/```(?:\w*\n)?([\s\S]*?)```$/]

    The matcher is the backtracking search of the ECMAScript semantics,
    written out for this pattern; every function returns capture group 1
    of the first successful alternative. *)

(** [([\s\S]*?)```$] : the lazy star tries the shortest capture first and
    takes one more code unit each time the closing fence followed by the
    end of input does not match. *)
Fixpoint body_then_close (s : t) : option t :=
  if eqb s fence then Some []
  else match s with
       | [] => None
       | c :: r => option_map (cons c) (body_then_close r)
       end.

(** [\w*\n] followed by the rest of the pattern: the greedy star first
    takes the next word character and only if that fails stops and asks
    for the line feed. *)
Fixpoint tag_then_body (s : t) : option t :=
  match s with
  | [] => None
  | c :: r =>
      match (if is_word c then tag_then_body r else None) with
      | Some m => Some m
      | None => if (c =? 10)%N then body_then_close r else None
      end
  end.

(** [(?:\w*\n)?] is greedy: the group is tried before it is skipped. *)
Definition after_open (s : t) : option t :=
  match tag_then_body s with
  | Some m => Some m
  | None => body_then_close s
  end.

(** A match attempt at the current position. *)
Definition match_here (s : t) : option t :=
  match strip_prefix fence s with
  | Some r => after_open r
  | None => None
  end.

(** [s.match(codeBlockRegex)] (no [g] flag): the leftmost start position
    at which the pattern matches; the result is [match[1]]. *)
Fixpoint regex_match (s : t) : option t :=
  match match_here s with
  | Some m => Some m
  | None => match s with
            | [] => None
            | _ :: r => regex_match r
            end
  end.

(** The post-processing of [getCorrectionFromOllama] (the spec's
    [extractCode]):
<<
    let correctedCode = response.data.response.trim();
    const match = correctedCode.match(codeBlockRegex);
    if (match && match[1]) { correctedCode = match[1].trim(); }
    return correctedCode;
>>
    An empty capture is falsy, so it leaves the trimmed text as it is. *)
Definition extractCode (rawText : t) : t :=
  let correctedCode := trim rawText in
  match regex_match correctedCode with
  | Some (c :: m) => trim (c :: m)
  | Some [] => correctedCode
  | None => correctedCode
  end.

(** [s.startsWith(p)] *)
Definition startsWith (p s : t) : bool :=
  match strip_prefix p s with Some _ => true | None => false end.

(** [s.replace(/\/+$/, '')] : the leftmost run of slashes that reaches the
    end of the input is the whole trailing run. *)
Fixpoint drop_slashes (s : t) : t :=
  match s with
  | c :: r => if (c =? 47)%N then drop_slashes r else s
  | [] => []
  end.

Definition strip_trailing_slashes (s : t) : t := rev (drop_slashes (rev s)).

(** [s.replace(pattern, replacement)] with a string pattern: the first
    occurrence is replaced, and in the replacement [$$], [$&], [$`] and
    [$'] are expanded (GetSubstitution without captures). *)
Fixpoint find_first (pattern s before_rev : t) : option (t * t) :=
  match strip_prefix pattern s with
  | Some after => Some (rev before_rev, after)
  | None => match s with
            | [] => None
            | c :: r => find_first pattern r (c :: before_rev)
            end
  end.

Fixpoint substitution (matched before after replacement : t) : t :=
  match replacement with
  | [] => []
  | c :: r =>
      match r with
      | d :: r' =>
          if (c =? 36)%N && (d =? 36)%N then
            36%N :: substitution matched before after r'
          else if (c =? 36)%N && (d =? 38)%N then
            matched ++ substitution matched before after r'
          else if (c =? 36)%N && (d =? 96)%N then
            before ++ substitution matched before after r'
          else if (c =? 36)%N && (d =? 39)%N then
            after ++ substitution matched before after r'
          else c :: substitution matched before after r
      | [] => [c]
      end
  end.

Definition replace (pattern replacement s : t) : t :=
  match find_first pattern s [] with
  | Some (before, after) =>
      before ++ substitution pattern before after replacement ++ after
  | None => s
  end.

End JsString.

Definition js : string -> JsString.t := JsString.of_string.

(** ** The fenced block, in the words of the specification

    [fenced_block s contents] : the text [s] holds a fenced block anchored
    at its end, and [contents] is what the block contains.  The block is
    opened by the first fence of [s] that has a closing fence after it at
    the very end of [s].  When the text after the opening fence starts
    with a line of word characters (possibly none) that a line feed ends,
    that line is the language tag and the contents start after it;
    otherwise the contents start right after the opening fence
    ([block_contents], on the text between the two fences). *)
Definition block_contents (rest contents : JsString.t) : Prop :=
  (exists word,
      rest = word ++ 10%N :: contents /\
      forallb JsString.is_word word = true)
  \/
  (contents = rest /\
   forall word m,
     rest = word ++ 10%N :: m -> forallb JsString.is_word word = false).

Definition fenced_block (s contents : JsString.t) : Prop :=
  exists before rest,
    s = before ++ JsString.fence ++ rest ++ JsString.fence /\
    (forall before' rest',
        s = before' ++ JsString.fence ++ rest' ++ JsString.fence ->
        List.length before <= List.length before') /\
    block_contents rest contents.

(* ===================================================================== *)
(** * Thrown values                                                       *)
(* ===================================================================== *)

(** What [error.response] exposes to the code: the status, whether the
    body is truthy, and the text [JSON.stringify] gives for the body. *)
Record ErrorResponse := {
  status : Z;
  data_truthy : bool;
  data_json : JsString.t
}.

(** The [Error] instances a [catch] clause of this code base can receive,
    seen through the tests the code applies to them
    ([instanceof AxiosError], [.response], [.request], [.code],
    [.message]).  The only other thrown value is the [undefined] of
    [withRetry], which is [None] where it can occur. *)
Inductive JsError :=
| AxiosError (message : JsString.t) (code : option JsString.t)
             (response : option ErrorResponse) (request : bool)
| OtherError (message : JsString.t).

Definition error_message (e : JsError) : JsString.t :=
  match e with
  | AxiosError m _ _ _ => m
  | OtherError m => m
  end.

(** The [TypeError] of V8 for [undefined.<prop>]. *)
Definition TypeError_undefined (prop : string) : JsError :=
  OtherError (js ("Cannot read properties of undefined (reading '"
                  ++ prop ++ "')")).

(** The two values that have no properties. *)
Inductive Nullish := js_null | js_undefined.

Definition nullish_name (kind : Nullish) : string :=
  match kind with
  | js_null => "null"
  | js_undefined => "undefined"
  end.

(** The [TypeError] of V8 for [null.<prop>] and [undefined.<prop>]. *)
Definition TypeError_reading (kind : Nullish) (prop : string) : JsError :=
  OtherError (js ("Cannot read properties of " ++ nullish_name kind
                  ++ " (reading '" ++ prop ++ "')")).

(** Settlement of a promise. *)
Inductive Settled (T E : Type) :=
| Resolved (v : T)
| Rejected (e : E).
Arguments Resolved {T E} v.
Arguments Rejected {T E} e.

(* ===================================================================== *)
(** * utils/retry.ts                                                      *)
(* ===================================================================== *)

Module Retry.

Record RetryOptions (num : Type) := {
  maxRetries : Z;
  retryDelay : num;
  backoffMultiplier : num
}.
Arguments maxRetries {num} _.
Arguments retryDelay {num} _.
Arguments backoffMultiplier {num} _.

(** What the engine itself does, in program order.  [Invoke attempt total]
    is the debug line [Starting attempt ${attempt}/${maxRetries + 1}]
    followed by the call [operation()]; [Wait delay] is the suspension on
    [setTimeout(resolve, delay)]. *)
Inductive Step (num : Type) :=
| Invoke (attempt total : Z)
| Wait (ms : num).
Arguments Invoke {num} attempt total.
Arguments Wait {num} ms.

Section Engine.

(** [num] stands for the JS numbers that hold the delay and [mul] for their
    product; the manager below instantiates them with binary64 numbers
    and [PrimFloat.mul].  The operation is a function of the state [S] of everything it
    can observe and change; it returns [inl result] or throws [inr error].
    The predicate returns [inl b] or throws [inr x]. *)
Context {num S T E : Type}.
Variable mul : num -> num -> num.
Variable options : RetryOptions num.
Variable operation : S -> (T + E) * S.
Variable isRetryable : E -> bool + E.

(** The [else] branch of the [catch] block: the argument of [logger.warn]
    evaluates [isRetryable(error)] before the [break], and after the loop
    [throw lastError]. *)
Definition no_more_retries (error : E) : Settled T (option E) :=
  match isRetryable error with
  | inl _ => Rejected (Some error)
  | inr x => Rejected (Some x)
  end.

(** The [for] loop of [withRetry]; [lastError] is [None] while it is still
    [undefined].  The loop test comes first; [fuel] bounds the number of
    iterations and [withRetry] supplies enough of it. *)
Fixpoint retry_loop (fuel : nat) (attempt : Z) (delay : num)
         (lastError : option E) (s : S)
  : Settled T (option E) * S * list (Step num) :=
  let total := (maxRetries options + 1)%Z in
  if (attempt <=? total)%Z then
    match fuel with
    | O => (Rejected lastError, s, [])
    | Datatypes.S fuel' =>
        match operation s with
        | (inl result, s') => (Resolved result, s', [Invoke attempt total])
        | (inr error, s') =>
            if (attempt <=? maxRetries options)%Z then
              match isRetryable error with
              | inl true =>
                  let '(r, s'', steps) :=
                    retry_loop fuel' (attempt + 1)%Z
                               (mul delay (backoffMultiplier options))
                               (Some error) s' in
                  (r, s'', Invoke attempt total :: Wait delay :: steps)
              | inl false =>
                  (no_more_retries error, s', [Invoke attempt total])
              | inr x =>
                  (Rejected (Some x), s', [Invoke attempt total])
              end
            else (no_more_retries error, s', [Invoke attempt total])
        end
    end
  else (Rejected lastError, s, []).

Definition withRetry (s : S) : Settled T (option E) * S * list (Step num) :=
  retry_loop (Z.to_nat (maxRetries options + 1)) 1%Z
             (retryDelay options) None s.

(** ** Vocabulary for the statements *)

(** The iterations the loop test still allows from [attempt] on. *)
Definition remaining (attempt : Z) : nat :=
  Z.to_nat (maxRetries options + 2 - attempt).

Definition invocations (steps : list (Step num)) : list Z :=
  flat_map (fun st => match st with Invoke a _ => [a] | Wait _ => [] end) steps.

Definition delays (steps : list (Step num)) : list num :=
  flat_map (fun st => match st with Invoke _ _ => [] | Wait d => [d] end) steps.

(** The delay after [i] multiplications by the backoff multiplier. *)
Definition delay_after (i : nat) (d : num) : num :=
  Nat.iter i (fun x => mul x (backoffMultiplier options)) d.

(** [n] attempts numbered from [attempt], one wait between two consecutive
    ones and none after the last. *)
Fixpoint schedule (n : nat) (attempt : Z) (delay : num) : list (Step num) :=
  match n with
  | O => []
  | Datatypes.S n' =>
      Invoke attempt (maxRetries options + 1)%Z ::
      match n' with
      | O => []
      | Datatypes.S _ =>
          Wait delay
            :: schedule n' (attempt + 1)%Z (mul delay (backoffMultiplier options))
      end
  end.

(** The operation called [n] times in a row, each call on the state the
    previous one left: the results, and the final state. *)
Fixpoint replay (n : nat) (s : S) : list (T + E) * S :=
  match n with
  | O => ([], s)
  | Datatypes.S n' =>
      let (o, s') := operation s in
      let (os, s'') := replay n' s' in
      (o :: os, s'')
  end.

(** [k] consecutive failures that the predicate classifies as retryable,
    then a success with [v]. *)
Inductive FailsThenSucceeds : nat -> S -> T -> Prop :=
| fts_success s v s' :
    operation s = (inl v, s') -> FailsThenSucceeds 0 s v
| fts_failure k s e s' v :
    operation s = (inr e, s') -> isRetryable e = inl true ->
    FailsThenSucceeds k s' v -> FailsThenSucceeds (Datatypes.S k) s v.

End Engine.

(** ** [defaultIsRetryable] *)

Definition retryableStatusCodes : list Z := [408; 429; 500; 502; 503; 504]%Z.
Definition retryableCodes : list JsString.t :=
  map JsString.of_string ["ETIMEDOUT"; "ECONNRESET"; "ECONNREFUSED"]%string.

Definition includes_Z (l : list Z) (x : Z) : bool := existsb (Z.eqb x) l.
Definition includes_string (l : list JsString.t) (x : JsString.t) : bool :=
  existsb (JsString.eqb x) l.

(** The classification the method computes before it logs it. *)
Definition shouldRetry (error : JsError) : bool :=
  match error with
  | AxiosError _ code None _ =>
      (* [retryableCodes.includes(error.code || '')] *)
      includes_string retryableCodes
        (match code with Some c => c | None => [] end)
  | AxiosError _ _ (Some response) _ =>
      includes_Z retryableStatusCodes (status response)
  | OtherError _ => false
  end.

(** [defaultIsRetryable] is a method: on every path it calls
    [this.logger.debug] before it returns, so it needs its receiver.
    [this_bound] says whether [this] is the manager ([true]) or
    [undefined] ([false]). *)
Definition defaultIsRetryable (this_bound : bool) (error : JsError)
  : bool + JsError :=
  if this_bound then inl (shouldRetry error)
  else inr (TypeError_undefined "logger").

(** [withRetry(operation)] with the second argument omitted.  The default
    value [this.defaultIsRetryable] reads the method off the manager; the
    loop then calls it as the plain function [isRetryable(error)], so
    inside the method [this] is [undefined] (class code is strict). *)
Definition withRetry_default {num S T : Type} (mul : num -> num -> num)
           (options : RetryOptions num)
           (operation : S -> (T + JsError) * S) (s : S)
  : Settled T (option JsError) * S * list (Step num) :=
  withRetry mul options operation (defaultIsRetryable false) s.

End Retry.

(* ===================================================================== *)
(** * The host: configuration store, network, windows                     *)
(* ===================================================================== *)

(** The [ollamaCodeFixer] section of the configuration store, with the
    keys the modelled code reads.  [package.json] declares a default for
    each, so [config.get] always finds a value.  [promptStructure] is
    declared as an object without a schema for its properties, so the
    store can hold any value there: [promptPrefix] is [inl s] when
    [promptStructure.prefix] is the string [s], and [inr e] when the
    expression [promptStructure.prefix.replace(...)] throws [e] (the
    structure or its prefix is [null], a number, ...); [promptSuffix] is
    the text that [prompt += promptStructure.suffix] appends. *)
Module Config.

Record Settings := {
  ollamaApiUrl : JsString.t;
  modelName : JsString.t;
  logLevel : JsString.t;
  enableNotifications : bool;
  requestTimeout : Z;
  maxRetries : Z;
  retryDelay : float;
  retryBackoffMultiplier : float;
  promptPrefix : JsString.t + JsError;
  promptSuffix : JsString.t
}.

(** [config.update('modelName', value, true)] *)
Definition update_modelName (value : JsString.t) (c : Settings) : Settings :=
  {| ollamaApiUrl := ollamaApiUrl c;
     modelName := value;
     logLevel := logLevel c;
     enableNotifications := enableNotifications c;
     requestTimeout := requestTimeout c;
     maxRetries := maxRetries c;
     retryDelay := retryDelay c;
     retryBackoffMultiplier := retryBackoffMultiplier c;
     promptPrefix := promptPrefix c;
     promptSuffix := promptSuffix c |}.

(** The store after the user has edited the three retry settings. *)
Definition set_retry (n : Z) (d m : float) (c : Settings) : Settings :=
  {| ollamaApiUrl := ollamaApiUrl c;
     modelName := modelName c;
     logLevel := logLevel c;
     enableNotifications := enableNotifications c;
     requestTimeout := requestTimeout c;
     maxRetries := n;
     retryDelay := d;
     retryBackoffMultiplier := m;
     promptPrefix := promptPrefix c;
     promptSuffix := promptSuffix c |}.

End Config.

(** [response.data] of a fulfilled request, seen through the accessors the
    code applies to it.  [message_content] is [None] when [data.message]
    or [data.message.content] is missing or falsy, [Some (inl s)] when
    the content is the string [s], and [Some (inr error)] when it is a
    truthy value that is not a string, [error] being what calling its
    [trim] throws.  [response] is [inl s] when [data.response] is the
    string [s], and [inr error] otherwise, [error] being what
    [data.response.trim()] throws. *)
Record Body := {
  models : option (list JsString.t);   (* names of [data.models], if truthy *)
  message_content : option (JsString.t + JsError);
  response : JsString.t + JsError;
  json : JsString.t                    (* [JSON.stringify(data)] *)
}.

(** A fulfilled request: [response.data] is a value with properties, or
    [null], or [undefined]. *)
Inductive AxiosResponse :=
| Data (body : Body)
| NoData (kind : Nullish).

(** [Range.isEmpty] and [Range.isEqual] compare the two end points. *)
Record Range := {
  start_line : Z; start_character : Z;
  end_line : Z; end_character : Z
}.

Definition isEmpty (r : Range) : bool :=
  (start_line r =? end_line r)%Z && (start_character r =? end_character r)%Z.

Definition isEqual (a b : Range) : bool :=
  (start_line a =? start_line b)%Z && (start_character a =? start_character b)%Z
  && (end_line a =? end_line b)%Z && (end_character a =? end_character b)%Z.

(** A text editor: its own identity, the identity of the document it
    shows, and its selection. *)
Record TextEditor := {
  editor_id : nat;
  document : nat;
  languageId : JsString.t;
  selection : Range
}.

(** Every action of the modelled code that the outside can observe. *)
Inductive Event :=
| HttpGet (url : JsString.t)
| HttpPost (url model text : JsString.t)
| Retried (steps : list (Retry.Step float))
| ConsoleError (text : JsString.t)
| ConsoleWarn (text : JsString.t)
| ConsoleDebug (text : JsString.t)
| ConsoleLog (text : JsString.t)
| ShowErrorMessage (text : JsString.t) (items : list JsString.t)
| ShowWarningMessage (text : JsString.t)
| ShowInformationMessage (text : JsString.t) (items : list JsString.t)
| ShowQuickPick (items : list JsString.t) (placeHolder : JsString.t)
| ConfigUpdate (key value : JsString.t)
| TerminalSendText (text : JsString.t)
| ProgressReport (increment : Z) (message : JsString.t)
| Edit (editor doc : nat) (range : Range) (text : JsString.t).

(** The environment.  Each answer is a function of the log up to the
    moment of the question, so it may depend on everything that happened
    before, the question itself included. *)
Record Host := {
  URL_ok : JsString.t -> bool;                     (* [new URL(s)] returns *)
  axios : list Event -> AxiosResponse + JsError;   (* the request logged last *)
  clicked : list Event -> option JsString.t;       (* button of the message *)
  picked : list Event -> option JsString.t;        (* item of the quick pick *)
  activeTextEditor : list Event -> option TextEditor;
  getText : list Event -> nat -> Range -> JsString.t;
  isCancellationRequested : list Event -> bool;
  (* [editor.edit(...)] : fulfilled with [success], or rejected, and then
     the text of [editError.message || editError] *)
  editSucceeds : list Event -> bool + JsString.t
}.

Record World := {
  settings : Config.Settings;
  log : list Event
}.

Definition emit (e : Event) (w : World) : World :=
  {| settings := settings w; log := log w ++ [e] |}.

Definition emit_if (b : bool) (e : Event) (w : World) : World :=
  if b then emit e w else w.

Definition axios_get (host : Host) (url : JsString.t) (w : World)
  : (AxiosResponse + JsError) * World :=
  let w' := emit (HttpGet url) w in (axios host (log w'), w').

Definition axios_post (host : Host) (url model text : JsString.t) (w : World)
  : (AxiosResponse + JsError) * World :=
  let w' := emit (HttpPost url model text) w in (axios host (log w'), w').

(** [new RetryManager()] : the constructor reads the three settings and
    keeps them in the read-only field [options]. *)
Record RetryManager := {
  options : Retry.RetryOptions float
}.

Definition new_RetryManager (w : World) : RetryManager :=
  {| options :=
       {| Retry.maxRetries := Config.maxRetries (settings w);
          Retry.retryDelay := Config.retryDelay (settings w);
          Retry.backoffMultiplier := Config.retryBackoffMultiplier (settings w) |} |}.

(** [manager.withRetry(operation)] in the world; the delay is multiplied
    as the program multiplies it, in binary64; the engine's steps are
    logged when the call settles. *)
Definition withRetry_in {T : Type} (manager : RetryManager)
           (operation : World -> (T + JsError) * World) (w : World)
  : Settled T (option JsError) * World :=
  let '(r, w', steps) :=
    Retry.withRetry_default PrimFloat.mul (options manager) operation w in
  (r, emit (Retried steps) w').

(* ===================================================================== *)
(** * chatProvider.ts                                                     *)
(* ===================================================================== *)

Module ChatProvider.

(** The entries of the locale table that [getOllamaResponse] uses. *)
Record LocaleStrings := {
  unknownError : JsString.t;
  invalidUrl : JsString.t;
  modelNotInstalled : JsString.t;
  installModel : JsString.t;
  changeModel : JsString.t;
  modelInstallStarted : JsString.t;
  modelInstallProgress : JsString.t;
  understood : JsString.t;
  selectAvailableModel : JsString.t
}.

(** The provider: [_strings] and [_retryManager] are set once, when the
    provider is constructed. *)
Record OllamaCodeFixerChatProvider := {
  _strings : LocaleStrings;
  _retryManager : RetryManager
}.

(** [constructor] : [this._retryManager = new RetryManager()] *)
Definition constructor (strings : LocaleStrings) (w : World)
  : OllamaCodeFixerChatProvider :=
  {| _strings := strings; _retryManager := new_RetryManager w |}.

Definition defaultBaseUrl : JsString.t := js "http://localhost:11434".
Definition chatEndpoint : JsString.t := js "/api/chat".
Definition tagsEndpoint : JsString.t := js "/api/tags".

(** [template.replace('{0}', arg)] *)
Definition format0 (template arg : JsString.t) : JsString.t :=
  JsString.replace (js "{0}") arg template.

Definition is_debug (c : Config.Settings) : bool :=
  JsString.eqb (Config.logLevel c) (js "debug").

(** The first [try]/[catch] of [getOllamaResponse]: the URL is parsed and
    its trailing slashes removed, or the default is taken. *)
Definition resolve_base (host : Host) (this : OllamaCodeFixerChatProvider)
           (w : World) : JsString.t * World :=
  let baseApiUrl := Config.ollamaApiUrl (settings w) in
  if URL_ok host baseApiUrl then
    (JsString.strip_trailing_slashes baseApiUrl, w)
  else
    (defaultBaseUrl,
     emit (ConsoleError (js "[OllamaCodeFixer] " ++ invalidUrl (_strings this)
                           ++ js " " ++ baseApiUrl ++ js ": Invalid URL")) w).

(** [installOllamaModel] *)
Definition installOllamaModel (this : OllamaCodeFixerChatProvider)
           (modelName : JsString.t) (w : World) : World :=
  let w := emit (TerminalSendText (js "ollama pull " ++ modelName)) w in
  emit (ShowInformationMessage
          (format0 (modelInstallProgress (_strings this)) modelName)
          [understood (_strings this)]) w.

(** How the availability check leaves the function. *)
Inductive CheckOutcome :=
| Return (text : JsString.t)   (* a [return] inside the [try] block *)
| Reinvoke                     (* [return this.getOllamaResponse(message)] *)
| Proceed.                     (* control falls through to the payload *)

(** [modelCheckResponse.data?.models || []] *)
Definition availableModels (r : AxiosResponse) : list JsString.t :=
  match r with
  | Data body => match models body with Some l => l | None => [] end
  | NoData _ => []
  end.

(** [availableModels.some(model => model.name === modelName)] *)
Definition installed (catalog : list JsString.t) (modelName : JsString.t) : bool :=
  existsb (fun name => JsString.eqb name modelName) catalog.

(** [this._strings.modelNotInstalled.replace('{0}', modelName)] *)
Definition notInstalled (this : OllamaCodeFixerChatProvider)
           (modelName : JsString.t) : JsString.t :=
  format0 (modelNotInstalled (_strings this)) modelName.

(** The model is missing: the console line and the message with the two
    buttons. *)
Definition announce_missing (this : OllamaCodeFixerChatProvider)
           (modelName : JsString.t) (w : World) : World :=
  let w := emit (ConsoleError (js "[OllamaCodeFixer] "
                                 ++ notInstalled this modelName)) w in
  emit (ShowErrorMessage (notInstalled this modelName)
          [installModel (_strings this); changeModel (_strings this)]) w.

(** The pick-list of the installed models. *)
Definition offer_models (this : OllamaCodeFixerChatProvider)
           (catalog : list JsString.t) (w : World) : World :=
  emit (ShowQuickPick catalog (selectAvailableModel (_strings this))) w.

(** [await config.update('modelName', newModel, true)] *)
Definition persist_model (newModel : JsString.t) (w : World) : World :=
  let w := emit (ConfigUpdate (js "modelName") newModel) w in
  {| settings := Config.update_modelName newModel (settings w);
     log := log w |}.

(** The reconciliation, entered when the configured model is not in the
    catalog. *)
Definition reconcile (host : Host) (this : OllamaCodeFixerChatProvider)
           (catalog : list JsString.t) (modelName : JsString.t) (w : World)
  : CheckOutcome * World :=
  let w := announce_missing this modelName w in
  match clicked host (log w) with
  | Some choice =>
      if JsString.eqb choice (installModel (_strings this)) then
        (Return (format0 (modelInstallStarted (_strings this)) modelName),
         installOllamaModel this modelName w)
      else if JsString.eqb choice (changeModel (_strings this)) then
        let w := offer_models this catalog w in
        match picked host (log w) with
        | Some (c :: newModel) =>
            (* [if (newModel)] : a non-empty string *)
            (Reinvoke, persist_model (c :: newModel) w)
        | _ => (Return (notInstalled this modelName), w)
        end
      else (Return (notInstalled this modelName), w)
  | None => (Return (notInstalled this modelName), w)
  end.

(** The second [try]/[catch]: the availability check. *)
Definition check_models (host : Host) (this : OllamaCodeFixerChatProvider)
           (baseApiUrl modelName : JsString.t) (w : World)
  : CheckOutcome * World :=
  match withRetry_in (_retryManager this)
                     (axios_get host (baseApiUrl ++ tagsEndpoint)) w with
  | (Resolved modelCheckResponse, w) =>
      let catalog := availableModels modelCheckResponse in
      if installed catalog modelName then (Proceed, w)
      else reconcile host this catalog modelName w
  | (Rejected error, w) =>
      let w := emit (ConsoleError
                       (js "[OllamaCodeFixer] Failed to check available models:")) w in
      match error with
      | Some e =>
          (* [error instanceof Error] *)
          (Proceed,
           emit (ShowWarningMessage (js "Failed to check models: "
                                       ++ error_message e)) w)
      | None => (Proceed, w)
      end
  end.

(** The body of the last [try] block. *)
Definition generate_try (host : Host) (this : OllamaCodeFixerChatProvider)
           (config : Config.Settings) (fullApiUrl modelName message : JsString.t)
           (w : World) : Settled JsString.t (option JsError) * World :=
  if negb (JsString.startsWith (js "http://") fullApiUrl)
     && negb (JsString.startsWith (js "https://") fullApiUrl) then
    (Rejected (Some (OtherError (js "Invalid URL protocol: " ++ fullApiUrl))), w)
  else
    match withRetry_in (_retryManager this)
                       (axios_post host fullApiUrl modelName message) w with
    | (Rejected error, w) => (Rejected error, w)
    | (Resolved response, w) =>
        let w := emit_if (is_debug config)
                   (ConsoleDebug (js "[OllamaCodeFixer CHAT] Raw response from model: ")) w in
        match response with
        | NoData kind => (Rejected (Some (TypeError_reading kind "message")), w)
        | Data body =>
            match message_content body with
            | Some (inl (c :: content)) =>
                (Resolved (JsString.trim (c :: content)), w)
            | Some (inr error) => (Rejected (Some error), w)
            | _ => (Resolved (json body), w)
            end
        end
    end.

(** The message the last [catch] block builds. *)
Definition errorMessage (error : option JsError) : JsString.t :=
  js "Ошибка взаимодействия с Ollama: " ++
  match error with
  | Some (AxiosError message _ response request) =>
      message ++
      match response with
      | Some r =>
          js " (Статус: " ++ JsString.of_Z (status r) ++ js ")" ++
          (if data_truthy r
           then js "
Детали: " ++ data_json r
           else [])
      | None =>
          if request
          then js "
Нет ответа от сервера Ollama. Проверьте, что сервис запущен и доступен."
          else []
      end
  | Some (OtherError message) => message
  | None => js "Неизвестная ошибка"
  end.

Definition generate_catch (config : Config.Settings) (error : option JsError)
           (w : World) : Settled JsString.t (option JsError) * World :=
  let w :=
    match error with
    | Some (AxiosError _ _ _ _) =>
        emit_if (is_debug config)
          (ConsoleError (js "[OllamaCodeFixer] Подробности ошибки API:")) w
    | _ => w
    end in
  (Resolved (errorMessage error),
   emit (ConsoleError (js "[OllamaCodeFixer] Error: " ++ errorMessage error)) w).

(** The debug lines that describe the request. *)
Definition request_details : Event :=
  ConsoleDebug (js "[OllamaCodeFixer CHAT] Request details:").

(** From the payload to the end of the function: what the spec calls the
    generation call. *)
Definition generate (host : Host) (this : OllamaCodeFixerChatProvider)
           (config : Config.Settings) (baseApiUrl modelName message : JsString.t)
           (w : World) : Settled JsString.t (option JsError) * World :=
  let fullApiUrl := baseApiUrl ++ chatEndpoint in
  let w := emit_if (is_debug config) request_details w in
  match generate_try host this config fullApiUrl modelName message w with
  | (Resolved text, w) => (Resolved text, w)
  | (Rejected error, w) => generate_catch config error w
  end.

(** [getOllamaResponse].  The function calls itself after a model switch;
    [fuel] bounds the number of calls, and [None] is a call chain that
    needs more. *)
Fixpoint getOllamaResponse (fuel : nat) (host : Host)
         (this : OllamaCodeFixerChatProvider) (message : JsString.t) (w : World)
  : option (Settled JsString.t (option JsError)) * World :=
  match fuel with
  | O => (None, w)
  | S fuel' =>
      let config := settings w in
      let '(baseApiUrl, w) := resolve_base host this w in
      let modelName := Config.modelName config in
      match check_models host this baseApiUrl modelName w with
      | (Return text, w) => (Some (Resolved text), w)
      | (Reinvoke, w) => getOllamaResponse fuel' host this message w
      | (Proceed, w) =>
          let '(r, w) := generate host this config baseApiUrl modelName message w in
          (Some r, w)
      end
  end.

End ChatProvider.

(* ===================================================================== *)
(** * extension.ts                                                        *)
(* ===================================================================== *)

Module Extension.

(** The prompt: [prefix.replace('{language}', languageId)], the snippet,
    the suffix; or what the first of the three statements throws. *)
Definition build_prompt (config : Config.Settings)
           (codeSnippet languageId : JsString.t) : JsString.t + JsError :=
  match Config.promptPrefix config with
  | inl prefix =>
      inl (JsString.replace (js "{language}") languageId prefix
           ++ codeSnippet ++ Config.promptSuffix config)
  | inr error => inr error
  end.

Definition is_debug (c : Config.Settings) : bool :=
  JsString.eqb (Config.logLevel c) (js "debug").

(** The [try] block of [getCorrectionFromOllama]. *)
Definition correction_try (host : Host) (config : Config.Settings)
           (prompt : JsString.t) (w : World)
  : Settled JsString.t JsError * World :=
  match axios_post host (Config.ollamaApiUrl config)
                   (Config.modelName config) prompt w with
  | (inr error, w) => (Rejected error, w)
  | (inl (NoData kind), w) => (Rejected (TypeError_reading kind "response"), w)
  | (inl (Data body), w) =>
      match response body with
      | inr error => (Rejected error, w)
      | inl raw =>
          let w := emit_if (is_debug config)
                     (ConsoleLog (js "[OllamaCodeFixer] Raw response from model:
" ++ JsString.trim raw)) w in
          let w := emit_if (is_debug config)
                     (ConsoleLog
                        match JsString.regex_match (JsString.trim raw) with
                        | Some (_ :: _) =>
                            js "[OllamaCodeFixer] Extracted code from block:
" ++ JsString.extractCode raw
                        | _ =>
                            js "[OllamaCodeFixer] No final code block detected, using trimmed response directly."
                        end) w in
          (Resolved (JsString.extractCode raw), w)
      end
  end.

(** The message the [catch] block builds. *)
Definition errorMessage (err : JsError) : JsString.t :=
  js "Error calling Ollama API: " ++ error_message err ++ js "." ++
  match err with
  | AxiosError _ _ (Some r) _ =>
      js " Status: " ++ JsString.of_Z (status r) ++ js ". Data: " ++ data_json r
  | AxiosError _ _ None true =>
      js " No response received from Ollama. Check if Ollama is running and accessible."
  | _ => []
  end.

(** The [catch] block: it logs, notifies when the toggle is on, and
    returns [null]. *)
Definition correction_catch (config : Config.Settings) (err : JsError)
           (w : World) : World :=
  let w :=
    match err with
    | AxiosError _ _ (Some _) _ =>
        emit_if (is_debug config)
          (ConsoleLog (js "[OllamaCodeFixer] Ollama API Error Response: ")) w
    | _ => w
    end in
  let w := emit (ConsoleError (js "[OllamaCodeFixer] API Call Error: "
                                 ++ errorMessage err)) w in
  emit_if (Config.enableNotifications config)
          (ShowErrorMessage (errorMessage err) []) w.

(** The debug line before the request. *)
Definition sending_to (config : Config.Settings) : Event :=
  ConsoleLog (js "[OllamaCodeFixer] Sending to " ++ Config.modelName config).

(** [getCorrectionFromOllama] : [Resolved (Some code)] is the corrected
    code, [Resolved None] is [null].  The prompt is built before the
    [try] block, so what its construction throws rejects the function. *)
Definition getCorrectionFromOllama (host : Host)
           (codeSnippet languageId : JsString.t) (w : World)
  : Settled (option JsString.t) JsError * World :=
  let config := settings w in
  match build_prompt config codeSnippet languageId with
  | inr error => (Rejected error, w)
  | inl prompt =>
      let w := emit_if (is_debug config) (sending_to config) w in
      match correction_try host config prompt w with
      | (Resolved correctedCode, w) => (Resolved (Some correctedCode), w)
      | (Rejected error, w) => (Resolved None, correction_catch config error w)
      end
  end.

(** The test that guards the edit:
    [currentEditor && currentEditor.document === editor.document &&
     currentSelection && currentSelection.isEqual(selection)]. *)
Definition selection_unchanged (currentEditor : option TextEditor)
           (editor : TextEditor) (captured : Range) : bool :=
  match currentEditor with
  | Some current =>
      Nat.eqb (document current) (document editor)
      && isEqual (selection current) captured
  | None => false
  end.

(** The [else] branch of that test. *)
Definition not_applied (correctedCode : JsString.t) (w : World) : World :=
  let w := emit (ShowWarningMessage (js
    "Editor selection or focus changed during AI processing. Suggestion not applied automatically.")) w in
  emit (ConsoleWarn (js
    "[OllamaCodeFixer] Selection/focus changed, correction not applied. Suggested code:
" ++ correctedCode)) w.

(** The end of the progress task: the edit or the warning, then the last
    progress report; the callbacks given to [then] run afterwards, the
    first when the edit promise is fulfilled and the second when it is
    rejected. *)
Definition apply_correction (host : Host) (editor : TextEditor)
           (captured : Range) (correctedCode : JsString.t) (w : World) : World :=
  let w := emit (ProgressReport 80 (js "Applying AI suggestions...")) w in
  let currentEditor := activeTextEditor host (log w) in
  match currentEditor with
  | Some current =>
      if selection_unchanged currentEditor editor captured then
        let w := emit (Edit (editor_id current) (document current)
                            captured correctedCode) w in
        let outcome := editSucceeds host (log w) in
        let w := emit (ProgressReport 100 (js "Finished.")) w in
        match outcome with
        | inl true =>
            let w := emit (ShowInformationMessage
                             (js "Code updated by Ollama AI!") []) w in
            emit (ConsoleLog (js "[OllamaCodeFixer] Code replacement successful.")) w
        | inl false =>
            let w := emit (ShowErrorMessage
                             (js "Failed to apply code changes.") []) w in
            emit (ConsoleLog (js "[OllamaCodeFixer] Code replacement failed.")) w
        | inr text =>
            let w := emit (ShowErrorMessage
                             (js "Failed to apply edits: " ++ text) []) w in
            emit (ConsoleError (js "[OllamaCodeFixer] Edit operation failed:")) w
        end
      else emit (ProgressReport 100 (js "Finished.")) (not_applied correctedCode w)
  | None => emit (ProgressReport 100 (js "Finished.")) (not_applied correctedCode w)
  end.

(** The callback registered with [token.onCancellationRequested].  It
    runs once, when the user cancels, which can only happen while the
    task waits for the request; the task finds out at its next test of
    [token.isCancellationRequested], and the two actions of the callback
    are recorded at that test, after the events of the request they may
    have preceded. *)
Definition cancellation_callback (w : World) : World :=
  let w := emit (ConsoleLog (js "[OllamaCodeFixer] User cancelled the Ollama request.")) w in
  emit (ShowInformationMessage (js "Ollama code correction cancelled.") []) w.

(** The task given to [withProgress]. *)
Definition progress_task (host : Host) (editor : TextEditor)
           (captured : Range) (selectedText : JsString.t) (w : World)
  : Settled unit JsError * World :=
  let w := emit (ProgressReport 0 (js "Sending code to local Ollama AI...")) w in
  if isCancellationRequested host (log w)
  then (Resolved tt, cancellation_callback w)
  else
    match getCorrectionFromOllama host selectedText (languageId editor) w with
    | (Rejected e, w) => (Rejected e, w)
    | (Resolved correctedCode, w) =>
        if isCancellationRequested host (log w)
        then (Resolved tt, cancellation_callback w)
        else
          match correctedCode with
          | None => (Resolved tt, w)
          | Some code =>
              if JsString.eqb code selectedText then
                let w := emit (ShowInformationMessage
                  (js "Ollama AI suggests no changes to the selected code.") []) w in
                (Resolved tt,
                 emit (ProgressReport 100 (js "No changes suggested.")) w)
              else (Resolved tt, apply_correction host editor captured code w)
          end
    end.

(** The command [ollama-code-fixer.fixSelectedCode]. *)
Definition fixSelectedCode (host : Host) (w : World)
  : Settled unit JsError * World :=
  match activeTextEditor host (log w) with
  | None =>
      (Resolved tt, emit (ShowInformationMessage (js "No active text editor.") []) w)
  | Some editor =>
      let captured := selection editor in
      if isEmpty captured then
        (Resolved tt,
         emit (ShowInformationMessage
                 (js "No text selected. Please select the code to fix.") []) w)
      else
        let selectedText := getText host (log w) (document editor) captured in
        progress_task host editor captured selectedText w
  end.

End Extension.

(* ===================================================================== *)
(** * Vocabulary about worlds                                             *)
(* ===================================================================== *)

(** The events a run has added to the log of the world it started in. *)
Definition added (w w' : World) : list Event :=
  skipn (List.length (log w)) (log w').

(** The world after the user has edited the three retry settings. *)
Definition with_retry (n : Z) (d m : float) (w : World) : World :=
  {| settings := Config.set_retry n d m (settings w); log := log w |}.

Definition is_HttpPost (e : Event) : bool :=
  match e with HttpPost _ _ _ => true | _ => false end.

(** [w'] is [w] with more events in the log, all of which satisfy [P]. *)
Definition adds_only (P : Event -> bool) (w w' : World) : Prop :=
  exists l, log w' = log w ++ l /\ forallb P l = true.

Definition any_event (e : Event) : bool := true.

Definition not_HttpPost (e : Event) : bool := negb (is_HttpPost e).

Definition is_Edit (e : Event) : bool :=
  match e with Edit _ _ _ _ => true | _ => false end.

Definition not_Edit (e : Event) : bool := negb (is_Edit e).

(** The edits in a list of events. *)
Definition edits (l : list Event) : list Event := filter is_Edit l.

(* ===================================================================== *)
(** * Scenarios                                                           *)
(* ===================================================================== *)

(** Concrete inputs on which the statements below are evaluated. *)
Module Scenario.


(** The retry settings at their [package.json] defaults. *)
Definition default_options : Retry.RetryOptions float :=
  {| Retry.maxRetries := 3;
     Retry.retryDelay := 1000%float;
     Retry.backoffMultiplier := 1.5%float |}.

(** What axios rejects with on a response outside the 2xx range. *)
Definition http_error (code : Z) : JsError :=
  AxiosError (js "Request failed with status code " ++ JsString.of_Z code)
             (Some (js "ERR_BAD_RESPONSE"))
             (Some {| status := code; data_truthy := true; data_json := js "{}" |})
             true.

(** What axios rejects with when nothing listens on the port. *)
Definition connection_refused : JsError :=
  AxiosError (js "connect ECONNREFUSED 127.0.0.1:11434")
             (Some (js "ECONNREFUSED")) None true.

(** An operation that fails [failures] times with [e] and succeeds with
    [v] from then on; its state is the number of calls made so far. *)
Definition flaky {T : Type} (failures : nat) (e : JsError) (v : T)
  : nat -> (T + JsError) * nat :=
  fun calls => (if calls <? failures then inr e else inl v, S calls).

(** The entries of the English locale table ([strings.en]). *)
Definition en : ChatProvider.LocaleStrings :=
  {| ChatProvider.unknownError := js "Unknown error occurred";
     ChatProvider.invalidUrl := js "Invalid URL";
     ChatProvider.modelNotInstalled :=
       js "Model " ++ [34%N] ++ js "{0}" ++ [34%N] ++ js " is not installed.";
     ChatProvider.installModel := js "Install Model";
     ChatProvider.changeModel := js "Change Model";
     ChatProvider.modelInstallStarted := js "Started installing model {0}.";
     ChatProvider.modelInstallProgress :=
       js "Installing model {0}. Please wait for completion in terminal.";
     ChatProvider.understood := js "Got it";
     ChatProvider.selectAvailableModel := js "Select available model" |}.

(** The store with [baseUrl] and [model] and the declared defaults for the
    rest. *)
Definition store (baseUrl model : string) : Config.Settings :=
  {| Config.ollamaApiUrl := js baseUrl;
     Config.modelName := js model;
     Config.logLevel := js "info";
     Config.enableNotifications := true;
     Config.requestTimeout := 90000;
     Config.maxRetries := 3;
     Config.retryDelay := 1000%float;
     Config.retryBackoffMultiplier := 1.5%float;
     Config.promptPrefix := inl (js "Language: {language}
```
");
     Config.promptSuffix := js "
```
" |}.

Definition fresh (baseUrl model : string) : World :=
  {| settings := store baseUrl model; log := [] |}.

(** The first step of the URL parser: without a base, a string that does
    not start with a scheme ([alpha (alpha | digit | + | - | .)* :]) is a
    failure.  The scenario hosts accept every string that has one. *)
Definition is_alpha (c : N) : bool :=
  ((65 <=? c) && (c <=? 90) || (97 <=? c) && (c <=? 122))%N.

Fixpoint scheme_rest (s : JsString.t) : bool :=
  match s with
  | [] => false
  | c :: r =>
      if (c =? 58)%N then true
      else if is_alpha c || (48 <=? c)%N && (c <=? 57)%N
              || (c =? 43)%N || (c =? 45)%N || (c =? 46)%N
           then scheme_rest r
           else false
  end.

Definition has_scheme (s : JsString.t) : bool :=
  match s with
  | c :: r => is_alpha c && scheme_rest r
  | [] => false
  end.

Definition the_range : Range :=
  {| start_line := 3; start_character := 0; end_line := 5; end_character := 1 |}.

(** A host with no editor and no user input, whose network answers every
    request with [answer]. *)
Definition host_with (answer : list Event -> AxiosResponse + JsError) : Host :=
  {| URL_ok := has_scheme;
     axios := answer;
     clicked := fun _ => None;
     picked := fun _ => None;
     activeTextEditor := fun _ => None;
     getText := fun _ _ _ => [];
     isCancellationRequested := fun _ => false;
     editSucceeds := fun _ => inl true |}.

(** A body with a catalog, and a body with a chat reply. *)
Definition catalog_body (names : list string) : Body :=
  {| models := Some (map js names);
     message_content := None;
     response := inr (TypeError_undefined "trim");
     json := js "{...}" |}.

Definition reply_body (text : string) : Body :=
  {| models := None;
     message_content := Some (inl (js text));
     response := inl (js text);
     json := js "{...}" |}.

(** A server that lists [names] and answers every prompt with [text]. *)
Definition serving (names : list string) (text : string)
  : list Event -> AxiosResponse + JsError :=
  fun l => match last l (HttpGet []) with
           | HttpGet _ => inl (Data (catalog_body names))
           | _ => inl (Data (reply_body text))
           end.

Definition local_server : Host := host_with (serving ["llama2"%string] " Hi! ").





(** The provider of the scenarios, built while the store holds the
    defaults, and the world in which [foo] is configured. *)
Definition provider : ChatProvider.OllamaCodeFixerChatProvider :=
  ChatProvider.constructor en (fresh "http://localhost:11434" "llama2").

Definition foo_configured : World := fresh "http://localhost:11434" "foo".

(** Nothing listens on the port. *)
Definition offline : Host := host_with (fun _ => inr connection_refused).

(** The fix command: the editor [first] is active when the command
    starts and [second] when the suggestion is about to be applied; the
    selected text is [selected]; the server answers with [reply]. *)
Definition reached_apply (l : list Event) : bool :=
  existsb (fun e => match e with ProgressReport 80 _ => true | _ => false end) l.

Definition editing (first second : TextEditor) (selected : string)
           (answer : list Event -> AxiosResponse + JsError) : Host :=
  {| URL_ok := has_scheme;
     axios := answer;
     clicked := fun _ => None;
     picked := fun _ => None;
     activeTextEditor := fun l =>
       if reached_apply l then Some second else Some first;
     getText := fun _ _ _ => js selected;
     isCancellationRequested := fun _ => false;
     editSucceeds := fun _ => inl true |}.

Definition left_editor : TextEditor :=
  {| editor_id := 1; document := 7; languageId := js "python";
     selection := the_range |}.

(** A second editor on the same document, with the same selection. *)
Definition right_editor : TextEditor :=
  {| editor_id := 2; document := 7; languageId := js "python";
     selection := the_range |}.

Definition generate_store : World :=
  fresh "http://localhost:11434/api/generate" "llama2".

End Scenario.

(* ===================================================================== *)
(** * Further vocabulary                                                  *)
(* ===================================================================== *)

(** The number of generation requests in a list of events. *)
Definition count_posts (l : list Event) : nat :=
  List.length (filter is_HttpPost l).

(** The events that do not involve the user: requests, the record of a
    retried call, and console lines. *)
Definition is_background (e : Event) : bool :=
  match e with
  | HttpGet _ | HttpPost _ _ _ | Retried _
  | ConsoleError _ | ConsoleWarn _ | ConsoleDebug _ | ConsoleLog _ => true
  | _ => false
  end.

(** Further scenarios. *)
Module MoreScenarios.

(** The catalog lists only [bar]; the user answers the message about the
    missing model with [choice] and picks nothing. *)
Definition answering (choice : option JsString.t) : Host :=
  {| URL_ok := Scenario.has_scheme;
     axios := Scenario.serving ["bar"%string] "done";
     clicked := fun _ => choice;
     picked := fun _ => None;
     activeTextEditor := fun _ => None;
     getText := fun _ _ _ => [];
     isCancellationRequested := fun _ => false;
     editSucceeds := fun _ => inl true |}.

Definition installing : Host :=
  answering (Some (ChatProvider.installModel Scenario.en)).

Definition dismissing : Host := answering None.

(** A provider constructed while [maxRetries] was set to [-1]. *)
Definition without_budget : ChatProvider.OllamaCodeFixerChatProvider :=
  ChatProvider.constructor Scenario.en
    (with_retry (-1) 1000%float 1.5%float (Scenario.fresh "http://localhost:11434" "llama2")).

End MoreScenarios.

(** The settings after [promptStructure.prefix] has been set. *)
Definition with_prefix (prefix : JsString.t + JsError) (c : Config.Settings)
  : Config.Settings :=
  {| Config.ollamaApiUrl := Config.ollamaApiUrl c;
     Config.modelName := Config.modelName c;
     Config.logLevel := Config.logLevel c;
     Config.enableNotifications := Config.enableNotifications c;
     Config.requestTimeout := Config.requestTimeout c;
     Config.maxRetries := Config.maxRetries c;
     Config.retryDelay := Config.retryDelay c;
     Config.retryBackoffMultiplier := Config.retryBackoffMultiplier c;
     Config.promptPrefix := prefix;
     Config.promptSuffix := Config.promptSuffix c |}.

(** The store of the fix command when [promptStructure.prefix] is
    [null]: the call of [replace] throws. *)
Definition null_prefix_store : World :=
  {| settings :=
       {| Config.ollamaApiUrl := js "http://localhost:11434/api/generate";
          Config.modelName := js "llama2";
          Config.logLevel := js "info";
          Config.enableNotifications := true;
          Config.requestTimeout := 90000;
          Config.maxRetries := 3;
          Config.retryDelay := 1000%float;
          Config.retryBackoffMultiplier := 1.5%float;
          Config.promptPrefix := inr (TypeError_reading js_null "replace");
          Config.promptSuffix := js " Corrected:" |};
     log := [] |}.

(** The user of [Scenario.editing] who cancels while the request is
    under way. *)
Definition cancelling (selected : string)
           (answer : list Event -> AxiosResponse + JsError) : Host :=
  {| URL_ok := Scenario.has_scheme;
     axios := answer;
     clicked := fun _ => None;
     picked := fun _ => None;
     activeTextEditor := fun _ => Some Scenario.left_editor;
     getText := fun _ _ _ => js selected;
     isCancellationRequested := fun l => existsb is_HttpPost l;
     editSucceeds := fun _ => inl true |}.

(** The store of the fix command with the notifications switched off. *)
Definition muted_store : World :=
  {| settings :=
       {| Config.ollamaApiUrl := js "http://localhost:11434/api/generate";
          Config.modelName := js "llama2";
          Config.logLevel := js "debug";
          Config.enableNotifications := false;
          Config.requestTimeout := 90000;
          Config.maxRetries := 3;
          Config.retryDelay := 1000%float;
          Config.retryBackoffMultiplier := 1.5%float;
          Config.promptPrefix := inl (js "Language: {language} ");
          Config.promptSuffix := js " Corrected:" |};
     log := [] |}.

(** The events that change nothing outside the window: no generation
    request, no terminal command, no write to the settings, no edit. *)
Definition is_inert (e : Event) : bool :=
  match e with
  | HttpPost _ _ _ | TerminalSendText _ | ConfigUpdate _ _ | Edit _ _ _ _ => false
  | _ => true
  end.

(** The events that put something in front of the user. *)
Definition is_shown (e : Event) : bool :=
  match e with
  | ShowErrorMessage _ _ | ShowWarningMessage _
  | ShowInformationMessage _ _ | ShowQuickPick _ _ => true
  | _ => false
  end.

Definition not_shown (e : Event) : bool := negb (is_shown e).

(* ===================================================================== *)
(** * chatProvider.ts : the handler of a chat message                     *)
(* ===================================================================== *)

Module ChatPanel.

Inductive MessageType := type_user | type_assistant | type_error.

(** What the handler posts to the web view. *)
Inductive PanelMessage :=
| addMessage (type : MessageType) (content timestamp : JsString.t)
| setLoading (loading : bool).

(** The panel as the handler sees it at the moment given by the log:
    whether [this._panel] is set ([dispose] clears it), and the text of
    [new Date().toLocaleTimeString()]. *)
Record Panel := {
  panel_set : list Event -> bool;
  toLocaleTimeString : list Event -> JsString.t
}.

(** [error instanceof Error ? error.message : typeof error === 'string'
     ? error : 'Произошла неизвестная ошибка'] *)
Definition thrown_text (error : option JsError) : JsString.t :=
  match error with
  | Some e => error_message e
  | None => js "Произошла неизвестная ошибка"
  end.

(** [handleChatMessage].  The panel can only change while the handler
    waits for [getOllamaResponse]; when it is gone by then, the access
    [this._panel.webview] throws in the [try] block, again in the [catch]
    block and again in the [finally] block, and the handler rejects. *)
Definition handleChatMessage (fuel : nat) (host : Host)
           (this : ChatProvider.OllamaCodeFixerChatProvider) (panel : Panel)
           (userMessage : JsString.t) (w : World)
  : option (Settled unit JsError) * World * list PanelMessage :=
  if negb (panel_set panel (log w)) then (Some (Resolved tt), w, [])
  else
    let posted :=
      [addMessage type_user userMessage (toLocaleTimeString panel (log w));
       setLoading true] in
    match ChatProvider.getOllamaResponse fuel host this userMessage w with
    | (None, w) => (None, w, posted)
    | (Some settled, w) =>
        if panel_set panel (log w) then
          let bubble :=
            match settled with
            | Resolved response =>
                addMessage type_assistant response
                           (toLocaleTimeString panel (log w))
            | Rejected error =>
                addMessage type_error (js "Ошибка: " ++ thrown_text error)
                           (toLocaleTimeString panel (log w))
            end in
          (Some (Resolved tt), w, posted ++ [bubble; setLoading false])
        else (Some (Rejected (TypeError_undefined "webview")), w, posted)
    end.

Definition is_error_bubble (m : PanelMessage) : bool :=
  match m with
  | addMessage type_error _ _ => true
  | _ => false
  end.

End ChatPanel.

(* ===================================================================== *)
(** * extension.ts, the version that uses the retry manager               *)
(* ===================================================================== *)

Module ExtensionWithRetry.

(** The [try] block of [getCorrectionFromOllama]; the request goes
    through [retryManager.withRetry]. *)
Definition correction_try (host : Host) (retryManager : RetryManager)
           (config : Config.Settings) (prompt : JsString.t) (w : World)
  : Settled JsString.t (option JsError) * World :=
  match withRetry_in retryManager
                     (axios_post host (Config.ollamaApiUrl config)
                                 (Config.modelName config) prompt) w with
  | (Rejected error, w) => (Rejected error, w)
  | (Resolved (NoData kind), w) =>
      (Rejected (Some (TypeError_reading kind "response")), w)
  | (Resolved (Data body), w) =>
      match response body with
      | inr error => (Rejected (Some error), w)
      | inl raw =>
          let w := emit_if (Extension.is_debug config)
                     (ConsoleLog (js "[OllamaCodeFixer] Raw response from model:
" ++ JsString.trim raw)) w in
          let w := emit_if (Extension.is_debug config)
                     (ConsoleLog
                        match JsString.regex_match (JsString.trim raw) with
                        | Some (_ :: _) =>
                            js "[OllamaCodeFixer] Extracted code from block:
" ++ JsString.extractCode raw
                        | _ =>
                            js "[OllamaCodeFixer] No final code block detected, using trimmed response directly."
                        end) w in
          (Resolved (JsString.extractCode raw), w)
      end
  end.

(** [error.code === text] *)
Definition code_is (code : option JsString.t) (text : JsString.t) : bool :=
  match code with
  | Some c => JsString.eqb c text
  | None => false
  end.

(** The message the [catch] block builds. *)
Definition errorMessage (error : option JsError) : JsString.t :=
  match error with
  | Some (AxiosError message code response request) =>
      if code_is code (js "ECONNREFUSED") then
        js "Could not connect to Ollama server. Please ensure the service is running."
      else if code_is code (js "ETIMEDOUT") then
        js "Request to Ollama server timed out. The server might be overloaded."
      else
        match response with
        | Some r =>
            js "Error calling Ollama API: " ++ message ++ js ". Status: "
               ++ JsString.of_Z (status r)
               ++ (if data_truthy r then js ". Data: " ++ data_json r else [])
        | None =>
            if request
            then js "No response received from Ollama. Please check if the service is running and accessible."
            else js "Error configuring request: " ++ message
        end
  | Some (OtherError message) => js "Unexpected error: " ++ message
  | None => js "An unknown error occurred"
  end.

(** The [catch] block. *)
Definition correction_catch (config : Config.Settings) (error : option JsError)
           (w : World) : World :=
  let w :=
    match error with
    | Some (AxiosError _ _ _ _) =>
        emit_if (Extension.is_debug config)
                (ConsoleError (js "[OllamaCodeFixer] API Call Error:")) w
    | Some (OtherError _) =>
        emit (ConsoleError (js "[OllamaCodeFixer] Unexpected Error:")) w
    | None => emit (ConsoleError (js "[OllamaCodeFixer] Unknown Error:")) w
    end in
  emit_if (Config.enableNotifications config)
          (ShowErrorMessage (errorMessage error) []) w.

(** [getCorrectionFromOllama] : a retry manager is constructed at every
    call. *)
Definition getCorrectionFromOllama (host : Host)
           (codeSnippet languageId : JsString.t) (w : World)
  : Settled (option JsString.t) JsError * World :=
  let config := settings w in
  let retryManager := new_RetryManager w in
  match Extension.build_prompt config codeSnippet languageId with
  | inr error => (Rejected error, w)
  | inl prompt =>
      let w := emit_if (Extension.is_debug config) (Extension.sending_to config) w in
      match correction_try host retryManager config prompt w with
      | (Resolved correctedCode, w) => (Resolved (Some correctedCode), w)
      | (Rejected error, w) => (Resolved None, correction_catch config error w)
      end
  end.

(** The text that the [catch] block of the status command adds. *)
Definition statusDetail (error : option JsError) : JsString.t :=
  match error with
  | Some (AxiosError message _ response request) =>
      match response with
      | Some r => js " Status: " ++ JsString.of_Z (status r)
      | None =>
          if request then js " No response received."
          else js " Error: " ++ message
      end
  | _ => js " Unknown error occurred."
  end.

(** The command [ollama-code-fixer.checkApiStatus].  [url_parts s] is
    [new URL(s)] seen through [protocol] and [host]; [None] when it
    throws. *)
Definition checkApiStatus (host : Host)
           (url_parts : JsString.t -> option (JsString.t * JsString.t))
           (w : World) : Settled unit JsError * World :=
  let configured := Config.ollamaApiUrl (settings w) in
  let '(baseUrl, w) :=
    match url_parts configured with
    | Some (protocol, authority) => (protocol ++ js "//" ++ authority, w)
    | None =>
        (js "http://localhost:11434",
         emit (ConsoleError (js "[OllamaCodeFixer] Invalid ollamaApiUrl for health check, using default base.")) w)
    end in
  let w := emit (ConsoleLog (js "[OllamaCodeFixer] Checking API status at: "
                               ++ baseUrl)) w in
  let retryManager := new_RetryManager w in
  match withRetry_in retryManager (axios_get host baseUrl) w with
  | (Resolved _, w) =>
      (Resolved tt,
       emit (ShowInformationMessage
               (js "Ollama API is accessible! Base URL check successful.") []) w)
  | (Rejected error, w) =>
      let statusMessage := js "Ollama API is not accessible." ++ statusDetail error in
      let w := emit (ConsoleError (js "[OllamaCodeFixer] checkApiStatus Error:")) w in
      (Resolved tt, emit (ShowErrorMessage statusMessage []) w)
  end.

End ExtensionWithRetry.

(* ===================================================================== *)
(** * extension.ts, the version without the retry manager: the status
      command                                                             *)
(* ===================================================================== *)

Module StatusCommand.

(** The template literal of the [try] block has no substitution: it is
    the same text whatever [urlObj] is. *)
Definition parsedBase : JsString.t :=
  js "<span class=" ++ [34%N] ++ js "math-inline" ++ [34%N]
     ++ js ">{urlObj.protocol}//</span>{urlObj.host}/".

Definition defaultBase : JsString.t := js "http://localhost:11434/".

(** [error as AxiosError] is a cast: the tests are made on whatever was
    thrown. *)
Definition statusDetail (error : JsError) : JsString.t :=
  match error with
  | AxiosError _ _ (Some r) _ => js " Status: " ++ JsString.of_Z (status r)
  | AxiosError _ _ None true => js " No response received."
  | _ => js " Error: " ++ error_message error
  end.

Definition checkApiStatus (host : Host) (w : World)
  : Settled unit JsError * World :=
  let configured := Config.ollamaApiUrl (settings w) in
  let '(baseUrl, w) :=
    if URL_ok host configured then (parsedBase, w)
    else
      (defaultBase,
       emit (ConsoleError (js "[OllamaCodeFixer] Invalid ollamaApiUrl for health check, using default base.")) w) in
  let w := emit (ConsoleLog (js "[OllamaCodeFixer] Checking API status at: "
                               ++ baseUrl)) w in
  match axios_get host baseUrl w with
  | (inl _, w) =>
      (Resolved tt,
       emit (ShowInformationMessage
               (js "Ollama API is accessible! Base URL check successful.") []) w)
  | (inr error, w) =>
      let statusMessage := js "Ollama API is not accessible." ++ statusDetail error in
      let w := emit (ConsoleError (js "[OllamaCodeFixer] checkApiStatus Error: "
                                     ++ statusMessage)) w in
      (Resolved tt, emit (ShowErrorMessage statusMessage []) w)
  end.

End StatusCommand.

(** The requests a list of events holds. *)
Definition gets (l : list Event) : list JsString.t :=
  flat_map (fun e => match e with HttpGet url => [url] | _ => [] end) l.

(** The messages a list of events puts in front of the user. *)
Definition shown (l : list Event) : list Event := filter is_shown l.

(* ===================================================================== *)
(** * utils/logger.ts                                                     *)
(* ===================================================================== *)

Module Logger.

Inductive LogLevel := ERROR | WARN | INFO | DEBUG.

(** The numeric values of the enum. *)
Definition value (l : LogLevel) : Z :=
  match l with ERROR => 0 | WARN => 1 | INFO => 2 | DEBUG => 3 end.

(** The second argument of a logging call, when it is truthy. *)
Inductive Data :=
| ErrorData (message : JsString.t) (stack : option JsString.t)
| OtherData (text : JsString.t).  (* the text [JSON.stringify] or, if it
                                     throws, string conversion gives *)

(** [formatMessage] *)
Definition formatMessage (timestamp level message : JsString.t)
           (data : option Data) : JsString.t :=
  js "[" ++ timestamp ++ js "] [" ++ level ++ js "] " ++ message ++
  match data with
  | None => []
  | Some (ErrorData m stack) =>
      js "
Error: " ++ m ++
      match stack with
      | Some (c :: s) => js "
Stack: " ++ c :: s
      | _ => []
      end
  | Some (OtherData text) => js "
Data: " ++ text
  end.

(** The logger: its level and the lines of its output channel. *)
Record t := {
  logLevel : LogLevel;
  outputChannel : list JsString.t
}.

Section Configured.

(** [String.prototype.toLowerCase] *)
Variable toLowerCase : JsString.t -> JsString.t.

(** [getConfiguredLogLevel], on the configured string. *)
Definition getConfiguredLogLevel (level : JsString.t) : LogLevel :=
  let lowered := toLowerCase level in
  if JsString.eqb lowered (js "debug") then DEBUG
  else if JsString.eqb lowered (js "info") then INFO
  else if JsString.eqb lowered (js "warn") then WARN
  else if JsString.eqb lowered (js "error") then ERROR
  else INFO.

(** [constructor] *)
Definition constructor (level : JsString.t) : t :=
  {| logLevel := getConfiguredLogLevel level; outputChannel := [] |}.

End Configured.

(** [log] *)
Definition log (level : LogLevel) (levelStr : JsString.t)
           (timestamp message : JsString.t) (data : option Data) (this : t) : t :=
  if (value level <=? value (logLevel this))%Z then
    {| logLevel := logLevel this;
       outputChannel :=
         outputChannel this ++ [formatMessage timestamp levelStr message data] |}
  else this.

Definition error := log ERROR (js "ERROR").
Definition warn := log WARN (js "WARN").
Definition info := log INFO (js "INFO").
Definition debug := log DEBUG (js "DEBUG").

End Logger.

(* ===================================================================== *)
(** * Properties of the string functions                                  *)
(* ===================================================================== *)

Section StringFacts.

Import JsString.

Lemma eqb_eq (a b : t) : eqb a b = true <-> a = b.
Proof.
  revert b; induction a as [|x a IH]; intros [|y b]; simpl; split;
    try congruence; try reflexivity.
  - intros H. apply andb_prop in H as [Hx Hab].
    apply N.eqb_eq in Hx. apply IH in Hab. congruence.
  - intros H. inversion H; subst. rewrite N.eqb_refl. simpl. now apply IH.
Qed.

Lemma eqb_refl (a : t) : eqb a a = true.
Proof. now apply eqb_eq. Qed.

Lemma strip_prefix_app (p r : t) : strip_prefix p (p ++ r) = Some r.
Proof.
  induction p as [|x p IH]; simpl; [reflexivity|].
  now rewrite N.eqb_refl.
Qed.

Lemma strip_prefix_split (p s r : t) : strip_prefix p s = Some r -> s = p ++ r.
Proof.
  revert s; induction p as [|x p IH]; intros s; simpl.
  - congruence.
  - destruct s as [|y s]; [discriminate|].
    destruct (N.eqb_spec x y); [|discriminate].
    intros H. apply IH in H. subst. reflexivity.
Qed.

Lemma ends_with_app (p s : t) : ends_with p (s ++ p) = true.
Proof.
  unfold ends_with. rewrite rev_app_distr, strip_prefix_app. reflexivity.
Qed.

Lemma drop_ws_head (s : t) c r : drop_ws s = c :: r -> is_ws c = false.
Proof.
  induction s as [|x s IH]; simpl; [discriminate|].
  destruct (is_ws x) eqn:Hx; [exact IH|].
  intros H. inversion H; subst. exact Hx.
Qed.



Lemma drop_ws_snoc (l : t) c :
  is_ws c = false -> drop_ws (l ++ [c]) = drop_ws l ++ [c].
Proof.
  intros Hc. induction l as [|x l IH]; simpl.
  - now rewrite Hc.
  - destruct (is_ws x); [exact IH|reflexivity].
Qed.

(** The shape of a trimmed string: empty, or a non-blank code unit followed
    by the reverse of a string that does not start with a blank. *)
Lemma trim_shape (s : t) :
  trim s = [] \/
  exists c r, is_ws c = false /\ trim s = c :: rev (drop_ws r).
Proof.
  unfold trim. destruct (drop_ws s) as [|c r] eqn:E.
  - left. reflexivity.
  - right. exists c, (rev r). pose proof (drop_ws_head _ _ _ E) as Hc.
    split; [exact Hc|]. simpl rev at 2.
    rewrite drop_ws_snoc by exact Hc.
    rewrite rev_app_distr. reflexivity.
Qed.


Lemma body_then_close_split (s m : t) :
  body_then_close s = Some m -> s = m ++ fence.
Proof.
  revert m; induction s as [|c s IH]; intros m.
  - simpl. discriminate.
  - cbn [body_then_close]. destruct (eqb (c :: s) fence) eqn:E.
    + intros H. inversion H; subst. apply eqb_eq in E. exact E.
    + destruct (body_then_close s) as [m'|]; simpl; [|discriminate].
      intros H. inversion H; subst. simpl. f_equal. now apply IH.
Qed.

(** A language tag: word characters and a line feed. *)
Lemma tag_then_body_split (s m : t) :
  tag_then_body s = Some m ->
  exists tag, s = tag ++ [10%N] ++ m ++ fence /\ forallb is_word tag = true.
Proof.
  revert m; induction s as [|c s IH]; intros m; simpl; [discriminate|].
  destruct (if is_word c then tag_then_body s else None) as [m'|] eqn:E.
  - intros H. inversion H; subst.
    destruct (is_word c) eqn:Hc; [|discriminate].
    destruct (IH _ E) as (tag & Hs & Htag). exists (c :: tag). split.
    + simpl. now f_equal.
    + simpl. now rewrite Hc, Htag.
  - destruct (N.eqb_spec c 10); [|discriminate]. subst c.
    intros H. apply body_then_close_split in H. exists []. split.
    + simpl. now f_equal.
    + reflexivity.
Qed.

(** A match is an opening fence, an optional language tag, the capture and
    a closing fence that ends the text. *)
Lemma regex_match_split (s m : t) :
  regex_match s = Some m ->
  exists before tag,
    s = before ++ fence ++ tag ++ m ++ fence /\
    (tag = [] \/ exists word, tag = word ++ [10%N] /\ forallb is_word word = true).
Proof.
  induction s as [|c s IH].
  - simpl. discriminate.
  - cbn [regex_match]. destruct (match_here (c :: s)) as [m'|] eqn:E.
    + intros H. inversion H; subst. unfold match_here in E.
      destruct (strip_prefix fence (c :: s)) as [r|] eqn:Er; [|discriminate].
      apply strip_prefix_split in Er. unfold after_open in E.
      destruct (tag_then_body r) as [m'|] eqn:Et.
      * inversion E; subst.
        destruct (tag_then_body_split _ _ Et) as (word & Hr & Hword).
        exists [], (word ++ [10%N]). split.
        -- rewrite Er, Hr. simpl. now rewrite <- !app_assoc.
        -- right. now exists word.
      * apply body_then_close_split in E. exists [], []. split.
        -- now rewrite Er, E.
        -- now left.
    + intros H. destruct (IH H) as (before & tag & Hs & Htag).
      exists (c :: before), tag. split; [|exact Htag]. simpl. now f_equal.
Qed.

Lemma regex_match_ends_with (s m : t) :
  regex_match s = Some m -> ends_with fence s = true.
Proof.
  intros H. destruct (regex_match_split _ _ H) as (before & tag & -> & _).
  rewrite !app_assoc. apply ends_with_app.
Qed.


End StringFacts.

Section StringMore.

Import JsString.

Lemma drop_ws_blank (a l : t) :
  forallb is_ws a = true -> drop_ws (a ++ l) = drop_ws l.
Proof.
  induction a as [|c a IH]; simpl; [reflexivity|].
  intros H. apply andb_prop in H as [Hc Ha]. rewrite Hc. now apply IH.
Qed.

Lemma forallb_rev (f : N -> bool) (l : t) :
  forallb f l = true -> forallb f (rev l) = true.
Proof.
  rewrite !forallb_forall. intros H x Hx. apply H. now apply in_rev.
Qed.

(** Trimming removes the blanks around a core that starts and ends with a
    code unit that is not blank. *)
Lemma trim_core (a b mid : t) (x y : N) :
  forallb is_ws a = true -> forallb is_ws b = true ->
  is_ws x = false -> is_ws y = false ->
  trim (a ++ (x :: mid ++ [y]) ++ b) = x :: mid ++ [y].
Proof.
  intros Ha Hb Hx Hy. unfold trim.
  rewrite drop_ws_blank by exact Ha.
  cbn [app drop_ws]. rewrite Hx.
  change (x :: (mid ++ [y]) ++ b) with ((x :: mid ++ [y]) ++ b).
  rewrite rev_app_distr, drop_ws_blank by (now apply forallb_rev).
  change (x :: mid ++ [y]) with ((x :: mid) ++ [y]).
  rewrite rev_app_distr. cbn [rev app drop_ws]. rewrite Hy.
  cbn [rev]. rewrite rev_app_distr, rev_involutive. reflexivity.
Qed.

Lemma regex_match_here (s m : t) :
  match_here s = Some m -> regex_match s = Some m.
Proof. intros H. destruct s; cbn [regex_match]; now rewrite H. Qed.

Lemma fence_wrap (x : t) :
  fence ++ x ++ fence = 96%N :: ([96%N; 96%N] ++ x ++ [96%N; 96%N]) ++ [96%N].
Proof. unfold fence. simpl. do 3 f_equal. now rewrite <- app_assoc. Qed.

Lemma trim_ends (s : t) :
  trim s = [] \/
  exists c r, trim s = c :: r /\ is_ws c = false /\ is_ws (last (c :: r) c) = false.
Proof.
  destruct (trim_shape s) as [E | (c & r & Hc & E)]; [now left|right].
  exists c, (rev (drop_ws r)). split; [exact E|]. split; [exact Hc|].
  destruct (drop_ws r) as [|c' r'] eqn:Er.
  - exact Hc.
  - apply drop_ws_head in Er. cbn [rev].
    change (c :: rev r' ++ [c']) with ((c :: rev r') ++ [c']).
    now rewrite last_last.
Qed.

Lemma eqb_longer (b : t) (c : N) : eqb (c :: b ++ fence) fence = false.
Proof.
  destruct (eqb (c :: b ++ fence) fence) eqn:E; [|reflexivity].
  apply eqb_eq in E. apply (f_equal (@List.length N)) in E.
  simpl in E. rewrite length_app in E. simpl in E. lia.
Qed.

(** The lazy capture followed by the anchored fence takes everything up to
    the fence that ends the text, whatever it contains. *)
Lemma body_then_close_app (b : t) : body_then_close (b ++ fence) = Some b.
Proof.
  induction b as [|c b IH]; [reflexivity|].
  change ((c :: b) ++ fence) with (c :: b ++ fence).
  cbn [body_then_close]. rewrite eqb_longer, IH. reflexivity.
Qed.

Lemma word_is_not_line_feed (c : N) : is_word c = true -> (c =? 10)%N = false.
Proof.
  intros H. destruct (N.eqb_spec c 10); [|reflexivity]. subst c. discriminate.
Qed.

Lemma tag_then_body_tag (word rest : t) :
  forallb is_word word = true ->
  tag_then_body (word ++ 10%N :: rest) = body_then_close rest.
Proof.
  induction word as [|c word IH]; intros H.
  - reflexivity.
  - simpl in H. apply andb_prop in H as [Hc Hw].
    change ((c :: word) ++ 10%N :: rest) with (c :: word ++ 10%N :: rest).
    cbn [tag_then_body]. rewrite Hc, (IH Hw).
    destruct (body_then_close rest); [reflexivity|].
    now rewrite (word_is_not_line_feed _ Hc).
Qed.

Lemma tag_then_body_no_tag (c : N) (rest : t) :
  is_word c = false -> (c =? 10)%N = false -> tag_then_body (c :: rest) = None.
Proof. intros Hw Hn. cbn [tag_then_body]. now rewrite Hw, Hn. Qed.

Lemma find_first_sound (pattern : t) : forall s acc before after,
  find_first pattern s acc = Some (before, after) ->
  rev acc ++ s = before ++ pattern ++ after.
Proof.
  induction s as [|c s IH]; intros acc before after; cbn [find_first].
  - destruct (strip_prefix pattern []) as [r|] eqn:E; [|discriminate].
    intros H; inversion H; subst. apply strip_prefix_split in E. now rewrite E.
  - destruct (strip_prefix pattern (c :: s)) as [r|] eqn:E.
    + intros H; inversion H; subst. apply strip_prefix_split in E. now rewrite E.
    + intros H. apply IH in H. cbn [rev] in H. now rewrite <- app_assoc in H.
Qed.

Lemma find_first_after_clean (p0 : N) (pattern : t) (b : t) :
  forall a acc,
    forallb (fun c => negb (c =? p0)%N) a = true ->
    find_first (p0 :: pattern) (a ++ (p0 :: pattern) ++ b) acc
    = Some (rev acc ++ a, b).
Proof.
  induction a as [|c a IH]; intros acc Ha.
  - cbn [app]. assert (E : strip_prefix (p0 :: pattern) ((p0 :: pattern) ++ b) = Some b)
      by apply strip_prefix_app.
    destruct pattern, b; cbn [find_first app] in *; rewrite E;
      now rewrite app_nil_r.
  - simpl in Ha. apply andb_prop in Ha as [Hc Ha].
    change ((c :: a) ++ (p0 :: pattern) ++ b) with (c :: a ++ (p0 :: pattern) ++ b).
    cbn [find_first strip_prefix].
    rewrite N.eqb_sym. apply negb_true_iff in Hc. rewrite Hc.
    rewrite IH by exact Ha. cbn [rev]. now rewrite <- app_assoc.
Qed.

Lemma substitution_plain (matched before after replacement : t) :
  forallb (fun c => negb (c =? 36)%N) replacement = true ->
  substitution matched before after replacement = replacement.
Proof.
  induction replacement as [|c r IH]; [reflexivity|].
  intros H. simpl in H. apply andb_prop in H as [Hc Hr].
  apply negb_true_iff in Hc.
  cbn [substitution]. destruct r as [|d r']; [reflexivity|].
  rewrite Hc. cbn [andb]. f_equal. now apply IH.
Qed.

Lemma drop_slashes_run (n : nat) (l : t) :
  drop_slashes (repeat 47%N n ++ l) = drop_slashes l.
Proof. induction n as [|n IH]; [reflexivity|exact IH]. Qed.

Lemma rev_repeat (n : nat) (c : N) : rev (repeat c n) = repeat c n.
Proof.
  induction n as [|n IH]; [reflexivity|].
  simpl. rewrite IH. clear IH.
  induction n as [|n IH]; [reflexivity|]. simpl. now rewrite IH.
Qed.

Lemma drop_slashes_head (s : t) c r :
  drop_slashes s = c :: r -> (c =? 47)%N = false.
Proof.
  induction s as [|x s IH]; simpl; [discriminate|].
  destruct (x =? 47)%N eqn:Hx; [exact IH|].
  intros H. inversion H; subst. exact Hx.
Qed.

End StringMore.

Section BlockFacts.

Import JsString.



(** After the opening fence: the matcher finds the contents of the block
    that the closing fence at the end of the text ends. *)
Lemma after_open_contents (rest m : t) :
  block_contents rest m -> after_open (rest ++ fence) = Some m.
Proof.
  unfold after_open. intros [(word & -> & Hword) | (-> & Hnone)].
  - rewrite <- app_assoc.
    change ((10%N :: m) ++ fence) with (10%N :: m ++ fence).
    now rewrite tag_then_body_tag, body_then_close_app.
  - destruct (tag_then_body (rest ++ fence)) as [m'|] eqn:E.
    + destruct (tag_then_body_split _ _ E) as (tag & Hs & Htag).
      change (tag ++ [10%N] ++ m' ++ fence) with (tag ++ (10%N :: m') ++ fence) in Hs.
      rewrite app_assoc in Hs. apply app_inv_tail in Hs.
      rewrite (Hnone _ _ Hs) in Htag. discriminate.
    + apply body_then_close_app.
Qed.

Lemma after_open_sound (r m : t) :
  after_open r = Some m ->
  exists rest, r = rest ++ fence /\ block_contents rest m.
Proof.
  unfold after_open. destruct (tag_then_body r) as [m'|] eqn:E.
  - intros H. inversion H; subst m'.
    destruct (tag_then_body_split _ _ E) as (tag & Hs & Htag).
    exists (tag ++ 10%N :: m). split.
    + rewrite Hs, <- app_assoc. reflexivity.
    + left. now exists tag.
  - intros H. pose proof (body_then_close_split _ _ H) as Hr.
    exists m. split; [exact Hr|]. right. split; [reflexivity|].
    intros word m' Hm.
    destruct (forallb is_word word) eqn:Hword; [|reflexivity].
    exfalso. subst r m. rewrite <- app_assoc in E.
    change ((10%N :: m') ++ fence) with (10%N :: m' ++ fence) in E.
    rewrite tag_then_body_tag, body_then_close_app in E by exact Hword.
    discriminate.
Qed.

(** A match attempt fails exactly where no fence is followed by a closing
    fence at the end of the text. *)
Lemma match_here_none (s : t) :
  match_here s = None <-> forall rest, s <> fence ++ rest ++ fence.
Proof.
  unfold match_here. split.
  - intros H rest ->. rewrite strip_prefix_app in H.
    destruct (after_open (rest ++ fence)) as [m|] eqn:E; [discriminate|].
    unfold after_open in E.
    destruct (tag_then_body (rest ++ fence)); [discriminate|].
    rewrite body_then_close_app in E. discriminate.
  - intros H. destruct (strip_prefix fence s) as [r|] eqn:Er; [|reflexivity].
    destruct (after_open r) as [m|] eqn:E; [|reflexivity].
    apply strip_prefix_split in Er.
    destruct (after_open_sound _ _ E) as (rest & -> & _).
    now elim (H rest).
Qed.

Lemma match_here_contents (rest m : t) :
  block_contents rest m -> match_here (fence ++ rest ++ fence) = Some m.
Proof.
  intros H. unfold match_here. rewrite strip_prefix_app.
  now apply after_open_contents.
Qed.

(** The matcher finds the fenced block of the specification, and nothing
    else. *)
Lemma regex_match_block (s m : t) :
  regex_match s = Some m <-> fenced_block s m.
Proof.
  split.
  - induction s as [|c s IH].
    + simpl. discriminate.
    + cbn [regex_match]. destruct (match_here (c :: s)) as [m'|] eqn:E.
      * intros H. inversion H; subst m'. unfold match_here in E.
        destruct (strip_prefix fence (c :: s)) as [r|] eqn:Er; [|discriminate].
        apply strip_prefix_split in Er.
        destruct (after_open_sound _ _ E) as (rest & Hr & Hm).
        exists [], rest. split; [now rewrite Er, Hr|].
        split; [intros; simpl; lia|exact Hm].
      * intros H. destruct (IH H) as (before & rest & Hs & Hmin & Hm).
        exists (c :: before), rest. split; [simpl; now f_equal|].
        split; [|exact Hm].
        intros before' rest' Hs'. destruct before' as [|c' before'].
        -- pose proof (proj1 (match_here_none _) E rest') as E'. now elim E'.
        -- change ((c' :: before') ++ fence ++ rest' ++ fence)
             with (c' :: before' ++ fence ++ rest' ++ fence) in Hs'.
           inversion Hs' as [[Hc Hs2]]. simpl.
           apply le_n_S. apply (Hmin before' rest' Hs2).
  - intros (before & rest & -> & Hmin & Hm).
    induction before as [|c before IH].
    + apply regex_match_here. now apply match_here_contents.
    + change ((c :: before) ++ fence ++ rest ++ fence)
        with (c :: before ++ fence ++ rest ++ fence).
      cbn [regex_match].
      destruct (match_here (c :: before ++ fence ++ rest ++ fence)) as [m'|] eqn:E.
      * exfalso. unfold match_here in E.
        destruct (strip_prefix fence _) as [r|] eqn:Er; [|discriminate].
        apply strip_prefix_split in Er.
        destruct (after_open_sound _ _ E) as (rest' & Hr & _).
        specialize (Hmin [] rest'). simpl in Hmin.
        assert (Datatypes.S (List.length before) <= 0); [|lia].
        apply Hmin. exact (eq_trans Er (f_equal (app fence) Hr)).
      * apply IH. intros before' rest' Hs'.
        specialize (Hmin (c :: before') rest'). simpl in Hmin.
        apply le_S_n. apply Hmin. exact (f_equal (cons c) Hs').
Qed.

(** A text holds at most one fenced block, and what it contains is
    determined. *)
Lemma fenced_block_unique (s m1 m2 : t) :
  fenced_block s m1 -> fenced_block s m2 -> m1 = m2.
Proof.
  intros H1 H2. apply regex_match_block in H1, H2. congruence.
Qed.


End BlockFacts.




(* ===================================================================== *)
(** * Properties of the retry engine                                      *)
(* ===================================================================== *)

Section RetryFacts.

Import Retry.

Context {num S T E : Type}.
Variable mul : num -> num -> num.
Variable options : RetryOptions num.
Variable operation : S -> (T + E) * S.
Variable isRetryable : E -> bool + E.

Local Abbreviation loop := (retry_loop mul options operation isRetryable).
Local Abbreviation plan := (schedule mul options).
Local Abbreviation total := (maxRetries options + 1)%Z.
Local Abbreviation remaining := (Retry.remaining options).

Lemma schedule_two n attempt delay :
  plan (Datatypes.S (Datatypes.S n)) attempt delay
  = Invoke attempt total :: Wait delay
      :: plan (Datatypes.S n) (attempt + 1)%Z (mul delay (backoffMultiplier options)).
Proof. reflexivity. Qed.

Lemma invocations_schedule n : forall attempt delay,
  invocations (plan n attempt delay)
  = map (fun i => (attempt + Z.of_nat i)%Z) (seq 0 n).
Proof.
  induction n as [|n IH]; intros attempt delay; [reflexivity|].
  destruct n as [|n].
  - simpl. now rewrite Z.add_0_r.
  - rewrite schedule_two. cbn [invocations flat_map app].
    change (flat_map _ ?l) with (invocations l).
    rewrite IH.
    change (seq 0 (Datatypes.S (Datatypes.S n))) with (0 :: seq 1 (Datatypes.S n)).
    cbn [map]. rewrite Z.add_0_r. f_equal.
    rewrite <- seq_shift, map_map. apply map_ext. intros i. lia.
Qed.

Lemma delays_schedule n : forall attempt delay,
  delays (plan n attempt delay)
  = map (fun i => delay_after mul options i delay) (seq 0 (pred n)).
Proof.
  induction n as [|n IH]; intros attempt delay; [reflexivity|].
  destruct n as [|n]; [reflexivity|].
  rewrite schedule_two. cbn [delays flat_map app].
  change (flat_map _ ?l) with (delays l).
  rewrite IH. cbn [pred]. change (seq 0 (Datatypes.S n)) with (0 :: seq 1 n).
  cbn [map]. f_equal.
  rewrite <- seq_shift, map_map. apply map_ext. intros i.
  unfold delay_after. now rewrite Nat.iter_succ_r.
Qed.

Lemma replay_S n s :
  replay operation (Datatypes.S n) s
  = let (o, s') := operation s in
    let (os, s'') := replay operation n s' in (o :: os, s'').
Proof. reflexivity. Qed.

Lemma loop_steps_nonempty fuel attempt delay lastError s :
  (attempt <= total)%Z -> fuel <> 0 ->
  snd (loop fuel attempt delay lastError s) = [] -> False.
Proof.
  intros Hle Hfuel. destruct fuel as [|fuel]; [congruence|].
  cbn [retry_loop]. destruct (Z.leb_spec attempt total); [|lia].
  destruct (operation s) as [[result|error] s1]; [discriminate|].
  destruct (attempt <=? maxRetries options)%Z; [|discriminate].
  destruct (isRetryable error) as [[|]|x]; try discriminate.
  destruct (loop fuel _ _ _ _) as [[r1 s2] steps1]. discriminate.
Qed.

Ltac single_call :=
  repeat match goal with
         | H : nth_error [_] _ = Some _ |- _ => simpl in H
         end;
  try discriminate; try congruence; try lia.

(** Every run of the loop is a schedule: the operation is replayed [n]
    times, every call but the last failed with a failure classified as
    retryable, and the last call decides the result. *)
Lemma retry_loop_run fuel : forall attempt delay lastError s r s' steps,
  remaining attempt <= fuel ->
  loop fuel attempt delay lastError s = (r, s', steps) ->
  exists n os,
    steps = plan n attempt delay /\
    n <= remaining attempt /\
    replay operation n s = (os, s') /\
    (forall i o, Datatypes.S i < n -> nth_error os i = Some o ->
                 exists e, o = inr e /\ isRetryable e = inl true) /\
    (n = 0 -> r = Rejected lastError) /\
    (forall v, nth_error os (pred n) = Some (inl v) -> r = Resolved v) /\
    (forall e, nth_error os (pred n) = Some (inr e) ->
               r = no_more_retries isRetryable e /\
               (isRetryable e = inl true -> n = remaining attempt)).
Proof.
  unfold Retry.remaining.
  induction fuel as [|fuel IH]; intros attempt delay lastError s r s' steps Hfuel;
    cbn [retry_loop]; destruct (Z.leb_spec attempt total) as [Hle|Hgt].
  - lia.
  - intros H; inversion H; subst. exists 0, [].
    repeat split; try reflexivity; try lia; intros; try discriminate;
      try (destruct i; discriminate).
  - destruct (operation s) as [[result|error] s1] eqn:Hop.
    + intros H; inversion H; subst. exists 1, [inl result].
      cbn [replay]. rewrite Hop.
      repeat split; try reflexivity; try lia; intros; single_call.
    + assert (Hlast : forall r0,
                 (r0 = no_more_retries isRetryable error) ->
                 (isRetryable error = inl true -> (maxRetries options < attempt)%Z) ->
                 (r0, s1, [Invoke (num:=num) attempt total]) = (r, s', steps) ->
                 exists n os,
                   steps = plan n attempt delay /\
                   n <= Z.to_nat (maxRetries options + 2 - attempt) /\
                   replay operation n s = (os, s') /\
                   (forall i o, Datatypes.S i < n -> nth_error os i = Some o ->
                                exists e, o = inr e /\ isRetryable e = inl true) /\
                   (n = 0 -> r = Rejected lastError) /\
                   (forall v, nth_error os (pred n) = Some (inl v) -> r = Resolved v) /\
                   (forall e, nth_error os (pred n) = Some (inr e) ->
                              r = no_more_retries isRetryable e /\
                              (isRetryable e = inl true ->
                               n = Z.to_nat (maxRetries options + 2 - attempt)))).
      { intros r0 Hr0 Hbudget H; inversion H; subst. exists 1, [inr error].
        cbn [replay]. rewrite Hop.
        repeat split; try reflexivity; try lia; intros; single_call.
        match goal with
        | H : Some _ = Some _ |- _ => inversion H; subst
        end.
        match goal with
        | H : isRetryable _ = inl true |- _ => specialize (Hbudget H)
        end. lia. }
      destruct (Z.leb_spec attempt (maxRetries options)) as [Hretry|Hstop].
      * destruct (isRetryable error) as [[|]|x] eqn:Hp.
        -- destruct (loop fuel (attempt + 1)%Z
                           (mul delay (backoffMultiplier options))
                           (Some error) s1) as [[r1 s2] steps1] eqn:Hrec.
           intros H; inversion H; subst.
           assert (Hf : Z.to_nat (maxRetries options + 2 - (attempt + 1)) <= fuel)
             by lia.
           destruct (IH _ _ _ _ _ _ _ Hf Hrec)
             as (n & os & Hsteps & Hn & Hreplay & Hpre & Hzero & Hok & Hko).
           assert (Hn1 : n <> 0).
           { intros ->. simpl in Hsteps. subst steps1.
             apply (loop_steps_nonempty fuel (attempt + 1)%Z
                      (mul delay (backoffMultiplier options)) (Some error) s1);
               [lia | lia | now rewrite Hrec]. }
           destruct n as [|n]; [congruence|].
           exists (Datatypes.S (Datatypes.S n)), (inr error :: os).
           rewrite schedule_two, Hsteps, replay_S, Hop, Hreplay.
           repeat split; try reflexivity; try lia.
           ++ intros i o Hi Hnth. destruct i as [|i].
              ** simpl in Hnth. inversion Hnth; subst. eauto.
              ** simpl in Hnth. apply (Hpre i o); [lia|exact Hnth].
           ++ intros v Hnth. apply Hok. exact Hnth.
           ++ apply Hko. exact H0.
           ++ intros Hp'. cbn [pred] in H0.
              destruct (Hko e H0) as [_ Hfull]. specialize (Hfull Hp'). lia.
        -- apply Hlast; [unfold no_more_retries; now rewrite Hp | congruence].
        -- apply Hlast; [unfold no_more_retries; now rewrite Hp | congruence].
      * apply Hlast; [reflexivity | lia].
  - intros H; inversion H; subst. exists 0, [].
    repeat split; try reflexivity; try lia; intros; try discriminate;
      try (destruct i; discriminate).
Qed.

Lemma replay_length n : forall s os s',
  replay operation n s = (os, s') -> List.length os = n.
Proof.
  induction n as [|n IH]; intros s os s'.
  - simpl. intros H; inversion H. reflexivity.
  - rewrite replay_S. destruct (operation s) as [o s1].
    destruct (replay operation n s1) as [os1 s2] eqn:Hr.
    intros H; inversion H; subst. simpl. f_equal. eapply IH; eauto.
Qed.

(** [k] failures classified as retryable, then a success: the loop makes
    [k + 1] attempts if the budget allows and uses the whole budget
    otherwise. *)
Lemma retry_loop_fails_then_succeeds k s v :
  FailsThenSucceeds operation isRetryable k s v ->
  forall fuel attempt delay lastError r s' steps,
    remaining attempt <= fuel ->
    loop fuel attempt delay lastError s = (r, s', steps) ->
    steps = plan (Nat.min (Datatypes.S k) (remaining attempt)) attempt delay /\
    (Datatypes.S k <= remaining attempt -> r = Resolved v).
Proof.
  unfold Retry.remaining.
  induction 1 as [s v s1 Hop | k s e s1 v Hop Hp Hfts IH];
    intros fuel attempt delay lastError r s' steps Hfuel;
    (destruct fuel as [|fuel]; cbn [retry_loop];
     destruct (Z.leb_spec attempt total) as [Hle|Hgt]; [lia| | |]);
    try (intros H; inversion H; subst;
         replace (Z.to_nat (maxRetries options + 2 - attempt)) with 0 by lia;
         rewrite Nat.min_0_r; split; [reflexivity|lia]).
  - rewrite Hop. intros H; inversion H; subst.
    destruct (Z.to_nat (maxRetries options + 2 - attempt)) as [|R] eqn:ER; [lia|].
    split; reflexivity.
  - rewrite Hop.
    destruct (Z.to_nat (maxRetries options + 2 - attempt)) as [|R] eqn:ER; [lia|].
    destruct (Z.leb_spec attempt (maxRetries options)) as [Hretry|Hstop].
    + rewrite Hp.
      destruct (loop fuel (attempt + 1)%Z (mul delay (backoffMultiplier options))
                     (Some e) s1) as [[r1 s2] steps1] eqn:Hrec.
      intros H; inversion H; subst.
      assert (Hf : Z.to_nat (maxRetries options + 2 - (attempt + 1)) <= fuel) by lia.
      destruct (IH _ _ _ _ _ _ _ Hf Hrec) as [Hsteps Hres].
      replace (Z.to_nat (maxRetries options + 2 - (attempt + 1))) with R in * by lia.
      destruct R as [|R]; [lia|].
      split.
      * rewrite Hsteps. reflexivity.
      * intros Hk. apply Hres. lia.
    + intros H; inversion H; subst.
      assert (R = 0) by lia. subst R. split; [reflexivity|lia].
Qed.

(** The three ways a call with the default predicate goes. *)
Lemma withRetry_empty_budget s :
  (maxRetries options < 0)%Z ->
  withRetry mul options operation isRetryable s = (Rejected None, s, []).
Proof.
  intros H. unfold withRetry.
  replace (Z.to_nat total) with 0 by lia. cbn [retry_loop].
  destruct (Z.leb_spec 1 total); [lia|reflexivity].
Qed.

Lemma withRetry_first_success s v s1 :
  (0 <= maxRetries options)%Z -> operation s = (inl v, s1) ->
  withRetry mul options operation isRetryable s
  = (Resolved v, s1, [Invoke 1 total]).
Proof.
  intros H Hop. unfold withRetry.
  destruct (Z.to_nat total) as [|fuel] eqn:Hfuel; [lia|]. cbn [retry_loop].
  destruct (Z.leb_spec 1 total); [|lia]. now rewrite Hop.
Qed.

Lemma withRetry_predicate_throws s e x s1 :
  (0 <= maxRetries options)%Z -> operation s = (inr e, s1) ->
  isRetryable e = inr x ->
  withRetry mul options operation isRetryable s
  = (Rejected (Some x), s1, [Invoke 1 total]).
Proof.
  intros H Hop Hp. unfold withRetry.
  destruct (Z.to_nat total) as [|fuel] eqn:Hfuel; [lia|]. cbn [retry_loop].
  destruct (Z.leb_spec 1 total); [|lia]. rewrite Hop.
  unfold no_more_retries. rewrite Hp.
  now destruct (1 <=? maxRetries options)%Z.
Qed.

End RetryFacts.

(** The shape of a run of the loop, for every arithmetic of the delay:
    the attempts, their order, and the waits between them. *)
Lemma withRetry_run_shape
        (num S T E : Type) (mul : num -> num -> num)
        (options : Retry.RetryOptions num)
        (operation : S -> (T + E) * S) (isRetryable : E -> bool + E) (s : S)
        (r : Settled T (option E)) (s' : S) (steps : list (Retry.Step num)) :
  Retry.withRetry mul options operation isRetryable s = (r, s', steps) ->
  let n := List.length (Retry.invocations steps) in
  (steps = Retry.schedule mul options n 1 (Retry.retryDelay options) /\
   Retry.invocations steps = map Z.of_nat (seq 1 n) /\
   n <= Z.to_nat (Retry.maxRetries options + 1)) /\
  (exists os,
      Retry.replay operation n s = (os, s') /\
      forall i v, nth_error os i = Some (inl v) ->
                  Datatypes.S i = n /\ r = Resolved v) /\
  (forall k v,
      Retry.FailsThenSucceeds operation isRetryable k s v ->
      n = Nat.min (k + 1) (Z.to_nat (Retry.maxRetries options + 1)) /\
      (Z.of_nat k <= Retry.maxRetries options -> r = Resolved v)%Z /\
      forall i, 1 <= i < n ->
        nth_error (Retry.delays steps) (i - 1)
        = Some (Nat.iter (i - 1)
                         (fun delay => mul delay (Retry.backoffMultiplier options))
                         (Retry.retryDelay options))).
Proof.
  intros Hrun n. unfold Retry.withRetry in Hrun.
  assert (Hrem : Retry.remaining options 1 = Z.to_nat (Retry.maxRetries options + 1)).
  { unfold Retry.remaining. f_equal. lia. }
  assert (Hfuel : Retry.remaining options 1 <= Z.to_nat (Retry.maxRetries options + 1))
    by (rewrite Hrem; lia).
  destruct (retry_loop_run mul options operation isRetryable _ _ _ _ _ _ _ _ Hfuel Hrun)
    as (n' & os & Hsteps & Hn & Hreplay & Hpre & _ & Hok & _).
  assert (Hlen : forall m a d,
             List.length (Retry.invocations (Retry.schedule mul options m a d)) = m).
  { intros m a d. now rewrite invocations_schedule, length_map, length_seq. }
  assert (Hnn : n = n') by (subst n; rewrite Hsteps; apply Hlen).
  clearbody n. subst n'.
  split; [|split].
  - split; [exact Hsteps|]. split; [|lia].
    rewrite Hsteps, invocations_schedule, <- seq_shift, map_map.
    apply map_ext. intros i. lia.
  - exists os. split; [exact Hreplay|]. intros i v Hnth.
    pose proof (replay_length operation _ _ _ _ Hreplay) as Hlos.
    assert (i < n) by (rewrite <- Hlos; apply nth_error_Some; congruence).
    assert (Datatypes.S i = n).
    { destruct (Nat.eq_dec (Datatypes.S i) n) as [|Hne]; [assumption|].
      destruct (Hpre i (inl v)) as (e & He & _); [lia|exact Hnth|discriminate]. }
    split; [assumption|]. apply Hok.
    replace (Init.Nat.pred n) with i by lia. exact Hnth.
  - intros k v Hfts.
    destruct (retry_loop_fails_then_succeeds mul options operation isRetryable
                k s v Hfts _ _ _ _ _ _ _ Hfuel Hrun)
      as [Hplan Hres].
    assert (Hnk : n = Nat.min (k + 1) (Z.to_nat (Retry.maxRetries options + 1))).
    { rewrite <- Hrem. replace (k + 1) with (Datatypes.S k) by lia.
      rewrite <- (Hlen n 1%Z (Retry.retryDelay options)), <- Hsteps, Hplan.
      apply Hlen. }
    split; [exact Hnk|]. split.
    + intros Hk. apply Hres. rewrite Hrem. lia.
    + intros i Hi.
      rewrite Hsteps, delays_schedule.
      rewrite nth_error_map, nth_error_seq.
      destruct (Nat.ltb_spec (i - 1) (Init.Nat.pred n)); [reflexivity|lia].
Qed.

(** C1 (as amended).  For every operation and every predicate, [withRetry]
    calls the operation one call after the other, each on the state the
    previous call left, at most [maxRetries + 1] times, with one wait
    between two consecutive attempts and none after the last; an attempt
    that succeeds is the last one and its result is the result of
    [withRetry]; and when the operation fails [k] times in a row with
    failures classified as retryable and then succeeds, it is invoked
    exactly [min (k + 1) (maxRetries + 1)] times, and the delay before
    attempt [i + 1] is what [i - 1] successive multiplications by the
    backoff multiplier make of the initial delay, each product being the
    binary64 product of the program, rounded as the program rounds it. *)
Theorem withRetry_attempts_and_backoff
        (S T E : Type) (options : Retry.RetryOptions float)
        (operation : S -> (T + E) * S) (isRetryable : E -> bool + E) (s : S)
        (r : Settled T (option E)) (s' : S) (steps : list (Retry.Step float)) :
  Retry.withRetry PrimFloat.mul options operation isRetryable s = (r, s', steps) ->
  let n := List.length (Retry.invocations steps) in
  (steps = Retry.schedule PrimFloat.mul options n 1 (Retry.retryDelay options) /\
   Retry.invocations steps = map Z.of_nat (seq 1 n) /\
   n <= Z.to_nat (Retry.maxRetries options + 1)) /\
  (exists os,
      Retry.replay operation n s = (os, s') /\
      forall i v, nth_error os i = Some (inl v) ->
                  Datatypes.S i = n /\ r = Resolved v) /\
  (forall k v,
      Retry.FailsThenSucceeds operation isRetryable k s v ->
      n = Nat.min (k + 1) (Z.to_nat (Retry.maxRetries options + 1)) /\
      (Z.of_nat k <= Retry.maxRetries options -> r = Resolved v)%Z /\
      forall i, 1 <= i < n ->
        nth_error (Retry.delays steps) (i - 1)
        = Some (Nat.iter (i - 1)
                         (fun delay => PrimFloat.mul delay (Retry.backoffMultiplier options))
                         (Retry.retryDelay options))).
Proof.
  exact (withRetry_run_shape float S T E PrimFloat.mul options operation
                             isRetryable s r s' steps).
Qed.


Lemma flaky_fails_then_succeeds (T : Type) (e : JsError) (v : T)
      (p : JsError -> bool + JsError) :
  p e = inl true ->
  forall k calls, calls + k = 3 ->
    Retry.FailsThenSucceeds (Scenario.flaky 3 e v) p k calls v.
Proof.
  intros Hp. induction k as [|k IH]; intros calls Hk.
  - apply Retry.fts_success with (s' := S calls). unfold Scenario.flaky.
    destruct (Nat.ltb_spec calls 3); [lia|reflexivity].
  - apply Retry.fts_failure with (e := e) (s' := S calls).
    + unfold Scenario.flaky. destruct (Nat.ltb_spec calls 3); [reflexivity|lia].
    + exact Hp.
    + apply IH. lia.
Defined.

Lemma withRetry_attempts_and_backoff_witness :
  List.length
    (Retry.invocations
       (snd (Retry.withRetry PrimFloat.mul Scenario.default_options
               (Scenario.flaky 3 (Scenario.http_error 503) (js "fixed"))
               (Retry.defaultIsRetryable true) 0)))
  = Nat.min (3 + 1) (Z.to_nat (3 + 1)).
Proof.
  destruct (Retry.withRetry PrimFloat.mul Scenario.default_options
              (Scenario.flaky 3 (Scenario.http_error 503) (js "fixed"))
              (Retry.defaultIsRetryable true) 0) as [[r s'] steps] eqn:Hrun.
  exact (proj1 (proj2 (proj2 (withRetry_attempts_and_backoff
                                _ _ _ _ _ _ _ _ _ _ Hrun)) 3 _
                 (flaky_fails_then_succeeds _ _ _ _ eq_refl 3 0 eq_refl))).
Defined.

(** C1 as stated fails: with the default settings, three failures with
    status 503 followed by a success make four invocations, not
    [min 3 (maxRetries + 1) = 3]. *)
Lemma withRetry_invocations_not_min_k :
  Retry.FailsThenSucceeds
    (Scenario.flaky 3 (Scenario.http_error 503) (js "fixed"))
    (Retry.defaultIsRetryable true) 3 0 (js "fixed") /\
  List.length
    (Retry.invocations
       (snd (Retry.withRetry PrimFloat.mul Scenario.default_options
               (Scenario.flaky 3 (Scenario.http_error 503) (js "fixed"))
               (Retry.defaultIsRetryable true) 0)))
  <> Nat.min 3 (Z.to_nat (Retry.maxRetries Scenario.default_options + 1)).
Proof.
  split.
  - apply flaky_fails_then_succeeds; reflexivity.
  - vm_compute. discriminate.
Qed.

(** The waits of the program are rounded products: with an initial delay
    of 100 ms and a multiplier of 1.1 the second and the third wait are
    not 110 ms and 121 ms. *)
Example withRetry_delays_are_rounded_products :
  Retry.delays
    (snd (Retry.withRetry PrimFloat.mul
            {| Retry.maxRetries := 3; Retry.retryDelay := 100%float;
               Retry.backoffMultiplier := 1.1%float |}
            (Scenario.flaky 3 (Scenario.http_error 503) (js "fixed"))
            (Retry.defaultIsRetryable true) 0))
  = [100; 110.00000000000001; 121.00000000000003]%float
  /\ PrimFloat.mul 100 1.1 <> 110%float
  /\ PrimFloat.mul (PrimFloat.mul 100 1.1) 1.1 <> 121%float.
Proof.
  split; [vm_compute; reflexivity|]. split; vm_compute; discriminate.
Qed.

(** ** The default predicate *)

(** The classification that [defaultIsRetryable] computes: an HTTP status
    of the transient set, or no response and a transient transport code. *)
Lemma shouldRetry_spec (e : JsError) :
  Retry.shouldRetry e = true <->
  (exists m c r q, e = AxiosError m c (Some r) q
                   /\ In (status r) Retry.retryableStatusCodes)
  \/ (exists m c q, e = AxiosError m (Some c) None q
                    /\ In c Retry.retryableCodes).
Proof.
  destruct e as [m [c|] [r|] q | m]; cbn [Retry.shouldRetry]; split.
  - unfold Retry.includes_Z. rewrite existsb_exists.
    intros (x & Hin & Hx). apply Z.eqb_eq in Hx. subst x.
    left. now exists m, (Some c), r, q.
  - intros [(m' & c' & r' & q' & He & Hin) | (m' & c' & q' & He & _)];
      inversion He; subst.
    unfold Retry.includes_Z. rewrite existsb_exists.
    exists (status r'). split; [exact Hin | apply Z.eqb_refl].
  - unfold Retry.includes_string. rewrite existsb_exists.
    intros (x & Hin & Hx). apply eqb_eq in Hx. subst x.
    right. now exists m, c, q.
  - intros [(m' & c' & r' & q' & He & _) | (m' & c' & q' & He & Hin)];
      inversion He; subst.
    unfold Retry.includes_string. rewrite existsb_exists.
    exists c'. split; [exact Hin | apply eqb_refl].
  - unfold Retry.includes_Z. rewrite existsb_exists.
    intros (x & Hin & Hx). apply Z.eqb_eq in Hx. subst x.
    left. now exists m, None, r, q.
  - intros [(m' & c' & r' & q' & He & Hin) | (m' & c' & q' & He & _)];
      inversion He; subst.
    unfold Retry.includes_Z. rewrite existsb_exists.
    exists (status r'). split; [exact Hin | apply Z.eqb_refl].
  - intros H. vm_compute in H. discriminate.
  - intros [(m' & c' & r' & q' & He & _) | (m' & c' & q' & He & _)];
      discriminate.
  - discriminate.
  - intros [(m' & c' & r' & q' & He & _) | (m' & c' & q' & He & _)];
      discriminate.
Qed.

(** A call of [withRetry] that leaves the predicate out: the operation is
    called once if the budget is not empty, and any failure is replaced by
    the [TypeError] of the detached method. *)
Lemma withRetry_default_run (num S T : Type) (mul : num -> num -> num)
      (options : Retry.RetryOptions num)
      (operation : S -> (T + JsError) * S) (s : S) :
  Retry.withRetry_default mul options operation s
  = if (Retry.maxRetries options <? 0)%Z then (Rejected None, s, [])
    else match operation s with
         | (inl v, s1) =>
             (Resolved v, s1, [Retry.Invoke 1 (Retry.maxRetries options + 1)])
         | (inr _, s1) =>
             (Rejected (Some (TypeError_undefined "logger")), s1,
              [Retry.Invoke 1 (Retry.maxRetries options + 1)])
         end.
Proof.
  unfold Retry.withRetry_default.
  destruct (Z.ltb_spec (Retry.maxRetries options) 0) as [Hneg|Hpos].
  - now apply withRetry_empty_budget.
  - destruct (operation s) as [[v|e] s1] eqn:Hop.
    + now apply withRetry_first_success.
    + now apply withRetry_predicate_throws with (e := e).
Qed.

(** Called with its receiver, the default predicate makes the engine do
    what its comments announce: the 503 is retried after the initial delay
    and the second call succeeds. *)
Example bound_predicate_retries_503 :
  Retry.withRetry PrimFloat.mul Scenario.default_options
    (Scenario.flaky 1 (Scenario.http_error 503) (js "fixed"))
    (Retry.defaultIsRetryable true) 0
  = (Resolved (js "fixed"), 2,
     [Retry.Invoke 1 4; Retry.Wait 1000%float; Retry.Invoke 2 4]).
Proof. vm_compute. reflexivity. Qed.

(** C2 (the code at the failing inputs).  With the predicate left out, a
    failure with status 401 is not surfaced: [withRetry] rejects with the
    [TypeError] of the detached [defaultIsRetryable]; and a failure with
    status 503 is not retried although the operation would succeed on the
    second call. *)
Theorem withRetry_default_surfaces_TypeError :
  Retry.withRetry_default PrimFloat.mul Scenario.default_options
    (Scenario.flaky 1 (Scenario.http_error 401) (js "fixed")) 0
  = (Rejected (Some (TypeError_undefined "logger")), 1, [Retry.Invoke 1 4])
  /\ Retry.shouldRetry (Scenario.http_error 503) = true
  /\ Retry.withRetry_default PrimFloat.mul Scenario.default_options
       (Scenario.flaky 1 (Scenario.http_error 503) (js "fixed")) 0
     = (Rejected (Some (TypeError_undefined "logger")), 1, [Retry.Invoke 1 4]).
Proof. repeat split; vm_compute; reflexivity. Qed.

(* ===================================================================== *)
(** * Properties of the chat provider                                     *)
(* ===================================================================== *)

Lemma log_emit e w : log (emit e w) = log w ++ [e].
Proof. reflexivity. Qed.

Lemma In_emit e w : In e (log (emit e w)).
Proof. rewrite log_emit. apply in_or_app. right. now left. Qed.

Lemma In_log_emit e e' w : In e (log w) -> In e (log (emit e' w)).
Proof. intros H. rewrite log_emit. apply in_or_app. now left. Qed.

Lemma In_log_emit_if e b e' w : In e (log w) -> In e (log (emit_if b e' w)).
Proof. destruct b; simpl; [apply In_log_emit|trivial]. Qed.

Ltac later :=
  repeat first [ assumption
               | apply In_emit
               | apply In_log_emit
               | apply In_log_emit_if ].

(** A call through the provider's manager: one call of the operation, or
    none when the budget is empty. *)
Lemma withRetry_in_run (T : Type) (manager : RetryManager)
      (operation : World -> (T + JsError) * World) (w : World) :
  withRetry_in manager operation w
  = if (Retry.maxRetries (options manager) <? 0)%Z
    then (Rejected None, emit (Retried []) w)
    else match operation w with
         | (inl v, w1) =>
             (Resolved v,
              emit (Retried [Retry.Invoke 1 (Retry.maxRetries (options manager) + 1)]) w1)
         | (inr _, w1) =>
             (Rejected (Some (TypeError_undefined "logger")),
              emit (Retried [Retry.Invoke 1 (Retry.maxRetries (options manager) + 1)]) w1)
         end.
Proof.
  unfold withRetry_in. rewrite withRetry_default_run.
  destruct (Retry.maxRetries (options manager) <? 0)%Z; [reflexivity|].
  destruct (operation w) as [[v|e] w1]; reflexivity.
Qed.

Section ChatFacts.

Import ChatProvider.

Variable host : Host.
Variable this : OllamaCodeFixerChatProvider.

Lemma generate_catch_resolves config error w :
  generate_catch config error w
  = (Resolved (errorMessage error),
     snd (generate_catch config error w)).
Proof. reflexivity. Qed.

(** The generation call always resolves. *)
Lemma generate_resolves config baseApiUrl modelName message w :
  exists text w',
    generate host this config baseApiUrl modelName message w = (Resolved text, w').
Proof.
  unfold generate.
  destruct (generate_try _ _ _ _ _ _ _) as [[text|error] w1]; eauto.
  rewrite generate_catch_resolves. eauto.
Qed.

(** With a network scheme and a budget, the generation request goes out. *)
Lemma generate_dispatches config baseApiUrl modelName message w r w' :
  (0 <= Retry.maxRetries (options (_retryManager this)))%Z ->
  JsString.startsWith (js "http://") (baseApiUrl ++ chatEndpoint)
  || JsString.startsWith (js "https://") (baseApiUrl ++ chatEndpoint) = true ->
  generate host this config baseApiUrl modelName message w = (r, w') ->
  In (HttpPost (baseApiUrl ++ chatEndpoint) modelName message) (log w').
Proof.
  intros Hbudget Hscheme. unfold generate, generate_try.
  replace (negb (JsString.startsWith (js "http://") (baseApiUrl ++ chatEndpoint))
           && negb (JsString.startsWith (js "https://") (baseApiUrl ++ chatEndpoint)))
    with false
    by (rewrite <- negb_orb, Hscheme; reflexivity).
  rewrite withRetry_in_run.
  destruct (Z.ltb_spec (Retry.maxRetries (options (_retryManager this))) 0)
    as [Hneg|_]; [lia|].
  unfold axios_post.
  set (w1 := emit (HttpPost _ _ _) _).
  assert (Hin : In (HttpPost (baseApiUrl ++ chatEndpoint) modelName message) (log w1))
    by apply In_emit.
  clearbody w1.
  destruct (axios host (log w1)) as [[body|]|e].
  - destruct (message_content body) as [[[|c content]|[]]|];
      unfold generate_catch; intros H; inversion H; subst; later.
  - unfold generate_catch. intros H; inversion H; subst. later.
  - unfold generate_catch. intros H; inversion H; subst. later.
Qed.

End ChatFacts.

(** C6 (as amended).  When the availability check fails, the [catch]
    block logs the failure, warns the user when an error was thrown, and
    control falls through: the result of the operation is the result of
    the generation call, which resolves, and never the failure of the
    check; the generation request itself is dispatched when the address
    has a network scheme and the attempt budget is not empty. *)
Theorem catalog_failure_does_not_block_generation
        (host : Host) (this : ChatProvider.OllamaCodeFixerChatProvider)
        (message : JsString.t) (fuel : nat) (w w0 w1 : World)
        (baseApiUrl : JsString.t) (error : option JsError) :
  ChatProvider.resolve_base host this w = (baseApiUrl, w0) ->
  withRetry_in (ChatProvider._retryManager this)
               (axios_get host (baseApiUrl ++ ChatProvider.tagsEndpoint)) w0
  = (Rejected error, w1) ->
  let modelName := Config.modelName (settings w) in
  exists w2 text w3,
    ChatProvider.check_models host this baseApiUrl modelName w0
    = (ChatProvider.Proceed, w2) /\
    In (ConsoleError (js "[OllamaCodeFixer] Failed to check available models:"))
       (log w2) /\
    (forall e, error = Some e ->
               In (ShowWarningMessage (js "Failed to check models: "
                                         ++ error_message e)) (log w2)) /\
    ChatProvider.generate host this (settings w) baseApiUrl modelName message w2
    = (Resolved text, w3) /\
    ChatProvider.getOllamaResponse (S fuel) host this message w
    = (Some (Resolved text), w3) /\
    ((0 <= Retry.maxRetries (options (ChatProvider._retryManager this)))%Z ->
     JsString.startsWith (js "http://") (baseApiUrl ++ ChatProvider.chatEndpoint)
     || JsString.startsWith (js "https://") (baseApiUrl ++ ChatProvider.chatEndpoint)
     = true ->
     In (HttpPost (baseApiUrl ++ ChatProvider.chatEndpoint) modelName message)
        (log w3)).
Proof.
  intros Hbase Hcheck modelName.
  assert (Hcm : exists w2,
             ChatProvider.check_models host this baseApiUrl modelName w0
             = (ChatProvider.Proceed, w2) /\
             In (ConsoleError (js "[OllamaCodeFixer] Failed to check available models:"))
                (log w2) /\
             (forall e, error = Some e ->
                        In (ShowWarningMessage (js "Failed to check models: "
                                                  ++ error_message e)) (log w2))).
  { unfold ChatProvider.check_models. rewrite Hcheck.
    destruct error as [e|]; eexists; (split; [reflexivity|split; [later|]]).
    - intros e' He. inversion He; subst. apply In_emit.
    - discriminate. }
  destruct Hcm as (w2 & Hcm & Hlog & Hwarn).
  destruct (generate_resolves host this (settings w) baseApiUrl modelName message w2)
    as (text & w3 & Hgen).
  exists w2, text, w3. repeat split; try assumption.
  - cbn [ChatProvider.getOllamaResponse]. rewrite Hbase.
    fold modelName. rewrite Hcm, Hgen. reflexivity.
  - intros Hbudget Hscheme.
    eapply generate_dispatches; eauto.
Qed.

Lemma catalog_failure_does_not_block_generation_witness :
  exists w2 text w3,
    ChatProvider.check_models Scenario.offline
      (ChatProvider.constructor Scenario.en (Scenario.fresh "http://localhost:11434" "llama2"))
      (js "http://localhost:11434") (js "llama2")
      (Scenario.fresh "http://localhost:11434" "llama2")
    = (ChatProvider.Proceed, w2) /\
    ChatProvider.getOllamaResponse 1 Scenario.offline
      (ChatProvider.constructor Scenario.en (Scenario.fresh "http://localhost:11434" "llama2"))
      (js "hello") (Scenario.fresh "http://localhost:11434" "llama2")
    = (Some (Resolved text), w3) /\
    In (HttpPost (js "http://localhost:11434/api/chat") (js "llama2") (js "hello"))
       (log w3).
Proof.
  destruct (catalog_failure_does_not_block_generation
              Scenario.offline
              (ChatProvider.constructor Scenario.en
                 (Scenario.fresh "http://localhost:11434" "llama2"))
              (js "hello") 0
              (Scenario.fresh "http://localhost:11434" "llama2")
              _ _ (js "http://localhost:11434") _ eq_refl eq_refl)
    as (w2 & text & w3 & H1 & _ & _ & _ & H4 & H5).
  exists w2, text, w3. split; [exact H1|]. split; [exact H4|].
  apply H5; [vm_compute; discriminate | reflexivity].
Defined.

(** C6 as stated fails: with the base URL [ftp://example.org/] the
    availability check fails, control reaches the generation call, and
    no generation request is dispatched: the operation resolves to the
    message about the protocol. *)
Lemma catalog_failure_without_network_scheme_sends_nothing :
  fst (withRetry_in (ChatProvider._retryManager Scenario.provider)
         (axios_get Scenario.offline (js "ftp://example.org/api/tags"))
         (Scenario.fresh "ftp://example.org/" "llama2"))
  = Rejected (Some (TypeError_undefined "logger")) /\
  fst (ChatProvider.check_models Scenario.offline Scenario.provider
         (js "ftp://example.org") (js "llama2")
         (Scenario.fresh "ftp://example.org/" "llama2"))
  = ChatProvider.Proceed /\
  count_posts
    (log (snd (ChatProvider.getOllamaResponse 1 Scenario.offline Scenario.provider
                 (js "hello") (Scenario.fresh "ftp://example.org/" "llama2"))))
  = 0 /\
  fst (ChatProvider.getOllamaResponse 1 Scenario.offline Scenario.provider
         (js "hello") (Scenario.fresh "ftp://example.org/" "llama2"))
  = Some (Resolved
            (ChatProvider.errorMessage
               (Some (OtherError
                        (js "Invalid URL protocol: ftp://example.org/api/chat"))))).
Proof. repeat split; vm_compute; reflexivity. Qed.




(** ** What a run adds to the log *)

Lemma adds_refl P w : adds_only P w w.
Proof. exists []. split; [now rewrite app_nil_r|reflexivity]. Qed.

Lemma adds_trans P w1 w2 w3 :
  adds_only P w1 w2 -> adds_only P w2 w3 -> adds_only P w1 w3.
Proof.
  intros (l1 & H1 & F1) (l2 & H2 & F2). exists (l1 ++ l2). split.
  - now rewrite H2, H1, app_assoc.
  - now rewrite forallb_app, F1, F2.
Qed.

Lemma adds_emit P w w1 e :
  adds_only P w w1 -> P e = true -> adds_only P w (emit e w1).
Proof.
  intros H He. apply adds_trans with w1; [exact H|].
  exists [e]. split; [reflexivity|]. simpl. now rewrite He.
Qed.

Lemma adds_emit_if P w w1 b e :
  adds_only P w w1 -> P e = true -> adds_only P w (emit_if b e w1).
Proof. destruct b; simpl; [apply adds_emit|trivial]. Qed.

Lemma adds_same_log P w w1 w2 :
  log w2 = log w1 -> adds_only P w w1 -> adds_only P w w2.
Proof. intros E (l & H & F). exists l. now rewrite E. Qed.

Lemma adds_weaken (P Q : Event -> bool) w w' :
  (forall e, P e = true -> Q e = true) ->
  adds_only P w w' -> adds_only Q w w'.
Proof.
  intros HPQ (l & H & F). exists l. split; [exact H|].
  rewrite forallb_forall in *. auto.
Qed.

Lemma adds_In P w w' e : adds_only P w w' -> In e (log w) -> In e (log w').
Proof. intros (l & H & _) Hin. rewrite H. apply in_or_app. now left. Qed.

Lemma skipn_length_app (A : Type) (l1 l2 : list A) :
  skipn (List.length l1) (l1 ++ l2) = l2.
Proof. induction l1 as [|x l1 IH]; [reflexivity|exact IH]. Qed.

Lemma added_app w w' l : log w' = log w ++ l -> added w w' = l.
Proof. intros H. unfold added. rewrite H. apply skipn_length_app. Qed.

Lemma adds_added P w w' : adds_only P w w' -> forallb P (added w w') = true.
Proof. intros (l & H & F). now rewrite (added_app _ _ _ H). Qed.

Ltac adds :=
  repeat first
    [ apply adds_refl
    | assumption
    | apply adds_emit; [|reflexivity]
    | apply adds_emit_if; [|reflexivity] ].

Section ChatLog.

Import ChatProvider.

Variable host : Host.
Variable this : OllamaCodeFixerChatProvider.

Lemma resolve_base_adds w :
  adds_only not_HttpPost w (snd (resolve_base host this w)).
Proof. unfold resolve_base. destruct (URL_ok host _); simpl; adds. Qed.

Lemma resolve_base_settings w :
  settings (snd (resolve_base host this w)) = settings w.
Proof. unfold resolve_base. now destruct (URL_ok host _). Qed.

Lemma reconcile_adds catalog modelName w :
  adds_only not_HttpPost w (snd (reconcile host this catalog modelName w)).
Proof.
  unfold reconcile.
  assert (H0 : adds_only not_HttpPost w (announce_missing this modelName w))
    by (unfold announce_missing; adds).
  destruct (clicked host _) as [choice|]; [|exact H0].
  destruct (JsString.eqb choice _).
  - simpl. unfold installOllamaModel. adds.
  - destruct (JsString.eqb choice _); [|exact H0].
    assert (H1 : adds_only not_HttpPost w
                   (offer_models this catalog (announce_missing this modelName w)))
      by (unfold offer_models; adds).
    destruct (picked host _) as [[|c newModel]|]; try exact H1.
    simpl. apply adds_same_log with
      (emit (ConfigUpdate (js "modelName") (c :: newModel))
            (offer_models this catalog (announce_missing this modelName w)));
      [reflexivity|adds].
Qed.

Lemma reconcile_url catalog modelName w :
  Config.ollamaApiUrl (settings (snd (reconcile host this catalog modelName w)))
  = Config.ollamaApiUrl (settings w).
Proof.
  unfold reconcile.
  destruct (clicked host _) as [choice|]; [|reflexivity].
  destruct (JsString.eqb choice _); [reflexivity|].
  destruct (JsString.eqb choice _); [|reflexivity].
  destruct (picked host _) as [[|c newModel]|]; reflexivity.
Qed.

Lemma check_models_adds baseApiUrl modelName w :
  adds_only not_HttpPost w (snd (check_models host this baseApiUrl modelName w)).
Proof.
  unfold check_models. rewrite withRetry_in_run.
  destruct (Retry.maxRetries _ <? 0)%Z.
  - simpl. adds.
  - unfold axios_get. destruct (axios host _) as [found|e].
    + destruct (installed _ _); simpl; [adds|].
      eapply adds_trans; [|apply reconcile_adds]. adds.
    + simpl. adds.
Qed.

Lemma check_models_url baseApiUrl modelName w :
  Config.ollamaApiUrl
    (settings (snd (check_models host this baseApiUrl modelName w)))
  = Config.ollamaApiUrl (settings w).
Proof.
  unfold check_models. rewrite withRetry_in_run.
  destruct (Retry.maxRetries _ <? 0)%Z; [reflexivity|].
  unfold axios_get. destruct (axios host _) as [found|e]; [|reflexivity].
  destruct (installed _ _); [reflexivity|].
  now rewrite reconcile_url.
Qed.

Lemma generate_adds config baseApiUrl modelName message w :
  adds_only any_event w
            (snd (generate host this config baseApiUrl modelName message w)).
Proof.
  unfold generate, generate_try.
  destruct (negb _ && negb _).
  - simpl. adds.
  - rewrite withRetry_in_run. destruct (Retry.maxRetries _ <? 0)%Z.
    + simpl. adds.
    + unfold axios_post. destruct (axios host _) as [[body|]|e].
      * destruct (message_content body) as [[[|c content]|[]]|]; simpl; adds.
      * simpl. adds.
      * simpl. adds.
Qed.

(** Without a network scheme the generation call adds no request and
    resolves to the message about the protocol. *)
Lemma generate_without_scheme config baseApiUrl modelName message w :
  JsString.startsWith (js "http://") (baseApiUrl ++ chatEndpoint) = false ->
  JsString.startsWith (js "https://") (baseApiUrl ++ chatEndpoint) = false ->
  adds_only not_HttpPost w
            (snd (generate host this config baseApiUrl modelName message w)) /\
  fst (generate host this config baseApiUrl modelName message w)
  = Resolved (errorMessage
                (Some (OtherError (js "Invalid URL protocol: "
                                     ++ baseApiUrl ++ chatEndpoint)))).
Proof.
  intros H1 H2. unfold generate, generate_try. rewrite H1, H2. simpl.
  split; [adds|reflexivity].
Qed.

Lemma getOllamaResponse_adds message fuel : forall w,
  adds_only any_event w (snd (getOllamaResponse fuel host this message w)).
Proof.
  induction fuel as [|fuel IH]; intros w; cbn [getOllamaResponse].
  - simpl. adds.
  - destruct (resolve_base host this w) as [baseApiUrl w0] eqn:Hbase.
    assert (H0 : adds_only any_event w w0).
    { apply adds_weaken with not_HttpPost; [reflexivity|].
      replace w0 with (snd (resolve_base host this w)) by now rewrite Hbase.
      apply resolve_base_adds. }
    destruct (check_models host this baseApiUrl _ w0) as [outcome w1] eqn:Hcm.
    assert (H1 : adds_only any_event w w1).
    { apply adds_trans with w0; [exact H0|].
      apply adds_weaken with not_HttpPost; [reflexivity|].
      replace w1 with (snd (check_models host this baseApiUrl
                              (Config.modelName (settings w)) w0))
        by now rewrite Hcm.
      apply check_models_adds. }
    destruct outcome as [text| |].
    + exact H1.
    + apply adds_trans with w1; [exact H1|apply IH].
    + destruct (generate _ _ _ _ _ _ _) as [r w2] eqn:Hgen. simpl.
      apply adds_trans with w1; [exact H1|].
      replace w2 with (snd (generate host this (settings w) baseApiUrl
                              (Config.modelName (settings w)) message w1))
        by now rewrite Hgen.
      apply generate_adds.
Qed.

Lemma getOllamaResponse_without_scheme message url fuel : forall w,
  Config.ollamaApiUrl (settings w) = url ->
  URL_ok host url = true ->
  JsString.startsWith (js "http://")
    (JsString.strip_trailing_slashes url ++ chatEndpoint) = false ->
  JsString.startsWith (js "https://")
    (JsString.strip_trailing_slashes url ++ chatEndpoint) = false ->
  adds_only not_HttpPost w (snd (getOllamaResponse fuel host this message w)).
Proof.
  induction fuel as [|fuel IH]; intros w Hurl Hok H1 H2; cbn [getOllamaResponse].
  - simpl. adds.
  - unfold resolve_base. rewrite Hurl, Hok.
    destruct (check_models host this _ _ w) as [outcome w1] eqn:Hcm.
    assert (Hadd : adds_only not_HttpPost w w1).
    { replace w1 with (snd (check_models host this
                              (JsString.strip_trailing_slashes url)
                              (Config.modelName (settings w)) w))
        by now rewrite Hcm.
      apply check_models_adds. }
    assert (Hurl1 : Config.ollamaApiUrl (settings w1) = url).
    { replace w1 with (snd (check_models host this
                              (JsString.strip_trailing_slashes url)
                              (Config.modelName (settings w)) w))
        by now rewrite Hcm.
      now rewrite check_models_url. }
    destruct outcome as [text| |].
    + exact Hadd.
    + apply adds_trans with w1; [exact Hadd|]. now apply IH.
    + destruct (generate _ _ _ _ _ _ _) as [r w2] eqn:Hgen. simpl.
      apply adds_trans with w1; [exact Hadd|].
      replace w2 with (snd (generate host this (settings w)
                              (JsString.strip_trailing_slashes url)
                              (Config.modelName (settings w)) message w1))
        by now rewrite Hgen.
      now apply generate_without_scheme.
Qed.

End ChatLog.

Lemma added_later P Q w w1 w2 e :
  adds_only P w w1 -> adds_only Q (emit e w1) w2 -> In e (added w w2).
Proof.
  intros (l1 & H1 & _) (l2 & H2 & _).
  rewrite (added_app w w2 (l1 ++ [e] ++ l2)).
  - apply in_or_app. right. now left.
  - now rewrite H2, log_emit, H1, <- !app_assoc.
Qed.

Lemma check_models_dispatches host this baseApiUrl modelName w :
  (0 <= Retry.maxRetries (options (ChatProvider._retryManager this)))%Z ->
  adds_only any_event
            (emit (HttpGet (baseApiUrl ++ ChatProvider.tagsEndpoint)) w)
            (snd (ChatProvider.check_models host this baseApiUrl modelName w)).
Proof.
  intros Hbudget. unfold ChatProvider.check_models. rewrite withRetry_in_run.
  destruct (Z.ltb_spec (Retry.maxRetries (options (ChatProvider._retryManager this))) 0)
    as [Hneg|_]; [lia|].
  unfold axios_get. destruct (axios host _) as [found|e].
  - destruct (ChatProvider.installed _ _); simpl; [adds|].
    eapply adds_trans;
      [|apply adds_weaken with not_HttpPost;
        [reflexivity|apply reconcile_adds]].
    adds.
  - simpl. adds.
Qed.

(** C3 (as amended).  A base URL that does not parse is logged as invalid
    and replaced by [http://localhost:11434], and when the attempt budget
    is not empty the catalog request is sent there; a base URL that
    parses but does not give an [http://] or [https://] address never
    leads to a generation request, and when control reaches the
    generation call the operation resolves to the message about the
    invalid protocol. *)
Theorem invalid_base_url_falls_back_or_fails_in_band
        (host : Host) (this : ChatProvider.OllamaCodeFixerChatProvider)
        (message : JsString.t) (fuel : nat) (w : World) :
  (URL_ok host (Config.ollamaApiUrl (settings w)) = false ->
   fst (ChatProvider.resolve_base host this w) = ChatProvider.defaultBaseUrl /\
   In (ConsoleError (js "[OllamaCodeFixer] "
                       ++ ChatProvider.invalidUrl (ChatProvider._strings this)
                       ++ js " " ++ Config.ollamaApiUrl (settings w)
                       ++ js ": Invalid URL"))
      (added w (snd (ChatProvider.getOllamaResponse (S fuel) host this message w))) /\
   ((0 <= Retry.maxRetries (options (ChatProvider._retryManager this)))%Z ->
    In (HttpGet (ChatProvider.defaultBaseUrl ++ ChatProvider.tagsEndpoint))
       (added w (snd (ChatProvider.getOllamaResponse (S fuel) host this message w)))))
  /\
  (URL_ok host (Config.ollamaApiUrl (settings w)) = true ->
   let baseApiUrl := JsString.strip_trailing_slashes (Config.ollamaApiUrl (settings w)) in
   JsString.startsWith (js "http://") (baseApiUrl ++ ChatProvider.chatEndpoint) = false ->
   JsString.startsWith (js "https://") (baseApiUrl ++ ChatProvider.chatEndpoint) = false ->
   forallb not_HttpPost
           (added w (snd (ChatProvider.getOllamaResponse fuel host this message w)))
   = true /\
   forall w2,
     ChatProvider.check_models host this baseApiUrl (Config.modelName (settings w)) w
     = (ChatProvider.Proceed, w2) ->
     fst (ChatProvider.getOllamaResponse (S fuel) host this message w)
     = Some (Resolved
               (ChatProvider.errorMessage
                  (Some (OtherError (js "Invalid URL protocol: "
                                       ++ baseApiUrl ++ ChatProvider.chatEndpoint)))))).
Proof.
  split.
  - intros Hbad.
    set (invalid := ConsoleError _).
    assert (Hbase : ChatProvider.resolve_base host this w
                    = (ChatProvider.defaultBaseUrl, emit invalid w)).
    { unfold ChatProvider.resolve_base. now rewrite Hbad. }
    split; [now rewrite Hbase|].
    cbn [ChatProvider.getOllamaResponse]. rewrite Hbase.
    set (w0 := emit invalid w).
    assert (H0 : adds_only any_event w w0) by (unfold w0; adds).
    assert (Hrest : adds_only any_event w0
              (snd (let '(outcome, w1) :=
                      ChatProvider.check_models host this ChatProvider.defaultBaseUrl
                        (Config.modelName (settings w)) w0 in
                    match outcome with
                    | ChatProvider.Return text => (Some (Resolved text), w1)
                    | ChatProvider.Reinvoke =>
                        ChatProvider.getOllamaResponse fuel host this message w1
                    | ChatProvider.Proceed =>
                        let '(r, w2) :=
                          ChatProvider.generate host this (settings w)
                            ChatProvider.defaultBaseUrl
                            (Config.modelName (settings w)) message w1 in
                        (Some r, w2)
                    end))).
    { pose proof (check_models_adds host this ChatProvider.defaultBaseUrl
                    (Config.modelName (settings w)) w0) as Hc.
      apply adds_weaken with (Q := any_event) in Hc; [|reflexivity].
      destruct (ChatProvider.check_models host this _ _ w0) as [outcome w1].
      cbn [snd] in Hc. destruct outcome as [text| |].
      - exact Hc.
      - eapply adds_trans; [exact Hc|apply getOllamaResponse_adds].
      - pose proof (generate_adds host this (settings w) ChatProvider.defaultBaseUrl
                      (Config.modelName (settings w)) message w1) as Hg.
        destruct (ChatProvider.generate _ _ _ _ _ _ _) as [r w2].
        eapply adds_trans; [exact Hc|exact Hg]. }
    split.
    { eapply added_later with (P := any_event) (w1 := w);
        [apply adds_refl|exact Hrest]. }
    intros Hbudget.
    pose proof (check_models_dispatches host this ChatProvider.defaultBaseUrl
                  (Config.modelName (settings w)) w0 Hbudget) as Hd.
    destruct (ChatProvider.check_models host this _ _ w0) as [outcome w1].
    simpl snd in Hd.
    destruct outcome as [text| |].
    + simpl. eapply added_later; eauto.
    + eapply added_later; [exact H0|].
      eapply adds_trans; [exact Hd|apply getOllamaResponse_adds].
    + destruct (ChatProvider.generate _ _ _ _ _ _ _) as [r w2] eqn:Hgen. simpl.
      eapply added_later; [exact H0|].
      eapply adds_trans; [exact Hd|].
      replace w2 with (snd (ChatProvider.generate host this (settings w)
                              ChatProvider.defaultBaseUrl
                              (Config.modelName (settings w)) message w1))
        by now rewrite Hgen.
      apply generate_adds.
  - intros Hok baseApiUrl H1 H2. split.
    + eapply adds_added.
      now apply getOllamaResponse_without_scheme
        with (url := Config.ollamaApiUrl (settings w)).
    + intros w2 Hcm. cbn [ChatProvider.getOllamaResponse].
      unfold ChatProvider.resolve_base. rewrite Hok. fold baseApiUrl. rewrite Hcm.
      destruct (generate_without_scheme host this (settings w) baseApiUrl
                  (Config.modelName (settings w)) message w2 H1 H2) as [_ Hres].
      destruct (ChatProvider.generate _ _ _ _ _ _ _) as [r w3].
      simpl in *. now rewrite Hres.
Qed.

Lemma invalid_base_url_witness :
  In (HttpGet (js "http://localhost:11434/api/tags"))
     (added (Scenario.fresh "not a url" "llama2")
            (snd (ChatProvider.getOllamaResponse 1 Scenario.offline Scenario.provider
                    (js "hello") (Scenario.fresh "not a url" "llama2"))))
  /\ forallb not_HttpPost
       (added (Scenario.fresh "ftp://example.org/" "llama2")
              (snd (ChatProvider.getOllamaResponse 1 Scenario.offline Scenario.provider
                      (js "hello") (Scenario.fresh "ftp://example.org/" "llama2"))))
     = true.
Proof.
  split.
  - apply (proj2 (proj2 (proj1 (invalid_base_url_falls_back_or_fails_in_band
                    Scenario.offline Scenario.provider (js "hello") 0
                    (Scenario.fresh "not a url" "llama2")) eq_refl))).
    vm_compute. discriminate.
  - apply (proj2 (invalid_base_url_falls_back_or_fails_in_band
                    Scenario.offline Scenario.provider (js "hello") 1
                    (Scenario.fresh "ftp://example.org/" "llama2")));
      reflexivity.
Defined.

(** C3 as stated fails at the base URL [not a url]: both requests go out,
    to the default address, and the operation resolves to the model's
    reply. *)
Lemma malformed_base_url_still_reaches_the_network :
  Scenario.has_scheme (js "not a url") = false /\
  In (HttpGet (js "http://localhost:11434/api/tags"))
     (log (snd (ChatProvider.getOllamaResponse 1 Scenario.local_server
                  Scenario.provider (js "hello")
                  (Scenario.fresh "not a url" "llama2")))) /\
  In (HttpPost (js "http://localhost:11434/api/chat") (js "llama2") (js "hello"))
     (log (snd (ChatProvider.getOllamaResponse 1 Scenario.local_server
                  Scenario.provider (js "hello")
                  (Scenario.fresh "not a url" "llama2")))) /\
  fst (ChatProvider.getOllamaResponse 1 Scenario.local_server
         Scenario.provider (js "hello") (Scenario.fresh "not a url" "llama2"))
  = Some (Resolved (js "Hi!")).
Proof.
  repeat split; try (vm_compute; reflexivity); vm_compute; tauto.
Qed.

(** ** The store's retry settings and a provider that already exists *)

Section RetrySettingsFrame.

Import ChatProvider.

Variable host : Host.
Variable this : OllamaCodeFixerChatProvider.
Variables (n : Z) (d m : float).

Local Abbreviation edited := (with_retry n d m).






End RetrySettingsFrame.



(* ===================================================================== *)
(** * Properties of the fix command                                       *)
(* ===================================================================== *)

Lemma added_emit P w w1 e :
  adds_only P w w1 -> added w (emit e w1) = added w w1 ++ [e].
Proof.
  intros (l & H & _). rewrite (added_app _ _ _ H).
  apply added_app. now rewrite log_emit, H, app_assoc.
Qed.

Lemma edits_app l1 l2 : edits (l1 ++ l2) = edits l1 ++ edits l2.
Proof. apply filter_app. Qed.

Lemma no_edits_added w w' : adds_only not_Edit w w' -> edits (added w w') = [].
Proof.
  intros H. apply adds_added in H. unfold edits.
  induction (added w w') as [|e l IH]; [reflexivity|].
  simpl in *. apply andb_prop in H as [He Hl]. unfold not_Edit in He.
  destruct (is_Edit e); [discriminate|]. now apply IH.
Qed.

Section FixFacts.

Import Extension.

Variable host : Host.

Lemma correction_catch_adds config err w :
  adds_only not_Edit w (correction_catch config err w).
Proof.
  unfold correction_catch. destruct err as [? ? [r|] ?|?]; adds.
Qed.

Lemma getCorrectionFromOllama_adds codeSnippet languageId w :
  adds_only not_Edit w
            (snd (getCorrectionFromOllama host codeSnippet languageId w)).
Proof.
  unfold getCorrectionFromOllama.
  destruct (build_prompt _ _ _) as [prompt|error]; [|simpl; adds].
  unfold correction_try, axios_post.
  destruct (axios host _) as [[body|kind]|e]; simpl.
  - destruct (response body) as [raw|failure]; simpl.
    + adds.
    + eapply adds_trans; [|apply correction_catch_adds]. adds.
  - eapply adds_trans; [|apply correction_catch_adds]. adds.
  - eapply adds_trans; [|apply correction_catch_adds]. adds.
Qed.

(** The prompt cannot be built exactly when the prefix lets
    [prefix.replace(...)] throw. *)
Lemma build_prompt_throws config codeSnippet languageId error :
  build_prompt config codeSnippet languageId = inr error
  <-> Config.promptPrefix config = inr error.
Proof.
  unfold build_prompt. destruct (Config.promptPrefix config); split; congruence.
Qed.

(** [getCorrectionFromOllama] resolves, and to [null] exactly when its
    [try] block throws, unless the prefix is not a string: then it
    rejects with what the construction of the prompt throws, before it
    has done anything. *)
Lemma getCorrectionFromOllama_settles codeSnippet languageId w :
  (exists prefix r,
      Config.promptPrefix (settings w) = inl prefix /\
      fst (getCorrectionFromOllama host codeSnippet languageId w) = Resolved r)
  \/
  (exists error,
      Config.promptPrefix (settings w) = inr error /\
      getCorrectionFromOllama host codeSnippet languageId w = (Rejected error, w)).
Proof.
  unfold getCorrectionFromOllama, build_prompt.
  destruct (Config.promptPrefix (settings w)) as [prefix|error].
  - left. exists prefix.
    destruct (correction_try _ _ _ _) as [[code|e] w1]; simpl; eauto.
  - right. now exists error.
Qed.

Lemma not_applied_adds code w : adds_only not_Edit w (not_applied code w).
Proof. unfold not_applied. adds. Qed.

End FixFacts.

(** One edit between two stretches without edits. *)
Lemma edits_single w w1 w2 e :
  adds_only not_Edit w w1 -> is_Edit e = true ->
  adds_only not_Edit (emit e w1) w2 ->
  edits (added w w2) = [e].
Proof.
  intros (l1 & H1 & F1) He (l2 & H2 & F2).
  rewrite (added_app w w2 (l1 ++ [e] ++ l2))
    by now rewrite H2, log_emit, H1, <- !app_assoc.
  rewrite !edits_app. unfold edits at 2. cbn [filter]. rewrite He.
  assert (Hnone : forall l, forallb not_Edit l = true -> edits l = []).
  { induction l as [|x l IH]; [reflexivity|]. simpl.
    unfold not_Edit at 1. destruct (is_Edit x); [discriminate|exact IH]. }
  now rewrite (Hnone _ F1), (Hnone _ F2).
Qed.

(** What follows the edit in [apply_correction] holds no further edit. *)
Lemma after_edit_adds host w :
  adds_only not_Edit w
    (let outcome := editSucceeds host (log w) in
     let w := emit (ProgressReport 100 (js "Finished.")) w in
     match outcome with
     | inl true =>
         emit (ConsoleLog (js "[OllamaCodeFixer] Code replacement successful."))
              (emit (ShowInformationMessage (js "Code updated by Ollama AI!") []) w)
     | inl false =>
         emit (ConsoleLog (js "[OllamaCodeFixer] Code replacement failed."))
              (emit (ShowErrorMessage (js "Failed to apply code changes.") []) w)
     | inr text =>
         emit (ConsoleError (js "[OllamaCodeFixer] Edit operation failed:"))
              (emit (ShowErrorMessage (js "Failed to apply edits: " ++ text) []) w)
     end).
Proof.
  cbv zeta. destruct (editSucceeds host (log w)) as [[|]|text]; adds.
Qed.

(** What the end of the progress task adds to the log: one edit, of the
    captured range, through the editor that is active at that moment, if
    that editor shows the captured document and has the captured
    selection; no edit otherwise. *)
Lemma apply_correction_edits host editor captured code w w1 :
  adds_only not_Edit w w1 ->
  edits (added w (Extension.apply_correction host editor captured code w1)) = []
  \/ exists current,
       activeTextEditor host
         (log (emit (ProgressReport 80 (js "Applying AI suggestions...")) w1))
       = Some current /\
       document current = document editor /\
       isEqual (selection current) captured = true /\
       edits (added w (Extension.apply_correction host editor captured code w1))
       = [Edit (editor_id current) (document current) captured code].
Proof.
  intros Hadd. unfold Extension.apply_correction.
  set (w2 := emit (ProgressReport 80 _) w1).
  assert (H2 : adds_only not_Edit w w2) by (unfold w2; adds).
  assert (Hno : forall w3, adds_only not_Edit w2 w3 -> edits (added w w3) = []).
  { intros w3 H3. apply no_edits_added. now apply adds_trans with w2. }
  destruct (activeTextEditor host (log w2)) as [current|] eqn:Hactive.
  - unfold Extension.selection_unchanged.
    destruct (Nat.eqb_spec (document current) (document editor)) as [Hdoc|Hdoc];
      cbn [andb].
    + destruct (isEqual (selection current) captured) eqn:Hsel.
      * right. exists current. repeat split; try assumption.
        apply edits_single with (w1 := w2); [exact H2|reflexivity|].
        apply after_edit_adds.
      * left. apply Hno. unfold Extension.not_applied. adds.
    + left. apply Hno. unfold Extension.not_applied. adds.
  - left. apply Hno. unfold Extension.not_applied. adds.
Qed.

(** C9 (as amended).  The fix command edits the document at most once, and
    only when [getCorrectionFromOllama] has returned the whole corrected
    code, no cancellation is pending, the code differs from the selected
    text, and at that moment there is an active editor that shows the
    captured document and whose selection is equal to the captured one;
    the edit replaces the captured range by the corrected code.  When
    [getCorrectionFromOllama] returns [null], nothing is edited. *)
Theorem correction_applied_only_after_success_and_check
        (host : Host) (w : World) :
  (edits (added w (snd (Extension.fixSelectedCode host w))) = [] \/
   exists editor code w1 current,
     activeTextEditor host (log w) = Some editor /\
     isEmpty (selection editor) = false /\
     Extension.getCorrectionFromOllama host
       (getText host (log w) (document editor) (selection editor))
       (languageId editor)
       (emit (ProgressReport 0 (js "Sending code to local Ollama AI...")) w)
     = (Resolved (Some code), w1) /\
     isCancellationRequested host (log w1) = false /\
     code <> getText host (log w) (document editor) (selection editor) /\
     activeTextEditor host
       (log (emit (ProgressReport 80 (js "Applying AI suggestions...")) w1))
     = Some current /\
     document current = document editor /\
     isEqual (selection current) (selection editor) = true /\
     edits (added w (snd (Extension.fixSelectedCode host w)))
     = [Edit (editor_id current) (document editor) (selection editor) code])
  /\
  (forall editor w1,
      activeTextEditor host (log w) = Some editor ->
      Extension.getCorrectionFromOllama host
        (getText host (log w) (document editor) (selection editor))
        (languageId editor)
        (emit (ProgressReport 0 (js "Sending code to local Ollama AI...")) w)
      = (Resolved None, w1) ->
      edits (added w (snd (Extension.fixSelectedCode host w))) = []).
Proof.
  assert (Hquiet : forall w', adds_only not_Edit w w' -> edits (added w w') = [])
    by (intros; now apply no_edits_added).
  unfold Extension.fixSelectedCode.
  destruct (activeTextEditor host (log w)) as [editor|] eqn:Hactive.
  2:{ split; [left; apply Hquiet; simpl; adds|discriminate]. }
  destruct (isEmpty (selection editor)) eqn:Hempty.
  { split; [left|intros]; apply Hquiet; simpl; adds. }
  unfold Extension.progress_task.
  set (w0 := emit (ProgressReport 0 _) w).
  set (selectedText := getText host (log w) (document editor) (selection editor)).
  assert (H0 : adds_only not_Edit w w0) by (unfold w0; adds).
  destruct (isCancellationRequested host (log w0)).
  { split; [left|intros]; apply Hquiet; simpl; adds. }
  pose proof (getCorrectionFromOllama_adds host selectedText (languageId editor) w0)
    as Hc.
  destruct (Extension.getCorrectionFromOllama host selectedText (languageId editor) w0)
    as [r0 w1] eqn:Hget.
  simpl in Hc.
  assert (H1 : adds_only not_Edit w w1) by (now apply adds_trans with w0).
  destruct r0 as [r|e].
  2:{ split; [left|intros]; apply Hquiet; simpl; adds. }
  destruct (isCancellationRequested host (log w1)) eqn:Hcancel.
  { split; [left|intros]; apply Hquiet; simpl; adds. }
  destruct r as [code|].
  2:{ split; [left|intros]; apply Hquiet; simpl; adds. }
  destruct (JsString.eqb code selectedText) eqn:Heq.
  { split; [left|intros]; apply Hquiet; simpl; adds. }
  split; [|intros editor' w1' Hed Hnull; inversion Hed; subst editor';
           fold selectedText w0 in Hnull; congruence].
  simpl snd.
  destruct (apply_correction_edits host editor (selection editor) code w w1 H1)
    as [Hnone | (current & Hcur & Hdoc & Hsel & Hedit)].
  - left. exact Hnone.
  - right. exists editor, code, w1, current.
    repeat split; try assumption.
    + intros ->. rewrite eqb_refl in Heq. discriminate.
    + rewrite Hedit, Hdoc. reflexivity.
Qed.

Lemma correction_applied_only_after_success_and_check_witness :
  edits (added Scenario.generate_store
           (snd (Extension.fixSelectedCode
                   (Scenario.editing Scenario.left_editor Scenario.left_editor
                      "x = 1" (fun _ => inr Scenario.connection_refused))
                   Scenario.generate_store)))
  = [].
Proof.
  eapply (proj2 (correction_applied_only_after_success_and_check
                   (Scenario.editing Scenario.left_editor Scenario.left_editor
                      "x = 1" (fun _ => inr Scenario.connection_refused))
                   Scenario.generate_store));
    reflexivity.
Defined.

(** C9 as stated fails on the editor: the command was started in the
    editor with identity 1; when the suggestion arrives the active editor
    is another one (identity 2) that shows the same document with an equal
    selection, and the edit is made through it. *)
Lemma correction_applied_through_another_editor :
  activeTextEditor
    (Scenario.editing Scenario.left_editor Scenario.right_editor "x = 1"
       (Scenario.serving [] "x = 2"))
    (log Scenario.generate_store)
  = Some Scenario.left_editor /\
  editor_id Scenario.left_editor <> editor_id Scenario.right_editor /\
  edits (added Scenario.generate_store
           (snd (Extension.fixSelectedCode
                   (Scenario.editing Scenario.left_editor Scenario.right_editor
                      "x = 1" (Scenario.serving [] "x = 2"))
                   Scenario.generate_store)))
  = [Edit (editor_id Scenario.right_editor) 7 Scenario.the_range (js "x = 2")].
Proof.
  split; [reflexivity|]. split; [discriminate|]. vm_compute. reflexivity.
Qed.

Lemma getCorrectionFromOllama_success_shows_nothing
      host codeSnippet languageId w code w1 :
  Extension.getCorrectionFromOllama host codeSnippet languageId w
  = (Resolved (Some code), w1) ->
  adds_only not_shown w w1.
Proof.
  unfold Extension.getCorrectionFromOllama.
  destruct (Extension.build_prompt _ _ _) as [prompt|error]; [|discriminate].
  unfold Extension.correction_try, axios_post.
  destruct (axios host _) as [[body|kind]|e]; try discriminate.
  destruct (response body) as [raw|failure]; [|discriminate].
  intros H. inversion H; subst. adds.
Qed.

(** C10 (as amended).  When the corrected code is equal to the selected
    text, the fix command makes no edit.  If no cancellation has been
    requested by the time the correction arrives, it tells the user that
    no changes are suggested.  If one has, it ends without that message:
    the only message of the run is the one of the cancellation callback. *)
Theorem identical_correction_is_not_applied
        (host : Host) (w w1 : World) (editor : TextEditor) (code : JsString.t) :
  activeTextEditor host (log w) = Some editor ->
  isEmpty (selection editor) = false ->
  isCancellationRequested host
    (log (emit (ProgressReport 0 (js "Sending code to local Ollama AI...")) w))
  = false ->
  Extension.getCorrectionFromOllama host
    (getText host (log w) (document editor) (selection editor))
    (languageId editor)
    (emit (ProgressReport 0 (js "Sending code to local Ollama AI...")) w)
  = (Resolved (Some code), w1) ->
  code = getText host (log w) (document editor) (selection editor) ->
  edits (added w (snd (Extension.fixSelectedCode host w))) = [] /\
  (isCancellationRequested host (log w1) = false ->
   In (ShowInformationMessage
         (js "Ollama AI suggests no changes to the selected code.") [])
      (added w (snd (Extension.fixSelectedCode host w)))) /\
  (isCancellationRequested host (log w1) = true ->
   shown (added w (snd (Extension.fixSelectedCode host w)))
   = [ShowInformationMessage (js "Ollama code correction cancelled.") []]).
Proof.
  intros Hactive Hempty Hcancel0 Hget Hsame.
  pose proof (getCorrectionFromOllama_adds host
                (getText host (log w) (document editor) (selection editor))
                (languageId editor)
                (emit (ProgressReport 0 (js "Sending code to local Ollama AI...")) w))
    as Hc.
  pose proof (getCorrectionFromOllama_success_shows_nothing _ _ _ _ _ _ Hget) as Hq.
  rewrite Hget in Hc. simpl in Hc.
  assert (H1 : adds_only not_Edit w w1).
  { eapply adds_trans; [|exact Hc]. adds. }
  unfold Extension.fixSelectedCode. rewrite Hactive, Hempty.
  unfold Extension.progress_task. rewrite Hcancel0, Hget.
  destruct (isCancellationRequested host (log w1)).
  - split; [|split; [discriminate|intros _]].
    + apply no_edits_added. unfold Extension.cancellation_callback. simpl. adds.
    + destruct Hq as (l & Hl & Hf). cbn [snd].
      unfold Extension.cancellation_callback.
      rewrite (added_app w _ ([ProgressReport 0 (js "Sending code to local Ollama AI...")]
                              ++ l ++ [ConsoleLog (js "[OllamaCodeFixer] User cancelled the Ollama request.");
                                       ShowInformationMessage (js "Ollama code correction cancelled.") []]))
        by (rewrite !log_emit, Hl, log_emit, <- !app_assoc; reflexivity).
      unfold shown. rewrite !filter_app.
      assert (Hnone : filter is_shown l = []).
      { clear Hl. induction l as [|x l IH]; [reflexivity|].
        simpl in Hf. apply andb_prop in Hf as [Hx Hf]. simpl.
        unfold not_shown in Hx. destruct (is_shown x); [discriminate|].
        now apply IH. }
      rewrite Hnone. reflexivity.
  - rewrite <- Hsame, eqb_refl. split; [|split; [intros _|discriminate]].
    + apply no_edits_added. simpl. adds.
    + simpl.
      eapply added_later with (P := not_Edit) (Q := any_event); [exact H1|adds].
Qed.

Lemma identical_correction_is_not_applied_witness :
  edits (added Scenario.generate_store
           (snd (Extension.fixSelectedCode
                   (Scenario.editing Scenario.left_editor Scenario.left_editor
                      "x = 1" (Scenario.serving [] " x = 1 "))
                   Scenario.generate_store)))
  = [] /\
  In (ShowInformationMessage
        (js "Ollama AI suggests no changes to the selected code.") [])
     (added Scenario.generate_store
        (snd (Extension.fixSelectedCode
                (Scenario.editing Scenario.left_editor Scenario.left_editor
                   "x = 1" (Scenario.serving [] " x = 1 "))
                Scenario.generate_store))).
Proof.
  destruct (identical_correction_is_not_applied
              (Scenario.editing Scenario.left_editor Scenario.left_editor
                 "x = 1" (Scenario.serving [] " x = 1 "))
              Scenario.generate_store _ Scenario.left_editor (js "x = 1")
              eq_refl eq_refl eq_refl eq_refl eq_refl) as (Hnone & Hinfo & _).
  split; [exact Hnone | apply Hinfo; reflexivity].
Defined.

(** C10 as stated fails when the user cancels while the request is under
    way: the correction that arrives is the selected text, and the
    command ends without telling the user that no changes are
    suggested. *)
Lemma identical_correction_after_cancellation_is_not_reported :
  fst (Extension.getCorrectionFromOllama
         (cancelling "x = 1" (Scenario.serving [] " x = 1 "))
         (js "x = 1") (js "python")
         (emit (ProgressReport 0 (js "Sending code to local Ollama AI..."))
               Scenario.generate_store))
  = Resolved (Some (js "x = 1")) /\
  ~ In (ShowInformationMessage
          (js "Ollama AI suggests no changes to the selected code.") [])
       (log (snd (Extension.fixSelectedCode
                    (cancelling "x = 1" (Scenario.serving [] " x = 1 "))
                    Scenario.generate_store))).
Proof.
  split; [vm_compute; reflexivity|].
  vm_compute. intros H.
  repeat (destruct H as [H|H]; [discriminate|]). exact H.
Qed.

(* ===================================================================== *)
(** * Failures stay in band                                               *)
(* ===================================================================== *)

Lemma getOllamaResponse_never_rejects host this message fuel : forall w,
  fst (ChatProvider.getOllamaResponse fuel host this message w) = None \/
  exists text,
    fst (ChatProvider.getOllamaResponse fuel host this message w)
    = Some (Resolved text).
Proof.
  induction fuel as [|fuel IH]; intros w; cbn [ChatProvider.getOllamaResponse];
    [now left|].
  destruct (ChatProvider.resolve_base host this w) as [baseApiUrl w0].
  destruct (ChatProvider.check_models host this baseApiUrl _ w0)
    as [[text| |] w1].
  - right. now exists text.
  - apply IH.
  - destruct (generate_resolves host this (settings w) baseApiUrl
                (Config.modelName (settings w)) message w1) as (text & w2 & Hgen).
    rewrite Hgen. right. now exists text.
Qed.

(** The fix command resolves, unless the prefix is not a string and the
    command gets as far as the correction request. *)
Lemma fixSelectedCode_settles host w :
  fst (Extension.fixSelectedCode host w) = Resolved tt \/
  exists error,
    Config.promptPrefix (settings w) = inr error /\
    fst (Extension.fixSelectedCode host w) = Rejected error.
Proof.
  unfold Extension.fixSelectedCode.
  destruct (activeTextEditor host (log w)) as [editor|]; [|now left].
  destruct (isEmpty (selection editor)); [now left|].
  unfold Extension.progress_task.
  destruct (isCancellationRequested host _); [now left|].
  destruct (getCorrectionFromOllama_settles host
              (getText host (log w) (document editor) (selection editor))
              (languageId editor)
              (emit (ProgressReport 0 (js "Sending code to local Ollama AI...")) w))
    as [(prefix & r & _ & Hr)|(error & Hprefix & Hrej)].
  - destruct (Extension.getCorrectionFromOllama _ _ _ _) as [r0 w1].
    simpl in Hr. subst r0. left.
    destruct (isCancellationRequested host _); [reflexivity|].
    destruct r as [code|]; [|reflexivity].
    destruct (JsString.eqb code _); reflexivity.
  - right. exists error. split; [exact Hprefix|]. now rewrite Hrej.
Qed.

(** C8 (as amended).  The chat operation never rejects and, when its call
    chain ends, resolves to a text; a generation call whose [try] block
    throws resolves to the message that the [catch] block builds from the
    thrown value.  The correction request resolves whenever the
    configured prompt prefix is a string: when its [try] block throws it
    logs the message it builds, shows it if notifications are enabled,
    and resolves to [null]; and the fix command then resolves.  When the
    prefix is not a string, the prompt cannot be built: the correction
    request rejects with what the construction throws, and so does the
    fix command once it has an editor with a selection and no
    cancellation is pending. *)
Theorem terminal_failures_resolve_in_band
        (host : Host) (this : ChatProvider.OllamaCodeFixerChatProvider)
        (message codeSnippet : JsString.t) (fuel : nat) (w : World) :
  (fst (ChatProvider.getOllamaResponse fuel host this message w) = None \/
   exists text,
     fst (ChatProvider.getOllamaResponse fuel host this message w)
     = Some (Resolved text))
  /\
  (forall baseApiUrl w0,
      ChatProvider.resolve_base host this w = (baseApiUrl, w0) ->
      fst (ChatProvider.check_models host this baseApiUrl
             (Config.modelName (settings w)) w0) <> ChatProvider.Reinvoke ->
      exists text,
        fst (ChatProvider.getOllamaResponse (S fuel) host this message w)
        = Some (Resolved text))
  /\
  (forall config baseApiUrl modelName error w',
      ChatProvider.generate_try host this config
        (baseApiUrl ++ ChatProvider.chatEndpoint) modelName message
        (emit_if (ChatProvider.is_debug config) ChatProvider.request_details w)
      = (Rejected error, w') ->
      fst (ChatProvider.generate host this config baseApiUrl modelName message w)
      = Resolved (ChatProvider.errorMessage error))
  /\
  (forall languageId prompt error w',
      Extension.build_prompt (settings w) codeSnippet languageId = inl prompt ->
      Extension.correction_try host (settings w) prompt
        (emit_if (Extension.is_debug (settings w))
                 (Extension.sending_to (settings w)) w)
      = (Rejected error, w') ->
      let result := Extension.getCorrectionFromOllama host codeSnippet languageId w in
      fst result = Resolved None /\
      In (ConsoleError (js "[OllamaCodeFixer] API Call Error: "
                          ++ Extension.errorMessage error))
         (log (snd result)) /\
      (Config.enableNotifications (settings w) = true ->
       In (ShowErrorMessage (Extension.errorMessage error) []) (log (snd result))))
  /\
  (forall prefix,
      Config.promptPrefix (settings w) = inl prefix ->
      (forall languageId,
          exists r,
            fst (Extension.getCorrectionFromOllama host codeSnippet languageId w)
            = Resolved r) /\
      fst (Extension.fixSelectedCode host w) = Resolved tt)
  /\
  (forall error,
      Config.promptPrefix (settings w) = inr error ->
      (forall languageId,
          Extension.getCorrectionFromOllama host codeSnippet languageId w
          = (Rejected error, w)) /\
      (forall editor,
          activeTextEditor host (log w) = Some editor ->
          isEmpty (selection editor) = false ->
          isCancellationRequested host
            (log (emit (ProgressReport 0 (js "Sending code to local Ollama AI...")) w))
          = false ->
          fst (Extension.fixSelectedCode host w) = Rejected error)).
Proof.
  split; [apply getOllamaResponse_never_rejects|].
  split.
  { intros baseApiUrl w0 Hbase Hcheck.
    cbn [ChatProvider.getOllamaResponse]. rewrite Hbase.
    destruct (ChatProvider.check_models host this baseApiUrl _ w0)
      as [[text| |] w1]; simpl in Hcheck.
    - now exists text.
    - congruence.
    - destruct (generate_resolves host this (settings w) baseApiUrl
                  (Config.modelName (settings w)) message w1)
        as (text & w2 & Hgen).
      rewrite Hgen. now exists text. }
  split.
  { intros config baseApiUrl modelName error w' Htry.
    unfold ChatProvider.generate. now rewrite Htry. }
  split.
  { intros languageId prompt error w' Hprompt Htry result. subst result.
    unfold Extension.getCorrectionFromOllama. rewrite Hprompt, Htry.
    cbn [fst snd]. split; [reflexivity|].
    unfold Extension.correction_catch. split.
    - later.
    - intros Hon. rewrite Hon. cbn [emit_if]. apply In_emit. }
  split.
  { intros prefix Hprefix. split.
    - intros languageId.
      destruct (getCorrectionFromOllama_settles host codeSnippet languageId w)
        as [(prefix' & r & _ & Hr)|(error & Herr & _)]; [eauto|congruence].
    - destruct (fixSelectedCode_settles host w) as [Hres|(error & Herr & _)];
        [exact Hres|congruence]. }
  intros error Herror. split.
  - intros languageId.
    destruct (getCorrectionFromOllama_settles host codeSnippet languageId w)
      as [(prefix & r & Hprefix & _)|(error' & Herr & Hrej)]; [congruence|].
    rewrite Hrej. congruence.
  - intros editor Hactive Hempty Hcancel.
    unfold Extension.fixSelectedCode. rewrite Hactive, Hempty.
    unfold Extension.progress_task. rewrite Hcancel.
    destruct (getCorrectionFromOllama_settles host
                (getText host (log w) (document editor) (selection editor))
                (languageId editor)
                (emit (ProgressReport 0 (js "Sending code to local Ollama AI...")) w))
      as [(prefix & r & Hprefix & _)|(error' & Herr & Hrej)].
    + cbn [settings emit] in Hprefix. congruence.
    + rewrite Hrej. cbn [settings emit] in Herr. cbn [fst]. congruence.
Qed.

Lemma terminal_failures_resolve_in_band_witness :
  (fst (Extension.getCorrectionFromOllama Scenario.offline (js "x = 1")
          (js "python") Scenario.generate_store)
   = Resolved None /\
   In (ShowErrorMessage (Extension.errorMessage Scenario.connection_refused) [])
      (log (snd (Extension.getCorrectionFromOllama Scenario.offline (js "x = 1")
                   (js "python") Scenario.generate_store)))) /\
  fst (Extension.fixSelectedCode
         (Scenario.editing Scenario.left_editor Scenario.left_editor
            "x = 1" (fun _ => inr Scenario.connection_refused))
         Scenario.generate_store)
  = Resolved tt /\
  fst (Extension.fixSelectedCode
         (Scenario.editing Scenario.left_editor Scenario.left_editor
            "x = 1" (fun _ => inr Scenario.connection_refused))
         null_prefix_store)
  = Rejected (TypeError_reading js_null "replace").
Proof.
  split; [|split].
  - destruct (proj1 (proj2 (proj2 (proj2
                (terminal_failures_resolve_in_band
                   Scenario.offline Scenario.provider (js "hello") (js "x = 1") 0
                   Scenario.generate_store))))
                (js "python") _ Scenario.connection_refused _ eq_refl eq_refl)
      as (Hnull & _ & Hshown).
    split; [exact Hnull | apply Hshown; reflexivity].
  - apply (proj2 (proj1 (proj2 (proj2 (proj2 (proj2
             (terminal_failures_resolve_in_band
                (Scenario.editing Scenario.left_editor Scenario.left_editor
                   "x = 1" (fun _ => inr Scenario.connection_refused))
                Scenario.provider (js "hello") (js "x = 1") 0
                Scenario.generate_store)))))
             _ eq_refl)).
  - apply (proj2 (proj2 (proj2 (proj2 (proj2 (proj2
             (terminal_failures_resolve_in_band
                (Scenario.editing Scenario.left_editor Scenario.left_editor
                   "x = 1" (fun _ => inr Scenario.connection_refused))
                Scenario.provider (js "hello") (js "x = 1") 0
                null_prefix_store)))))
             _ eq_refl) Scenario.left_editor eq_refl eq_refl eq_refl).
Defined.

(** C8 as stated fails, first on the value: a request refused by the
    server with status 401 and a request that finds no server both
    resolve to the same [null], although the messages built for the two
    failures differ: the value carries neither a kind nor a message.  It
    also fails on the boundary: with a [null] prompt prefix the fix
    command rejects with a [TypeError]. *)
Lemma failure_value_carries_no_kind_or_message :
  fst (Extension.getCorrectionFromOllama
         (Scenario.host_with (fun _ => inr (Scenario.http_error 401)))
         (js "x = 1") (js "python") Scenario.generate_store)
  = Resolved None /\
  fst (Extension.getCorrectionFromOllama Scenario.offline
         (js "x = 1") (js "python") Scenario.generate_store)
  = Resolved None /\
  Extension.errorMessage (Scenario.http_error 401)
  <> Extension.errorMessage Scenario.connection_refused /\
  fst (Extension.fixSelectedCode
         (Scenario.editing Scenario.left_editor Scenario.left_editor
            "x = 1" (fun _ => inr Scenario.connection_refused))
         null_prefix_store)
  = Rejected (OtherError
                (js "Cannot read properties of null (reading 'replace')")).
Proof.
  split; [reflexivity|]. split; [reflexivity|].
  split; vm_compute; [discriminate|reflexivity].
Qed.

(* ===================================================================== *)
(** * Further properties of the retry engine                              *)
(* ===================================================================== *)

Section RetryMore.

Import Retry.

Context {num S T E : Type}.
Variable mul : num -> num -> num.
Variable options : RetryOptions num.
Variable operation : S -> (T + E) * S.
Variable isRetryable : E -> bool + E.

Local Abbreviation loop := (retry_loop mul options operation isRetryable).
Local Abbreviation plan := (schedule mul options).
Local Abbreviation total := (maxRetries options + 1)%Z.

(** When every call the budget allows fails with a failure classified as
    retryable, the loop uses the whole budget and rejects with the error
    of the last call. *)
Lemma retry_loop_exhausts n : forall fuel attempt delay lastError s os e s',
  Datatypes.S n = Retry.remaining options attempt ->
  Datatypes.S n <= fuel ->
  replay operation (Datatypes.S n) s = (os ++ [inr e], s') ->
  (forall o, In o (os ++ [inr e]) ->
             exists e', o = inr e' /\ isRetryable e' = inl true) ->
  loop fuel attempt delay lastError s
  = (Rejected (Some e), s', plan (Datatypes.S n) attempt delay).
Proof.
  unfold Retry.remaining.
  induction n as [|n IH]; intros fuel attempt delay lastError s os e s' Hrem Hfuel;
    rewrite replay_S; destruct (operation s) as [o s1] eqn:Hop;
    destruct (replay operation _ s1) as [os1 s2] eqn:Hrep;
    intros Heq Hall; inversion Heq as [[Hos Hs]]; subst s2;
    (destruct fuel as [|fuel]; [lia|]); cbn [retry_loop];
    (destruct (Z.leb_spec attempt total) as [_|Hgt]; [|lia]); rewrite Hop.
  - simpl in Hrep. inversion Hrep; subst os1 s1.
    destruct os as [|o' os]; [|destruct os; discriminate].
    simpl in Hos. inversion Hos; subst o.
    destruct (Hall (inr e)) as (e' & He' & Hp); [now left|].
    inversion He'; subst e'.
    destruct (Z.leb_spec attempt (maxRetries options)) as [Hle|_]; [lia|].
    unfold no_more_retries. rewrite Hp. reflexivity.
  - pose proof (replay_length operation _ _ _ _ Hrep) as Hlen.
    destruct os as [|o' os].
    { simpl in Hos. inversion Hos; subst. discriminate. }
    simpl in Hos. inversion Hos; subst o' os1.
    destruct (Hall o) as (e0 & He0 & Hp0); [now left|]. subst o.
    destruct (Z.leb_spec attempt (maxRetries options)) as [_|Hgt]; [|lia].
    rewrite Hp0.
    rewrite (IH fuel (attempt + 1)%Z (mul delay (backoffMultiplier options))
                (Some e0) s1 os e s'); try lia; try assumption.
    + reflexivity.
    + intros o Ho. apply Hall. now right.
Qed.

(** No schedule ends with a wait. *)
Lemma schedule_ends_with_invocation n : forall attempt delay l d,
  plan n attempt delay <> l ++ [Wait d].
Proof.
  induction n as [|n IH]; intros attempt delay l d H.
  - destruct l; discriminate.
  - destruct n as [|n].
    + destruct l as [|x l]; [discriminate|].
      simpl in H. inversion H. destruct l; discriminate.
    + rewrite schedule_two in H.
      destruct l as [|x [|y l]]; try discriminate.
      inversion H. eapply IH; eauto.
Qed.

End RetryMore.

(** X1.  A failure that the predicate classifies as not retryable ends the
    run at once: the operation has been called once, nothing is waited
    for, and [withRetry] rejects with that failure. *)
Theorem withRetry_stops_at_first_non_retryable_failure
        (num S T E : Type) (mul : num -> num -> num)
        (options : Retry.RetryOptions num)
        (operation : S -> (T + E) * S) (isRetryable : E -> bool + E)
        (s s1 : S) (e : E) :
  (0 <= Retry.maxRetries options)%Z ->
  operation s = (inr e, s1) ->
  isRetryable e = inl false ->
  Retry.withRetry mul options operation isRetryable s
  = (Rejected (Some e), s1, [Retry.Invoke 1 (Retry.maxRetries options + 1)]).
Proof.
  intros Hbudget Hop Hp. unfold Retry.withRetry.
  destruct (Z.to_nat (Retry.maxRetries options + 1)) as [|fuel] eqn:Hfuel; [lia|].
  cbn [Retry.retry_loop].
  destruct (Z.leb_spec 1 (Retry.maxRetries options + 1)); [|lia].
  rewrite Hop. unfold Retry.no_more_retries. rewrite Hp.
  now destruct (1 <=? Retry.maxRetries options)%Z.
Qed.

Lemma withRetry_stops_at_first_non_retryable_failure_witness :
  Retry.withRetry PrimFloat.mul Scenario.default_options
    (Scenario.flaky 1 (Scenario.http_error 401) (js "fixed"))
    (Retry.defaultIsRetryable true) 0
  = (Rejected (Some (Scenario.http_error 401)), 1, [Retry.Invoke 1 4]).
Proof.
  apply (withRetry_stops_at_first_non_retryable_failure
           float nat JsString.t JsError PrimFloat.mul Scenario.default_options
           (Scenario.flaky 1 (Scenario.http_error 401) (js "fixed"))
           (Retry.defaultIsRetryable true) 0 1 (Scenario.http_error 401));
    [vm_compute; discriminate | reflexivity | reflexivity].
Defined.

(** X2.  When all [maxRetries + 1] calls fail with failures classified as
    retryable, [withRetry] makes exactly these calls, with [maxRetries]
    waits between them, and rejects with the failure of the last call. *)
Theorem withRetry_exhausted_budget_surfaces_last_failure
        (num S T E : Type) (mul : num -> num -> num)
        (options : Retry.RetryOptions num)
        (operation : S -> (T + E) * S) (isRetryable : E -> bool + E)
        (s s' : S) (os : list (T + E)) (e : E) :
  (0 <= Retry.maxRetries options)%Z ->
  Retry.replay operation (Z.to_nat (Retry.maxRetries options + 1)) s
  = (os ++ [inr e], s') ->
  (forall o, In o (os ++ [inr e]) ->
             exists e', o = inr e' /\ isRetryable e' = inl true) ->
  Retry.withRetry mul options operation isRetryable s
  = (Rejected (Some e), s',
     Retry.schedule mul options (Z.to_nat (Retry.maxRetries options + 1)) 1
                    (Retry.retryDelay options))
  /\ List.length (Retry.delays
                    (Retry.schedule mul options
                       (Z.to_nat (Retry.maxRetries options + 1)) 1
                       (Retry.retryDelay options)))
     = Z.to_nat (Retry.maxRetries options).
Proof.
  intros Hbudget Hreplay Hall. unfold Retry.withRetry.
  destruct (Z.to_nat (Retry.maxRetries options + 1)) as [|n] eqn:Hn; [lia|].
  split.
  - apply retry_loop_exhausts with (os := os); try assumption; try lia.
    unfold Retry.remaining. lia.
  - rewrite delays_schedule, length_map, length_seq. simpl. lia.
Qed.

Lemma withRetry_exhausted_budget_surfaces_last_failure_witness :
  fst (fst (Retry.withRetry PrimFloat.mul Scenario.default_options
              (Scenario.flaky 9 (Scenario.http_error 503) (js "fixed"))
              (Retry.defaultIsRetryable true) 0))
  = Rejected (Some (Scenario.http_error 503)).
Proof.
  rewrite (proj1 (withRetry_exhausted_budget_surfaces_last_failure
             float nat JsString.t JsError PrimFloat.mul Scenario.default_options
             (Scenario.flaky 9 (Scenario.http_error 503) (js "fixed"))
             (Retry.defaultIsRetryable true) 0 4
             [inr (Scenario.http_error 503); inr (Scenario.http_error 503);
              inr (Scenario.http_error 503)]
             (Scenario.http_error 503)
             ltac:(vm_compute; discriminate) eq_refl
             ltac:(intros o Ho; exists (Scenario.http_error 503);
                   simpl in Ho; intuition))).
  reflexivity.
Defined.

(** X3.  In every run the number of waits is the number of invocations
    less one, and the last thing the engine does is never a wait: it does
    not sleep before it gives up. *)
Theorem withRetry_never_waits_after_the_last_attempt
        (num S T E : Type) (mul : num -> num -> num)
        (options : Retry.RetryOptions num)
        (operation : S -> (T + E) * S) (isRetryable : E -> bool + E)
        (s : S) :
  let steps := snd (Retry.withRetry mul options operation isRetryable s) in
  List.length (Retry.delays steps)
  = Nat.pred (List.length (Retry.invocations steps))
  /\ forall l d, steps <> l ++ [Retry.Wait d].
Proof.
  intros steps. subst steps.
  destruct (Retry.withRetry mul options operation isRetryable s)
    as [[r s'] steps] eqn:Hrun.
  unfold Retry.withRetry in Hrun.
  assert (Hfuel : Retry.remaining options 1
                  <= Z.to_nat (Retry.maxRetries options + 1))
    by (unfold Retry.remaining; lia).
  destruct (retry_loop_run mul options operation isRetryable _ _ _ _ _ _ _ _
              Hfuel Hrun) as (n & os & Hsteps & _).
  cbn [snd]. subst steps. split.
  - rewrite delays_schedule, invocations_schedule, !length_map, !length_seq.
    reflexivity.
  - apply schedule_ends_with_invocation.
Qed.

(** X4.  With a negative [maxRetries] the loop body never runs: the
    operation is not called and [withRetry] rejects with [undefined]. *)
Theorem withRetry_with_negative_maxRetries_never_calls
        (num S T E : Type) (mul : num -> num -> num)
        (options : Retry.RetryOptions num)
        (operation : S -> (T + E) * S) (isRetryable : E -> bool + E)
        (s : S) :
  (Retry.maxRetries options < 0)%Z ->
  Retry.withRetry mul options operation isRetryable s = (Rejected None, s, []).
Proof. apply withRetry_empty_budget. Qed.

Lemma withRetry_with_negative_maxRetries_never_calls_witness :
  Retry.withRetry PrimFloat.mul
    {| Retry.maxRetries := -1; Retry.retryDelay := 1000%float;
       Retry.backoffMultiplier := 1.5%float |}
    (Scenario.flaky 0 (Scenario.http_error 503) (js "fixed"))
    (Retry.defaultIsRetryable true) 0
  = (Rejected None, 0, []).
Proof.
  apply withRetry_with_negative_maxRetries_never_calls. reflexivity.
Defined.

(** X6.  Called on the manager, [defaultIsRetryable] never throws, and it
    answers [true] exactly for an Axios error that carries a response with
    status 408, 429, 500, 502, 503 or 504, or that carries no response and
    the code [ETIMEDOUT], [ECONNRESET] or [ECONNREFUSED]. *)
Theorem defaultIsRetryable_with_receiver_classifies (e : JsError) :
  (exists b, Retry.defaultIsRetryable true e = inl b) /\
  (Retry.defaultIsRetryable true e = inl true <->
   (exists m c r q, e = AxiosError m c (Some r) q
                    /\ In (status r) [408; 429; 500; 502; 503; 504]%Z)
   \/ (exists m c q, e = AxiosError m (Some c) None q
                     /\ In c [js "ETIMEDOUT"; js "ECONNRESET"; js "ECONNREFUSED"])).
Proof.
  split; [now exists (Retry.shouldRetry e)|].
  unfold Retry.defaultIsRetryable. rewrite <- shouldRetry_spec.
  split; [intros H; now inversion H | intros ->; reflexivity].
Qed.

(** X7.  A call of [withRetry] that leaves the predicate out never
    retries: the operation is called at most once, nothing is waited for,
    a success is passed on, and every failure of the operation is replaced
    by the [TypeError] that the detached predicate throws. *)
Theorem withRetry_without_predicate_never_retries
        (num S T : Type) (mul : num -> num -> num)
        (options : Retry.RetryOptions num)
        (operation : S -> (T + JsError) * S) (s : S) :
  let run := Retry.withRetry_default mul options operation s in
  List.length (Retry.invocations (snd run)) <= 1 /\
  Retry.delays (snd run) = [] /\
  (forall v, fst (operation s) = inl v ->
             (0 <= Retry.maxRetries options)%Z -> fst (fst run) = Resolved v) /\
  (forall e, fst (operation s) = inr e ->
             (0 <= Retry.maxRetries options)%Z ->
             fst (fst run) = Rejected (Some (TypeError_undefined "logger"))) /\
  ((Retry.maxRetries options < 0)%Z -> run = (Rejected None, s, [])).
Proof.
  intros run. subst run. rewrite withRetry_default_run.
  destruct (Z.ltb_spec (Retry.maxRetries options) 0) as [Hneg|Hpos].
  - repeat split; simpl; try lia; intros; lia.
  - destruct (operation s) as [[v|e] s1]; simpl;
      repeat split; try lia; intros; try congruence; try lia.
Qed.

Lemma withRetry_without_predicate_never_retries_witness :
  fst (fst (Retry.withRetry_default PrimFloat.mul Scenario.default_options
              (Scenario.flaky 1 Scenario.connection_refused (js "fixed")) 0))
  = Rejected (Some (TypeError_undefined "logger")).
Proof.
  apply (proj1 (proj2 (proj2 (proj2
          (withRetry_without_predicate_never_retries
             float nat JsString.t PrimFloat.mul Scenario.default_options
             (Scenario.flaky 1 Scenario.connection_refused (js "fixed")) 0))))
          Scenario.connection_refused);
    [reflexivity | vm_compute; discriminate].
Defined.

(* ===================================================================== *)
(** * Further properties of the string functions                          *)
(* ===================================================================== *)


(** X8.  The corrected code that [getCorrectionFromOllama] extracts never
    starts or ends with white space: it is empty, or its first and its
    last code unit are not blank. *)
Theorem extractCode_has_no_surrounding_blanks (x : JsString.t) :
  JsString.extractCode x = [] \/
  exists c r,
    JsString.extractCode x = c :: r /\
    JsString.is_ws c = false /\
    JsString.is_ws (last (c :: r) c) = false.
Proof.
  unfold JsString.extractCode.
  destruct (JsString.regex_match (JsString.trim x)) as [[|c m]|];
    apply trim_ends.
Qed.

(** X9.  A reply that consists, between optional blanks, of one fenced
    block gives the trimmed contents of the block, whatever the contents
    are: with a first line of word characters after the opening fence that
    line is dropped as the language tag, and otherwise the contents start
    right after the opening fence. *)
Theorem extractCode_of_a_single_fenced_block
        (a b word body : JsString.t) :
  forallb JsString.is_ws a = true ->
  forallb JsString.is_ws b = true ->
  body <> [] ->
  (forallb JsString.is_word word = true ->
   JsString.extractCode
     (a ++ (JsString.fence ++ (word ++ 10%N :: body) ++ JsString.fence) ++ b)
   = JsString.trim body)
  /\
  (forall c rest,
      body = c :: rest -> JsString.is_word c = false -> c <> 10%N ->
      JsString.extractCode (a ++ (JsString.fence ++ body ++ JsString.fence) ++ b)
      = JsString.trim body).
Proof.
  intros Ha Hb Hbody. split.
  - intros Hword. unfold JsString.extractCode.
    rewrite (fence_wrap (word ++ 10%N :: body)).
    rewrite trim_core by (assumption || reflexivity).
    rewrite <- (fence_wrap (word ++ 10%N :: body)).
    rewrite (regex_match_here _ body).
    + destruct body; [congruence|reflexivity].
    + unfold JsString.match_here.
      rewrite strip_prefix_app. unfold JsString.after_open.
      rewrite <- app_assoc.
      change ((10%N :: body) ++ JsString.fence) with (10%N :: body ++ JsString.fence).
      rewrite tag_then_body_tag by exact Hword.
      now rewrite body_then_close_app.
  - intros c rest -> Hw Hn. unfold JsString.extractCode.
    rewrite (fence_wrap (c :: rest)).
    rewrite trim_core by (assumption || reflexivity).
    rewrite <- (fence_wrap (c :: rest)).
    rewrite (regex_match_here _ (c :: rest)); [reflexivity|].
    unfold JsString.match_here.
    rewrite strip_prefix_app. unfold JsString.after_open.
    change ((c :: rest) ++ JsString.fence) with (c :: rest ++ JsString.fence).
    rewrite tag_then_body_no_tag
      by (assumption || (apply N.eqb_neq; assumption)).
    change (c :: rest ++ JsString.fence) with ((c :: rest) ++ JsString.fence).
    now rewrite body_then_close_app.
Qed.

Lemma extractCode_of_a_single_fenced_block_witness :
  JsString.extractCode
    ([] ++ (JsString.fence ++ (js "python" ++ 10%N :: js "x = 2 ")
                           ++ JsString.fence) ++ js "  ")
  = JsString.trim (js "x = 2 ").
Proof.
  apply (proj1 (extractCode_of_a_single_fenced_block
                  [] (js "  ") (js "python") (js "x = 2 ")
                  eq_refl eq_refl ltac:(discriminate))).
  reflexivity.
Defined.

(** X10.  A reply whose trimmed text does not end with a triple-backtick
    fence is returned trimmed and otherwise unchanged, also when it has
    fences elsewhere. *)
Theorem extractCode_without_closing_fence_only_trims (x : JsString.t) :
  JsString.ends_with JsString.fence (JsString.trim x) = false ->
  JsString.extractCode x = JsString.trim x.
Proof.
  intros H. unfold JsString.extractCode.
  destruct (JsString.regex_match (JsString.trim x)) as [m|] eqn:E;
    [|reflexivity].
  apply regex_match_ends_with in E. congruence.
Qed.

Lemma extractCode_without_closing_fence_only_trims_witness :
  JsString.extractCode (js " ```js x``` is wrong, use y ")
  = JsString.trim (js " ```js x``` is wrong, use y ").
Proof.
  apply extractCode_without_closing_fence_only_trims. reflexivity.
Defined.

Lemma placeholder_needs_a_brace (prefix a b : JsString.t) :
  forallb (fun c => negb (c =? 123)%N) prefix = true ->
  prefix <> a ++ js "{language}" ++ b.
Proof.
  intros H ->. rewrite forallb_forall in H.
  specialize (H 123%N). assert (Hin : In 123%N (a ++ js "{language}" ++ b)).
  { apply in_or_app. right. apply in_or_app. left. vm_compute. tauto. }
  specialize (H Hin). discriminate.
Qed.

Lemma find_first_here (pattern s acc after : JsString.t) :
  JsString.strip_prefix pattern s = Some after ->
  JsString.find_first pattern s acc = Some (rev acc, after).
Proof. intros H. destruct s; cbn [JsString.find_first]; now rewrite H. Qed.

(** [find_first] stops at the leftmost occurrence. *)
Lemma find_first_leftmost (pattern b : JsString.t) : forall a acc,
  (forall a' b', a ++ pattern ++ b = a' ++ pattern ++ b' ->
                 List.length a <= List.length a') ->
  JsString.find_first pattern (a ++ pattern ++ b) acc = Some (rev acc ++ a, b).
Proof.
  induction a as [|c a IH]; intros acc Hmin.
  - cbn [app]. rewrite (find_first_here pattern (pattern ++ b) acc b)
      by apply strip_prefix_app.
    now rewrite app_nil_r.
  - change ((c :: a) ++ pattern ++ b) with (c :: a ++ pattern ++ b).
    cbn [JsString.find_first].
    destruct (JsString.strip_prefix pattern (c :: a ++ pattern ++ b))
      as [r|] eqn:E.
    + exfalso. apply strip_prefix_split in E.
      specialize (Hmin [] r E). simpl in Hmin. lia.
    + rewrite IH.
      * cbn [rev]. now rewrite <- app_assoc.
      * intros a' b' H. specialize (Hmin (c :: a') b').
        simpl in Hmin. apply le_S_n. apply Hmin. now rewrite H.
Qed.

(** What [find_first] returns is the leftmost occurrence. *)
Lemma find_first_minimal (pattern : JsString.t) : forall s acc before after,
  JsString.find_first pattern s acc = Some (before, after) ->
  forall a' b', s = a' ++ pattern ++ b' ->
                List.length before <= List.length acc + List.length a'.
Proof.
  induction s as [|c s IH]; intros acc before after; cbn [JsString.find_first].
  - destruct (JsString.strip_prefix pattern []) as [r|] eqn:E; [|discriminate].
    intros H a' b' _. inversion H; subst. rewrite length_rev. lia.
  - destruct (JsString.strip_prefix pattern (c :: s)) as [r|] eqn:E.
    + intros H a' b' _. inversion H; subst. rewrite length_rev. lia.
    + intros H a' b' Hs. destruct a' as [|c' a'].
      * simpl in Hs. rewrite Hs, strip_prefix_app in E. discriminate.
      * simpl in Hs. inversion Hs as [[Hc Hs']].
        specialize (IH _ _ _ H a' b' Hs'). simpl in *. lia.
Qed.

(** X11.  The prompt is the prefix, the snippet and the suffix, in this
    order and with the snippet as it is.  A prefix without the
    placeholder [{language}] is used unchanged; in a prefix with the
    placeholder, the first occurrence (and only that one) is replaced:
    by the language identifier when the identifier has no dollar sign,
    and in general by what the identifier gives as a replacement
    pattern. *)
Theorem build_prompt_replaces_the_first_placeholder
        (config : Config.Settings) (codeSnippet languageId prefix : JsString.t) :
  Config.promptPrefix config = inl prefix ->
  ((forall a b, prefix <> a ++ js "{language}" ++ b) ->
   Extension.build_prompt config codeSnippet languageId
   = inl (prefix ++ codeSnippet ++ Config.promptSuffix config))
  /\
  (forall a b,
      prefix = a ++ js "{language}" ++ b ->
      (forall a' b', prefix = a' ++ js "{language}" ++ b' ->
                     List.length a <= List.length a') ->
      Extension.build_prompt config codeSnippet languageId
      = inl (a ++ JsString.substitution (js "{language}") a b languageId
               ++ b ++ codeSnippet ++ Config.promptSuffix config) /\
      (forallb (fun c => negb (c =? 36)%N) languageId = true ->
       Extension.build_prompt config codeSnippet languageId
       = inl (a ++ languageId ++ b ++ codeSnippet ++ Config.promptSuffix config))).
Proof.
  intros Hprefix. unfold Extension.build_prompt, JsString.replace.
  rewrite Hprefix. split.
  - intros Habsent.
    destruct (JsString.find_first (js "{language}") prefix [])
      as [[before after]|] eqn:E; [|reflexivity].
    apply find_first_sound in E. simpl in E. now apply Habsent in E.
  - intros a b -> Hfirst.
    rewrite (find_first_leftmost (js "{language}") b a [] Hfirst).
    cbn [rev app]. split.
    + now rewrite <- !app_assoc.
    + intros Hlang. rewrite substitution_plain by exact Hlang.
      now rewrite <- !app_assoc.
Qed.

Lemma build_prompt_replaces_the_first_placeholder_witness :
  Extension.build_prompt
    (with_prefix (inl (js "{x} {language}: {language} "))
                 (Scenario.store "http://localhost:11434" "llama2"))
    (js "x = 1") (js "py")
  = inl (js "{x} " ++ js "py" ++ js ": {language} " ++ js "x = 1" ++ js "
```
")
  /\
  Extension.build_prompt
    (with_prefix (inl (js "Fix this: "))
                 (Scenario.store "http://localhost:11434" "llama2"))
    (js "x = 1") (js "py")
  = inl (js "Fix this: " ++ js "x = 1" ++ js "
```
").
Proof.
  split.
  - apply (proj2 (build_prompt_replaces_the_first_placeholder
                    (with_prefix (inl (js "{x} {language}: {language} "))
                                 (Scenario.store "http://localhost:11434" "llama2"))
                    (js "x = 1") (js "py") (js "{x} {language}: {language} ")
                    eq_refl)
                 (js "{x} ") (js ": {language} ")).
    + vm_compute. reflexivity.
    + intros a' b' H.
      apply (find_first_minimal (js "{language}")
               (js "{x} {language}: {language} ") []
               (js "{x} ") (js ": {language} ") ltac:(vm_compute; reflexivity)
               a' b' H).
    + reflexivity.
  - apply (proj1 (build_prompt_replaces_the_first_placeholder
                    (with_prefix (inl (js "Fix this: "))
                                 (Scenario.store "http://localhost:11434" "llama2"))
                    (js "x = 1") (js "py") (js "Fix this: ") eq_refl)).
    intros a b. apply placeholder_needs_a_brace. reflexivity.
Defined.

(** X12.  Trailing slashes of the configured base URL do not reach the
    request addresses: however many there are, the chat provider works
    with the URL without them, so the endpoints are [u/api/tags] and
    [u/api/chat]. *)
Theorem trailing_slashes_are_removed_from_the_base_url
        (host : Host) (this : ChatProvider.OllamaCodeFixerChatProvider)
        (w : World) (u : JsString.t) (n : nat) :
  Config.ollamaApiUrl (settings w) = u ++ repeat 47%N n ->
  URL_ok host (u ++ repeat 47%N n) = true ->
  (forall l, u <> l ++ [47%N]) ->
  ChatProvider.resolve_base host this w = (u, w).
Proof.
  intros Hurl Hok Hend. unfold ChatProvider.resolve_base.
  rewrite Hurl, Hok. f_equal.
  unfold JsString.strip_trailing_slashes.
  rewrite rev_app_distr, rev_repeat, drop_slashes_run.
  destruct (rev u) as [|c r] eqn:Hr.
  - apply (f_equal (@rev N)) in Hr. rewrite rev_involutive in Hr. now subst u.
  - assert (Hc : (c =? 47)%N = false).
    { destruct (N.eqb_spec c 47) as [->|]; [|reflexivity].
      exfalso. apply (Hend (rev r)).
      apply (f_equal (@rev N)) in Hr. rewrite rev_involutive in Hr.
      exact Hr. }
    cbn [JsString.drop_slashes]. rewrite Hc.
    rewrite <- Hr. apply rev_involutive.
Qed.

Lemma trailing_slashes_are_removed_from_the_base_url_witness :
  ChatProvider.resolve_base Scenario.offline Scenario.provider
    (Scenario.fresh "http://localhost:11434//" "llama2")
  = (js "http://localhost:11434", Scenario.fresh "http://localhost:11434//" "llama2").
Proof.
  apply (trailing_slashes_are_removed_from_the_base_url
           Scenario.offline Scenario.provider
           (Scenario.fresh "http://localhost:11434//" "llama2")
           (js "http://localhost:11434") 2);
    [reflexivity | reflexivity |].
  intros l H. apply (f_equal (fun x => last x 0%N)) in H.
  rewrite last_last in H. vm_compute in H. discriminate.
Defined.

(* ===================================================================== *)
(** * Further properties of the chat provider                             *)
(* ===================================================================== *)

Lemma count_posts_app l1 l2 :
  count_posts (l1 ++ l2) = count_posts l1 + count_posts l2.
Proof. unfold count_posts. now rewrite filter_app, length_app. Qed.

Lemma count_posts_none l : forallb not_HttpPost l = true -> count_posts l = 0.
Proof.
  unfold count_posts, not_HttpPost. induction l as [|e l IH]; [reflexivity|].
  simpl. destruct (is_HttpPost e); [discriminate|exact IH].
Qed.

Lemma update_modelName_twice a b c :
  Config.update_modelName a (Config.update_modelName b c)
  = Config.update_modelName a c.
Proof. reflexivity. Qed.

Lemma added_In_later P w w1 w2 e :
  adds_only P w w1 -> adds_only P w1 w2 ->
  In e (added w1 w2) -> In e (added w w2).
Proof.
  intros (l1 & H1 & _) (l2 & H2 & _) Hin.
  rewrite (added_app _ _ _ H2) in Hin.
  rewrite (added_app w w2 (l1 ++ l2)) by now rewrite H2, H1, app_assoc.
  apply in_or_app. now right.
Qed.

Section ChatMore.

Import ChatProvider.

Variable host : Host.
Variable this : OllamaCodeFixerChatProvider.

Lemma withRetry_in_settings (T : Type)
      (operation : World -> (T + JsError) * World) w :
  (forall w0, settings (snd (operation w0)) = settings w0) ->
  settings (snd (withRetry_in (_retryManager this) operation w)) = settings w.
Proof.
  intros Hop. rewrite withRetry_in_run.
  destruct (Retry.maxRetries _ <? 0)%Z; [reflexivity|].
  specialize (Hop w). destruct (operation w) as [[v|e] w1]; exact Hop.
Qed.

(** The reconciliation changes the store only on the way to a new call,
    and then only the model name, which it also reports. *)
Lemma reconcile_settings catalog modelName w :
  let result := reconcile host this catalog modelName w in
  (fst result <> Reinvoke /\ settings (snd result) = settings w) \/
  (fst result = Reinvoke /\
   exists newModel,
     In (ConfigUpdate (js "modelName") newModel) (added w (snd result)) /\
     settings (snd result) = Config.update_modelName newModel (settings w)).
Proof.
  unfold reconcile.
  destruct (clicked host _) as [choice|]; [|left; split; [discriminate|reflexivity]].
  destruct (JsString.eqb choice _); [left; split; [discriminate|reflexivity]|].
  destruct (JsString.eqb choice _); [|left; split; [discriminate|reflexivity]].
  destruct (picked host _) as [[|c newModel]|];
    try (left; split; [discriminate|reflexivity]).
  right. split; [reflexivity|]. exists (c :: newModel). split; [|reflexivity].
  cbn [snd]. unfold persist_model, offer_models, announce_missing, added.
  cbn [log emit]. rewrite <- !app_assoc, skipn_length_app.
  cbn. tauto.
Qed.

Lemma check_models_settings baseApiUrl modelName w :
  let result := check_models host this baseApiUrl modelName w in
  (fst result <> Reinvoke /\ settings (snd result) = settings w) \/
  (fst result = Reinvoke /\
   exists newModel,
     In (ConfigUpdate (js "modelName") newModel) (added w (snd result)) /\
     settings (snd result) = Config.update_modelName newModel (settings w)).
Proof.
  unfold check_models. rewrite withRetry_in_run.
  destruct (Retry.maxRetries _ <? 0)%Z.
  - left. split; [discriminate|reflexivity].
  - unfold axios_get. destruct (axios host _) as [found|e].
    + destruct (installed _ _); [left; split; [discriminate|reflexivity]|].
      set (w1 := emit (Retried _) _).
      assert (H1 : adds_only any_event w w1) by (unfold w1; adds).
      destruct (reconcile_settings (availableModels found) modelName w1)
        as [[Hne Hs]|[Hre (m & Hin & Hs)]].
      * left. split; [exact Hne|exact Hs].
      * right. split; [exact Hre|]. exists m. split; [|exact Hs].
        eapply added_In_later; [exact H1| |exact Hin].
        apply adds_weaken with not_HttpPost; [reflexivity|apply reconcile_adds].
    + left. split; [discriminate|reflexivity].
Qed.

Lemma generate_settings config baseApiUrl modelName message w :
  settings (snd (generate host this config baseApiUrl modelName message w))
  = settings w.
Proof.
  unfold generate, generate_try, generate_catch.
  destruct (is_debug config); (destruct (negb _ && negb _); [reflexivity|]);
    rewrite withRetry_in_run; (destruct (Retry.maxRetries _ <? 0)%Z; [reflexivity|]);
    unfold axios_post; (destruct (axios host _) as [[body|]|e]; try reflexivity);
    destruct (message_content body) as [[[|c content]|[]]|]; reflexivity.
Qed.

(** The generation call sends at most one request. *)
Lemma generate_posts config baseApiUrl modelName message w :
  exists l,
    log (snd (generate host this config baseApiUrl modelName message w))
    = log w ++ l /\ count_posts l <= 1.
Proof.
  unfold generate, generate_try, generate_catch.
  destruct (is_debug config);
    (destruct (negb _ && negb _);
     [eexists; split; [cbn; rewrite <- ?app_assoc; reflexivity|cbn; lia]|]);
    rewrite withRetry_in_run;
    (destruct (Retry.maxRetries _ <? 0)%Z;
     [eexists; split; [cbn; rewrite <- ?app_assoc; reflexivity|cbn; lia]|]);
    unfold axios_post;
    (destruct (axios host _) as [[body|]|e];
     [destruct (message_content body) as [[[|c content]|[]]|]| |]);
    eexists; (split; [cbn; rewrite <- ?app_assoc; reflexivity|cbn; lia]).
Qed.

Lemma generate_background config baseApiUrl modelName message w :
  adds_only is_background w
            (snd (generate host this config baseApiUrl modelName message w)).
Proof.
  unfold generate, generate_try.
  destruct (negb _ && negb _).
  - simpl. adds.
  - rewrite withRetry_in_run. destruct (Retry.maxRetries _ <? 0)%Z.
    + simpl. adds.
    + unfold axios_post. destruct (axios host _) as [[body|]|e].
      * destruct (message_content body) as [[[|c content]|[]]|]; simpl; adds.
      * simpl. adds.
      * simpl. adds.
Qed.

Lemma resolve_base_background w :
  adds_only is_background w (snd (resolve_base host this w)).
Proof. unfold resolve_base. destruct (URL_ok host _); simpl; adds. Qed.

Lemma getOllamaResponse_returns message fuel w baseApiUrl w0 text w1 :
  resolve_base host this w = (baseApiUrl, w0) ->
  check_models host this baseApiUrl (Config.modelName (settings w)) w0
  = (Return text, w1) ->
  getOllamaResponse (S fuel) host this message w = (Some (Resolved text), w1).
Proof.
  intros Hbase Hcm. cbn [getOllamaResponse]. now rewrite Hbase, Hcm.
Qed.

End ChatMore.

(** X13.  Whatever the host answers and however long the chain of calls
    after model switches is, one chat operation sends at most one
    generation request. *)
Theorem chat_sends_at_most_one_generation_request
        (host : Host) (this : ChatProvider.OllamaCodeFixerChatProvider)
        (message : JsString.t) (fuel : nat) (w : World) :
  count_posts
    (added w (snd (ChatProvider.getOllamaResponse fuel host this message w)))
  <= 1.
Proof.
  revert w. induction fuel as [|fuel IH]; intros w.
  - cbn [ChatProvider.getOllamaResponse snd]. unfold added.
    rewrite skipn_all. cbn. lia.
  - cbn [ChatProvider.getOllamaResponse].
    destruct (ChatProvider.resolve_base host this w) as [baseApiUrl w0] eqn:Hbase.
    assert (H0 : adds_only not_HttpPost w w0).
    { replace w0 with (snd (ChatProvider.resolve_base host this w))
        by now rewrite Hbase.
      apply resolve_base_adds. }
    destruct (ChatProvider.check_models host this baseApiUrl _ w0)
      as [outcome w1] eqn:Hcm.
    assert (H1 : adds_only not_HttpPost w w1).
    { apply adds_trans with w0; [exact H0|].
      replace w1 with (snd (ChatProvider.check_models host this baseApiUrl
                              (Config.modelName (settings w)) w0))
        by now rewrite Hcm.
      apply check_models_adds. }
    destruct H1 as (l1 & Hl1 & Hf1). apply count_posts_none in Hf1.
    destruct outcome as [text| |].
    + cbn [snd]. rewrite (added_app _ _ _ Hl1). lia.
    + specialize (IH w1).
      destruct (getOllamaResponse_adds host this message fuel w1)
        as (l2 & Hl2 & _).
      rewrite (added_app _ _ _ Hl2) in IH.
      rewrite (added_app w _ (l1 ++ l2)) by now rewrite Hl2, Hl1, app_assoc.
      rewrite count_posts_app. lia.
    + destruct (generate_posts host this (settings w) baseApiUrl
                  (Config.modelName (settings w)) message w1) as (l2 & Hl2 & Hc).
      destruct (ChatProvider.generate _ _ _ _ _ _ _) as [r w2]. cbn [snd] in *.
      rewrite (added_app w _ (l1 ++ l2)) by now rewrite Hl2, Hl1, app_assoc.
      rewrite count_posts_app. lia.
Qed.

(** X14.  The chat operation writes to the settings only through a model
    switch: either the store is left as it was, or it differs from the
    old one in the model name alone and the update of [modelName] with
    the new value is among the events of the run. *)
Theorem chat_changes_no_setting_but_the_model_name
        (host : Host) (this : ChatProvider.OllamaCodeFixerChatProvider)
        (message : JsString.t) (fuel : nat) (w : World) :
  let w' := snd (ChatProvider.getOllamaResponse fuel host this message w) in
  settings w' = settings w \/
  exists newModel,
    In (ConfigUpdate (js "modelName") newModel) (added w w') /\
    settings w' = Config.update_modelName newModel (settings w).
Proof.
  revert w. induction fuel as [|fuel IH]; intros w; [now left|].
  cbn [ChatProvider.getOllamaResponse].
  destruct (ChatProvider.resolve_base host this w) as [baseApiUrl w0] eqn:Hbase.
  assert (H0 : adds_only any_event w w0).
  { apply adds_weaken with not_HttpPost; [reflexivity|].
    replace w0 with (snd (ChatProvider.resolve_base host this w))
      by now rewrite Hbase.
    apply resolve_base_adds. }
  assert (Hs0 : settings w0 = settings w).
  { replace w0 with (snd (ChatProvider.resolve_base host this w))
      by now rewrite Hbase.
    apply resolve_base_settings. }
  pose proof (check_models_settings host this baseApiUrl
                (Config.modelName (settings w)) w0) as Hcs.
  pose proof (check_models_adds host this baseApiUrl
                (Config.modelName (settings w)) w0) as Hca.
  destruct (ChatProvider.check_models host this baseApiUrl _ w0)
    as [outcome w1]. cbn [fst snd] in Hcs, Hca.
  apply adds_weaken with (Q := any_event) in Hca; [|reflexivity].
  destruct outcome as [text| |].
  - left. destruct Hcs as [[_ Hs]|[Hre _]]; [|discriminate].
    cbn [snd]. congruence.
  - destruct Hcs as [[Hne _]|[_ (m & Hin & Hs)]]; [congruence|].
    pose proof (getOllamaResponse_adds host this message fuel w1) as Hrest.
    right. destruct (IH w1) as [Hsame|(m' & Hin' & Hs')].
    + exists m. split.
      * destruct H0 as (l0 & Hl0 & _). destruct Hca as (l1 & Hl1 & _).
        destruct Hrest as (l2 & Hl2 & _).
        rewrite (added_app _ _ _ Hl1) in Hin.
        rewrite (added_app w _ (l0 ++ l1 ++ l2))
          by now rewrite Hl2, Hl1, Hl0, <- !app_assoc.
        apply in_or_app. right. apply in_or_app. now left.
      * cbv zeta in Hsame. rewrite Hsame, Hs, Hs0. reflexivity.
    + exists m'. split.
      * eapply added_In_later; [|exact Hrest|exact Hin'].
        eapply adds_trans; eassumption.
      * cbv zeta in Hs'. rewrite Hs', Hs, Hs0. apply update_modelName_twice.
  - left. destruct Hcs as [[_ Hs]|[Hre _]]; [|discriminate].
    pose proof (generate_settings host this (settings w) baseApiUrl
                  (Config.modelName (settings w)) message w1) as Hg.
    destruct (ChatProvider.generate _ _ _ _ _ _ _) as [r w2].
    cbn [snd] in *. congruence.
Qed.

Lemma catalog_request_adds host manager url w :
  adds_only not_HttpPost w (snd (withRetry_in manager (axios_get host url) w)).
Proof.
  rewrite withRetry_in_run. destruct (Retry.maxRetries _ <? 0)%Z.
  - simpl. adds.
  - unfold axios_get. destruct (axios host _) as [found|e]; simpl; adds.
Qed.

(** X15.  When the configured model is not in the catalog and the user
    chooses to install it, the operation ends there: it resolves to the
    message that the installation has started, the command
    [ollama pull <model>] is sent to the terminal, no generation request
    is sent and the settings are left as they were. *)
Theorem install_choice_pulls_the_model_and_skips_generation
        (host : Host) (this : ChatProvider.OllamaCodeFixerChatProvider)
        (message : JsString.t) (fuel : nat) (w w0 w1 : World)
        (baseApiUrl : JsString.t) (found : AxiosResponse) :
  ChatProvider.resolve_base host this w = (baseApiUrl, w0) ->
  withRetry_in (ChatProvider._retryManager this)
               (axios_get host (baseApiUrl ++ ChatProvider.tagsEndpoint)) w0
  = (Resolved found, w1) ->
  ChatProvider.installed (ChatProvider.availableModels found)
                         (Config.modelName (settings w)) = false ->
  clicked host (log (ChatProvider.announce_missing this
                       (Config.modelName (settings w)) w1))
  = Some (ChatProvider.installModel (ChatProvider._strings this)) ->
  let result := ChatProvider.getOllamaResponse (S fuel) host this message w in
  fst result
  = Some (Resolved (ChatProvider.format0
                      (ChatProvider.modelInstallStarted (ChatProvider._strings this))
                      (Config.modelName (settings w)))) /\
  In (TerminalSendText (js "ollama pull " ++ Config.modelName (settings w)))
     (added w (snd result)) /\
  forallb not_HttpPost (added w (snd result)) = true /\
  settings (snd result) = settings w.
Proof.
  intros Hbase Hcheck Hmissing Hclick.
  set (modelName := Config.modelName (settings w)) in *.
  set (wa := ChatProvider.announce_missing this modelName w1) in *.
  assert (Hcm : ChatProvider.check_models host this baseApiUrl modelName w0
                = (ChatProvider.Return
                     (ChatProvider.format0
                        (ChatProvider.modelInstallStarted (ChatProvider._strings this))
                        modelName),
                   ChatProvider.installOllamaModel this modelName wa)).
  { unfold ChatProvider.check_models. rewrite Hcheck, Hmissing.
    unfold ChatProvider.reconcile. fold wa. rewrite Hclick.
    now rewrite eqb_refl. }
  cbv zeta.
  rewrite (getOllamaResponse_returns host this message fuel w _ _ _ _ Hbase Hcm).
  cbn [fst snd].
  assert (H0 : adds_only not_HttpPost w w0).
  { replace w0 with (snd (ChatProvider.resolve_base host this w))
      by now rewrite Hbase.
    apply resolve_base_adds. }
  pose proof (check_models_adds host this baseApiUrl modelName w0) as Hca.
  pose proof (check_models_settings host this baseApiUrl modelName w0) as Hcs.
  rewrite Hcm in Hca, Hcs. cbn [fst snd] in Hca, Hcs.
  assert (H1 : adds_only not_HttpPost w0 wa).
  { apply adds_trans with w1.
    - replace w1 with (snd (withRetry_in (ChatProvider._retryManager this)
                              (axios_get host (baseApiUrl ++ ChatProvider.tagsEndpoint))
                              w0))
        by now rewrite Hcheck.
      apply catalog_request_adds.
    - unfold wa, ChatProvider.announce_missing. adds. }
  repeat split.
  - eapply added_later with (w1 := wa) (Q := any_event).
    + eapply adds_trans; eassumption.
    + unfold ChatProvider.installOllamaModel. adds.
  - apply adds_added. eapply adds_trans; eassumption.
  - destruct Hcs as [[_ Hs]|[Hre _]]; [|discriminate].
    rewrite Hs. replace w0 with (snd (ChatProvider.resolve_base host this w))
      by now rewrite Hbase.
    apply resolve_base_settings.
Qed.

Lemma install_choice_pulls_the_model_and_skips_generation_witness :
  fst (ChatProvider.getOllamaResponse 1 MoreScenarios.installing Scenario.provider
         (js "hello") Scenario.foo_configured)
  = Some (Resolved (js "Started installing model foo.")) /\
  In (TerminalSendText (js "ollama pull foo"))
     (added Scenario.foo_configured
        (snd (ChatProvider.getOllamaResponse 1 MoreScenarios.installing
                Scenario.provider (js "hello") Scenario.foo_configured))).
Proof.
  destruct (install_choice_pulls_the_model_and_skips_generation
              MoreScenarios.installing Scenario.provider (js "hello") 0
              Scenario.foo_configured _ _ (js "http://localhost:11434")
              (Data (Scenario.catalog_body ["bar"%string]))
              eq_refl eq_refl eq_refl eq_refl)
    as (Hres & Hpull & _).
  split; [exact Hres|exact Hpull].
Defined.

Lemma catalog_request_inert host manager url w :
  adds_only is_inert w (snd (withRetry_in manager (axios_get host url) w)).
Proof.
  rewrite withRetry_in_run. destruct (Retry.maxRetries _ <? 0)%Z.
  - simpl. adds.
  - unfold axios_get. destruct (axios host _) as [found|e]; simpl; adds.
Qed.

Lemma catalog_request_background host manager url w :
  adds_only is_background w (snd (withRetry_in manager (axios_get host url) w)).
Proof.
  rewrite withRetry_in_run. destruct (Retry.maxRetries _ <? 0)%Z.
  - simpl. adds.
  - unfold axios_get. destruct (axios host _) as [found|e]; simpl; adds.
Qed.

Lemma catalog_request_settings host manager url w :
  settings (snd (withRetry_in manager (axios_get host url) w)) = settings w.
Proof.
  rewrite withRetry_in_run. destruct (Retry.maxRetries _ <? 0)%Z; [reflexivity|].
  unfold axios_get. now destruct (axios host _) as [found|e].
Qed.

Lemma resolve_base_inert host this w :
  adds_only is_inert w (snd (ChatProvider.resolve_base host this w)).
Proof.
  unfold ChatProvider.resolve_base. destruct (URL_ok host _); simpl; adds.
Qed.

(** X16.  When the configured model is not in the catalog and the user
    neither installs it nor picks another one (the message is dismissed,
    or the pick-list is closed without a choice), the operation resolves
    to the message that the model is not installed, and the run sends no
    generation request, runs no terminal command and writes no setting. *)
Theorem declined_reconciliation_ends_without_generation
        (host : Host) (this : ChatProvider.OllamaCodeFixerChatProvider)
        (message : JsString.t) (fuel : nat) (w w0 w1 : World)
        (baseApiUrl : JsString.t) (found : AxiosResponse) :
  ChatProvider.resolve_base host this w = (baseApiUrl, w0) ->
  withRetry_in (ChatProvider._retryManager this)
               (axios_get host (baseApiUrl ++ ChatProvider.tagsEndpoint)) w0
  = (Resolved found, w1) ->
  ChatProvider.installed (ChatProvider.availableModels found)
                         (Config.modelName (settings w)) = false ->
  let asked := ChatProvider.announce_missing this (Config.modelName (settings w)) w1 in
  clicked host (log asked)
  <> Some (ChatProvider.installModel (ChatProvider._strings this)) ->
  (clicked host (log asked)
   = Some (ChatProvider.changeModel (ChatProvider._strings this)) ->
   let offered := ChatProvider.offer_models this
                    (ChatProvider.availableModels found) asked in
   picked host (log offered) = None \/ picked host (log offered) = Some []) ->
  let result := ChatProvider.getOllamaResponse (S fuel) host this message w in
  fst result
  = Some (Resolved (ChatProvider.notInstalled this (Config.modelName (settings w)))) /\
  forallb is_inert (added w (snd result)) = true /\
  settings (snd result) = settings w.
Proof.
  intros Hbase Hcheck Hmissing asked Hnot Hpick.
  set (modelName := Config.modelName (settings w)) in *.
  assert (H0 : adds_only is_inert w w0).
  { replace w0 with (snd (ChatProvider.resolve_base host this w))
      by now rewrite Hbase.
    apply resolve_base_inert. }
  assert (H1 : adds_only is_inert w asked).
  { apply adds_trans with w0; [exact H0|]. apply adds_trans with w1.
    - replace w1 with (snd (withRetry_in (ChatProvider._retryManager this)
                              (axios_get host (baseApiUrl ++ ChatProvider.tagsEndpoint))
                              w0))
        by now rewrite Hcheck.
      apply catalog_request_inert.
    - unfold asked, ChatProvider.announce_missing. adds. }
  assert (Hs : settings asked = settings w).
  { unfold asked, ChatProvider.announce_missing. cbn [settings emit].
    replace w1 with (snd (withRetry_in (ChatProvider._retryManager this)
                            (axios_get host (baseApiUrl ++ ChatProvider.tagsEndpoint))
                            w0))
      by now rewrite Hcheck.
    rewrite catalog_request_settings.
    replace w0 with (snd (ChatProvider.resolve_base host this w))
      by now rewrite Hbase.
    apply resolve_base_settings. }
  assert (Hcm : exists w2,
             ChatProvider.check_models host this baseApiUrl modelName w0
             = (ChatProvider.Return (ChatProvider.notInstalled this modelName), w2)
             /\ adds_only is_inert w w2 /\ settings w2 = settings w).
  { unfold ChatProvider.check_models. rewrite Hcheck, Hmissing.
    unfold ChatProvider.reconcile. fold asked.
    destruct (clicked host (log asked)) as [choice|] eqn:Hclick; [|eauto].
    destruct (JsString.eqb choice
                (ChatProvider.installModel (ChatProvider._strings this)))
      eqn:Hinstall.
    { apply eqb_eq in Hinstall. subst choice. now elim Hnot. }
    clear Hinstall.
    destruct (JsString.eqb choice
                (ChatProvider.changeModel (ChatProvider._strings this)))
      eqn:Hchange; [|eauto].
    apply eqb_eq in Hchange. subst choice.
    specialize (Hpick eq_refl). cbv zeta in Hpick.
    assert (H2 : adds_only is_inert w
                   (ChatProvider.offer_models this
                      (ChatProvider.availableModels found) asked))
      by (unfold ChatProvider.offer_models; adds).
    destruct Hpick as [-> | ->]; eauto. }
  destruct Hcm as (w2 & Hcm & H2 & Hs2). cbv zeta.
  rewrite (getOllamaResponse_returns host this message fuel w _ _ _ _ Hbase Hcm).
  cbn [fst snd]. repeat split.
  - now apply adds_added.
  - exact Hs2.
Qed.

Lemma declined_reconciliation_ends_without_generation_witness :
  fst (ChatProvider.getOllamaResponse 1 MoreScenarios.dismissing Scenario.provider
         (js "hello") Scenario.foo_configured)
  = Some (Resolved (js "Model " ++ [34%N] ++ js "foo" ++ [34%N]
                       ++ js " is not installed.")).
Proof.
  apply (declined_reconciliation_ends_without_generation
           MoreScenarios.dismissing Scenario.provider (js "hello") 0
           Scenario.foo_configured _ _ (js "http://localhost:11434")
           (Data (Scenario.catalog_body ["bar"%string]))
           eq_refl eq_refl eq_refl
           ltac:(discriminate) ltac:(discriminate)).
Defined.

(** X17.  When the catalog lists the configured model, the user is asked
    nothing: the result of the operation is the result of the generation
    call for the configured model, and the run consists of requests and
    console lines only (no message, no pick-list, no terminal command, no
    write to the settings). *)
Theorem listed_model_goes_straight_to_generation
        (host : Host) (this : ChatProvider.OllamaCodeFixerChatProvider)
        (message : JsString.t) (fuel : nat) (w w0 w1 : World)
        (baseApiUrl : JsString.t) (found : AxiosResponse) :
  ChatProvider.resolve_base host this w = (baseApiUrl, w0) ->
  withRetry_in (ChatProvider._retryManager this)
               (axios_get host (baseApiUrl ++ ChatProvider.tagsEndpoint)) w0
  = (Resolved found, w1) ->
  ChatProvider.installed (ChatProvider.availableModels found)
                         (Config.modelName (settings w)) = true ->
  let result := ChatProvider.getOllamaResponse (S fuel) host this message w in
  let call := ChatProvider.generate host this (settings w) baseApiUrl
                (Config.modelName (settings w)) message w1 in
  result = (Some (fst call), snd call) /\
  forallb is_background (added w (snd result)) = true /\
  settings (snd result) = settings w.
Proof.
  intros Hbase Hcheck Hfound result call.
  assert (Hres : result = (Some (fst call), snd call)).
  { unfold result, call. cbn [ChatProvider.getOllamaResponse]. rewrite Hbase.
    unfold ChatProvider.check_models. rewrite Hcheck, Hfound.
    now destruct (ChatProvider.generate _ _ _ _ _ _ _). }
  split; [exact Hres|]. rewrite Hres. cbn [snd].
  assert (Hw0 : w0 = snd (ChatProvider.resolve_base host this w))
    by now rewrite Hbase.
  assert (Hw1 : w1 = snd (withRetry_in (ChatProvider._retryManager this)
                            (axios_get host (baseApiUrl ++ ChatProvider.tagsEndpoint))
                            w0))
    by now rewrite Hcheck.
  split.
  - apply adds_added. apply adds_trans with w0.
    { rewrite Hw0. apply resolve_base_background. }
    apply adds_trans with w1.
    { rewrite Hw1. apply catalog_request_background. }
    apply generate_background.
  - unfold call. rewrite generate_settings.
    rewrite Hw1, catalog_request_settings, Hw0. apply resolve_base_settings.
Qed.

Lemma listed_model_goes_straight_to_generation_witness :
  ChatProvider.getOllamaResponse 1 Scenario.local_server Scenario.provider
    (js "hello") (Scenario.fresh "http://localhost:11434/" "llama2")
  = (Some (fst (ChatProvider.generate Scenario.local_server Scenario.provider
                  (Scenario.store "http://localhost:11434/" "llama2")
                  (js "http://localhost:11434") (js "llama2") (js "hello")
                  (snd (withRetry_in (ChatProvider._retryManager Scenario.provider)
                          (axios_get Scenario.local_server
                                     (js "http://localhost:11434/api/tags"))
                          (Scenario.fresh "http://localhost:11434/" "llama2"))))),
     snd (ChatProvider.generate Scenario.local_server Scenario.provider
            (Scenario.store "http://localhost:11434/" "llama2")
            (js "http://localhost:11434") (js "llama2") (js "hello")
            (snd (withRetry_in (ChatProvider._retryManager Scenario.provider)
                    (axios_get Scenario.local_server
                               (js "http://localhost:11434/api/tags"))
                    (Scenario.fresh "http://localhost:11434/" "llama2"))))).
Proof.
  apply (listed_model_goes_straight_to_generation
           Scenario.local_server Scenario.provider (js "hello") 0
           (Scenario.fresh "http://localhost:11434/" "llama2") _ _
           (js "http://localhost:11434")
           (Data (Scenario.catalog_body ["llama2"%string]))
           eq_refl eq_refl eq_refl).
Defined.

(** X18.  A generation request that is answered: a reply with a
    non-empty string as [message.content] gives that content, trimmed; a
    reply without a content, or with a falsy one, gives the JSON text of
    the whole body; a reply whose content is a truthy value that is not
    a string does not reject but resolves to the error message built
    from what calling its [trim] throws; and a reply whose data is
    [null] or [undefined] does not reject either: it resolves to the
    error message built from the [TypeError] of the failed property
    access, which names [null] or [undefined] accordingly. *)
Theorem answered_generation_request_result
        (host : Host) (this : ChatProvider.OllamaCodeFixerChatProvider)
        (config : Config.Settings) (baseApiUrl modelName message : JsString.t)
        (w : World) (reply : AxiosResponse) :
  (0 <= Retry.maxRetries (options (ChatProvider._retryManager this)))%Z ->
  JsString.startsWith (js "http://") (baseApiUrl ++ ChatProvider.chatEndpoint)
  || JsString.startsWith (js "https://") (baseApiUrl ++ ChatProvider.chatEndpoint)
  = true ->
  axios host
    (log (emit (HttpPost (baseApiUrl ++ ChatProvider.chatEndpoint) modelName message)
               (emit_if (ChatProvider.is_debug config)
                        ChatProvider.request_details w)))
  = inl reply ->
  fst (ChatProvider.generate host this config baseApiUrl modelName message w)
  = Resolved
      match reply with
      | Data body =>
          match message_content body with
          | Some (inl (c :: content)) => JsString.trim (c :: content)
          | Some (inr error) => ChatProvider.errorMessage (Some error)
          | _ => json body
          end
      | NoData kind =>
          ChatProvider.errorMessage (Some (TypeError_reading kind "message"))
      end.
Proof.
  intros Hbudget Hscheme Hanswer. unfold ChatProvider.generate, ChatProvider.generate_try.
  replace (negb (JsString.startsWith (js "http://") (baseApiUrl ++ ChatProvider.chatEndpoint))
           && negb (JsString.startsWith (js "https://") (baseApiUrl ++ ChatProvider.chatEndpoint)))
    with false
    by (rewrite <- negb_orb, Hscheme; reflexivity).
  rewrite withRetry_in_run.
  destruct (Z.ltb_spec (Retry.maxRetries (options (ChatProvider._retryManager this))) 0)
    as [Hneg|_]; [lia|].
  unfold axios_post. rewrite Hanswer.
  destruct reply as [body|kind]; [|reflexivity].
  destruct (message_content body) as [[[|c content]|[]]|]; reflexivity.
Qed.

(** The two texts for a reply without data. *)
Example generation_reply_without_data :
  ChatProvider.errorMessage (Some (TypeError_reading js_null "message"))
  = js "Ошибка взаимодействия с Ollama: Cannot read properties of null (reading 'message')"
  /\
  ChatProvider.errorMessage (Some (TypeError_reading js_undefined "message"))
  = js "Ошибка взаимодействия с Ollama: Cannot read properties of undefined (reading 'message')".
Proof. split; vm_compute; reflexivity. Qed.

Lemma answered_generation_request_result_witness :
  fst (ChatProvider.generate Scenario.local_server Scenario.provider
         (Scenario.store "http://localhost:11434" "llama2")
         (js "http://localhost:11434") (js "llama2") (js "hello")
         (Scenario.fresh "http://localhost:11434" "llama2"))
  = Resolved (JsString.trim (js " Hi! ")).
Proof.
  apply (answered_generation_request_result
           Scenario.local_server Scenario.provider
           (Scenario.store "http://localhost:11434" "llama2")
           (js "http://localhost:11434") (js "llama2") (js "hello")
           (Scenario.fresh "http://localhost:11434" "llama2")
           (Data (Scenario.reply_body " Hi! "))
           ltac:(vm_compute; discriminate) eq_refl eq_refl).
Defined.

(** X19.  The text that a failed generation request leaves in the chat
    does not depend on the failure.  With a non-empty attempt budget the
    request is sent once and, whatever it was rejected with (a status, a
    refused connection, a timeout), the operation resolves to the error
    message built from the [TypeError] about [logger]; with an empty
    budget no request is sent and the message is the one for an unknown
    error. *)
Theorem failed_generation_request_text_ignores_the_cause
        (host : Host) (this : ChatProvider.OllamaCodeFixerChatProvider)
        (config : Config.Settings) (baseApiUrl modelName message : JsString.t)
        (w : World) :
  JsString.startsWith (js "http://") (baseApiUrl ++ ChatProvider.chatEndpoint)
  || JsString.startsWith (js "https://") (baseApiUrl ++ ChatProvider.chatEndpoint)
  = true ->
  let call := ChatProvider.generate host this config baseApiUrl modelName message w in
  (forall cause,
      (0 <= Retry.maxRetries (options (ChatProvider._retryManager this)))%Z ->
      axios host
        (log (emit (HttpPost (baseApiUrl ++ ChatProvider.chatEndpoint) modelName message)
                   (emit_if (ChatProvider.is_debug config)
                            ChatProvider.request_details w)))
      = inr cause ->
      fst call
      = Resolved (ChatProvider.errorMessage (Some (TypeError_undefined "logger"))) /\
      count_posts (added w (snd call)) = 1)
  /\
  ((Retry.maxRetries (options (ChatProvider._retryManager this)) < 0)%Z ->
   fst call = Resolved (ChatProvider.errorMessage None) /\
   count_posts (added w (snd call)) = 0).
Proof.
  intros Hscheme call. unfold call, ChatProvider.generate, ChatProvider.generate_try.
  replace (negb (JsString.startsWith (js "http://") (baseApiUrl ++ ChatProvider.chatEndpoint))
           && negb (JsString.startsWith (js "https://") (baseApiUrl ++ ChatProvider.chatEndpoint)))
    with false
    by (rewrite <- negb_orb, Hscheme; reflexivity).
  rewrite withRetry_in_run. split.
  - intros cause Hbudget Hanswer.
    destruct (Z.ltb_spec (Retry.maxRetries (options (ChatProvider._retryManager this))) 0)
      as [Hneg|_]; [lia|].
    unfold axios_post. rewrite Hanswer. split; [reflexivity|].
    destruct (ChatProvider.is_debug config); cbn [fst snd emit_if];
      unfold added; cbn [log emit ChatProvider.generate_catch TypeError_undefined snd];
      rewrite <- ?app_assoc, skipn_length_app; reflexivity.
  - intros Hneg.
    destruct (Z.ltb_spec (Retry.maxRetries (options (ChatProvider._retryManager this))) 0)
      as [_|Hpos]; [|lia].
    split; [reflexivity|].
    destruct (ChatProvider.is_debug config); cbn [fst snd emit_if];
      unfold added; cbn [log emit ChatProvider.generate_catch snd];
      rewrite <- ?app_assoc, skipn_length_app; reflexivity.
Qed.

Lemma failed_generation_request_text_ignores_the_cause_witness :
  fst (ChatProvider.generate Scenario.offline Scenario.provider
         (Scenario.store "http://localhost:11434" "llama2")
         (js "http://localhost:11434") (js "llama2") (js "hello")
         (Scenario.fresh "http://localhost:11434" "llama2"))
  = Resolved (ChatProvider.errorMessage (Some (TypeError_undefined "logger")))
  /\
  fst (ChatProvider.generate Scenario.offline MoreScenarios.without_budget
         (Scenario.store "http://localhost:11434" "llama2")
         (js "http://localhost:11434") (js "llama2") (js "hello")
         (Scenario.fresh "http://localhost:11434" "llama2"))
  = Resolved (ChatProvider.errorMessage None).
Proof.
  split.
  - apply (proj1 (failed_generation_request_text_ignores_the_cause
                    Scenario.offline Scenario.provider
                    (Scenario.store "http://localhost:11434" "llama2")
                    (js "http://localhost:11434") (js "llama2") (js "hello")
                    (Scenario.fresh "http://localhost:11434" "llama2") eq_refl)
                 Scenario.connection_refused
                 ltac:(vm_compute; discriminate) eq_refl).
  - apply (proj2 (failed_generation_request_text_ignores_the_cause
                    Scenario.offline MoreScenarios.without_budget
                    (Scenario.store "http://localhost:11434" "llama2")
                    (js "http://localhost:11434") (js "llama2") (js "hello")
                    (Scenario.fresh "http://localhost:11434" "llama2") eq_refl)
                 eq_refl).
Defined.

(* ===================================================================== *)
(** * Further properties of the fix command                               *)
(* ===================================================================== *)







Lemma correction_catch_quiet config err w :
  Config.enableNotifications config = false ->
  adds_only not_shown w (Extension.correction_catch config err w).
Proof.
  intros Hoff. unfold Extension.correction_catch. rewrite Hoff.
  destruct err as [m c [r|] q|m]; cbn [emit_if]; adds.
Qed.

Lemma shown_none w w' : adds_only not_shown w w' -> shown (added w w') = [].
Proof.
  intros (l & Hl & Hf). rewrite (added_app _ _ _ Hl). clear Hl.
  induction l as [|x l IH]; [reflexivity|].
  simpl in Hf. apply andb_prop in Hf as [Hx Hf]. unfold shown. simpl.
  unfold not_shown in Hx. destruct (is_shown x); [discriminate|].
  now apply IH.
Qed.

(** One message between two stretches that show nothing. *)
Lemma shown_single w w1 w2 e :
  adds_only not_shown w w1 -> is_shown e = true ->
  adds_only not_shown (emit e w1) w2 ->
  shown (added w w2) = [e].
Proof.
  intros H1 He H2.
  pose proof (shown_none _ _ H1) as S1. pose proof (shown_none _ _ H2) as S2.
  destruct H1 as (l1 & H1 & _). destruct H2 as (l2 & H2 & _).
  rewrite (added_app _ _ _ H1) in S1. rewrite (added_app _ _ _ H2) in S2.
  rewrite (added_app w w2 (l1 ++ [e] ++ l2))
    by now rewrite H2, log_emit, H1, <- !app_assoc.
  unfold shown in *. rewrite !filter_app, S1, S2. cbn [filter]. now rewrite He.
Qed.

Lemma shown_cancelled w w1 :
  adds_only not_shown w w1 ->
  shown (added w (Extension.cancellation_callback w1))
  = [ShowInformationMessage (js "Ollama code correction cancelled.") []].
Proof.
  intros H. unfold Extension.cancellation_callback.
  eapply shown_single; [|reflexivity|apply adds_refl]. adds.
Qed.

(** X21.  With notifications disabled, a correction request that fails
    leaves nothing in front of the user but, if the user has cancelled,
    the message of the cancellation callback: when no cancellation has
    been requested by the time the failure arrives the fix command shows
    nothing at all, and otherwise its only message is that the
    correction was cancelled. *)
Theorem failed_fix_is_silent_without_notifications
        (host : Host) (w : World) (editor : TextEditor) :
  activeTextEditor host (log w) = Some editor ->
  isEmpty (selection editor) = false ->
  Config.enableNotifications (settings w) = false ->
  let w0 := emit (ProgressReport 0 (js "Sending code to local Ollama AI...")) w in
  let request :=
    Extension.getCorrectionFromOllama host
      (getText host (log w) (document editor) (selection editor))
      (languageId editor) w0 in
  fst request = Resolved None ->
  shown (added w (snd (Extension.fixSelectedCode host w)))
  = if isCancellationRequested host (log w0)
       || isCancellationRequested host (log (snd request))
    then [ShowInformationMessage (js "Ollama code correction cancelled.") []]
    else [].
Proof.
  intros Hactive Hempty Hoff w0 request Hnull.
  unfold Extension.fixSelectedCode. rewrite Hactive, Hempty.
  unfold Extension.progress_task. fold w0.
  set (selectedText := getText host (log w) (document editor) (selection editor)) in *.
  fold request.
  assert (H0 : adds_only not_shown w w0) by (unfold w0; adds).
  destruct (isCancellationRequested host (log w0)); cbn [orb snd].
  { now apply shown_cancelled. }
  assert (Hc : adds_only not_shown w0 (snd request)).
  { revert Hnull. unfold request.
    unfold Extension.getCorrectionFromOllama.
    destruct (Extension.build_prompt _ _ _) as [prompt|error]; [|discriminate].
    unfold Extension.correction_try, axios_post.
    change (settings w0) with (settings w).
    destruct (Extension.is_debug (settings w)); cbn [emit_if];
      (destruct (axios host _) as [[body|kind]|e];
       [destruct (response body) as [raw|failure]| |]);
      cbn [fst snd]; try discriminate; intros _;
      (eapply adds_trans; [|apply correction_catch_quiet; exact Hoff]); adds. }
  destruct request as [r w1]. cbn [fst snd] in Hnull, Hc |- *. subst r.
  assert (H1 : adds_only not_shown w w1) by (now apply adds_trans with w0).
  destruct (isCancellationRequested host (log w1)); cbn [snd].
  - now apply shown_cancelled.
  - now apply shown_none.
Qed.

Lemma failed_fix_is_silent_without_notifications_witness :
  shown (added muted_store
           (snd (Extension.fixSelectedCode
                   (Scenario.editing Scenario.left_editor Scenario.left_editor
                      "x = 1" (fun _ => inr (Scenario.http_error 500)))
                   muted_store)))
  = []
  /\
  shown (added muted_store
           (snd (Extension.fixSelectedCode
                   (cancelling "x = 1" (fun _ => inr (Scenario.http_error 500)))
                   muted_store)))
  = [ShowInformationMessage (js "Ollama code correction cancelled.") []].
Proof.
  split.
  - apply (failed_fix_is_silent_without_notifications
             (Scenario.editing Scenario.left_editor Scenario.left_editor
                "x = 1" (fun _ => inr (Scenario.http_error 500)))
             muted_store Scenario.left_editor
             eq_refl eq_refl eq_refl eq_refl).
  - apply (failed_fix_is_silent_without_notifications
             (cancelling "x = 1" (fun _ => inr (Scenario.http_error 500)))
             muted_store Scenario.left_editor
             eq_refl eq_refl eq_refl eq_refl).
Defined.

(* ===================================================================== *)
(** * The handler of a chat message                                       *)
(* ===================================================================== *)

(** X22.  The outcomes of [handleChatMessage].  Without a panel nothing
    is posted.  Otherwise the user's message and the loading indicator
    are posted, and when the call of [getOllamaResponse] has ended:
    either the panel is still there, and the text the call resolved to is
    posted as the assistant's message and the loading indicator is
    cleared; or the panel is gone, nothing more is posted and the handler
    rejects with a [TypeError].  A message of type [error] is never
    posted. *)
Theorem handleChatMessage_outcomes
        (fuel : nat) (host : Host)
        (this : ChatProvider.OllamaCodeFixerChatProvider)
        (panel : ChatPanel.Panel) (userMessage : JsString.t) (w : World) :
  let call := ChatProvider.getOllamaResponse fuel host this userMessage w in
  let asked :=
    [ChatPanel.addMessage ChatPanel.type_user userMessage
       (ChatPanel.toLocaleTimeString panel (log w));
     ChatPanel.setLoading true] in
  let result := ChatPanel.handleChatMessage fuel host this panel userMessage w in
  existsb ChatPanel.is_error_bubble (snd result) = false /\
  ((ChatPanel.panel_set panel (log w) = false /\
    result = (Some (Resolved tt), w, []))
   \/
   (ChatPanel.panel_set panel (log w) = true /\
    fst call = None /\ result = (None, snd call, asked))
   \/
   (ChatPanel.panel_set panel (log w) = true /\
    ChatPanel.panel_set panel (log (snd call)) = true /\
    exists response,
      fst call = Some (Resolved response) /\
      result
      = (Some (Resolved tt), snd call,
         asked ++ [ChatPanel.addMessage ChatPanel.type_assistant response
                     (ChatPanel.toLocaleTimeString panel (log (snd call)));
                   ChatPanel.setLoading false]))
   \/
   (ChatPanel.panel_set panel (log w) = true /\
    ChatPanel.panel_set panel (log (snd call)) = false /\
    result = (Some (Rejected (TypeError_undefined "webview")), snd call, asked))).
Proof.
  intros call asked result. unfold result, ChatPanel.handleChatMessage.
  destruct (ChatPanel.panel_set panel (log w)) eqn:Hset; cbn [negb].
  2:{ split; [reflexivity|]. left. now split. }
  fold call. fold asked.
  destruct (getOllamaResponse_never_rejects host this userMessage fuel w)
    as [Hnone|[response Hsome]]; fold call in Hnone || fold call in Hsome.
  - destruct call as [r w1]. cbn [fst snd] in *. subst r.
    split; [reflexivity|]. right. left. now repeat split.
  - destruct call as [r w1]. cbn [fst snd] in *. subst r.
    destruct (ChatPanel.panel_set panel (log w1)) eqn:Hstill.
    + split; [reflexivity|]. right. right. left.
      repeat split. exists response. now split.
    + split; [reflexivity|]. right. right. right. now repeat split.
Qed.

(* ===================================================================== *)
(** * The version of extension.ts that uses the retry manager             *)
(* ===================================================================== *)

Lemma shown_app l1 l2 : shown (l1 ++ l2) = shown l1 ++ shown l2.
Proof. apply filter_app. Qed.

Lemma logger_failure_text :
  ExtensionWithRetry.errorMessage (Some (TypeError_undefined "logger"))
  = js "Unexpected error: Cannot read properties of undefined (reading 'logger')".
Proof. vm_compute. reflexivity. Qed.

Lemma unknown_status_text :
  js "Ollama API is not accessible." ++ js " Unknown error occurred."
  = js "Ollama API is not accessible. Unknown error occurred.".
Proof. vm_compute. reflexivity. Qed.

(** X23.  In the version of [getCorrectionFromOllama] that sends its
    request through the retry manager, the message of a failed request
    does not depend on the failure.  With a non-negative [maxRetries] the
    request is sent once and, whatever it was rejected with, the function
    returns [null] and the only message it can show is
    [Unexpected error: Cannot read properties of undefined (reading
    'logger')]; it is shown if and only if notifications are enabled.
    (When the configured prefix is not a string there is no request: the
    function rejects with what the construction of the prompt throws.) *)
Theorem retried_correction_failure_message_ignores_the_cause
        (host : Host) (codeSnippet languageId : JsString.t) (w : World)
        (cause : JsError) :
  (0 <= Config.maxRetries (settings w))%Z ->
  (forall prompt,
      Extension.build_prompt (settings w) codeSnippet languageId = inl prompt ->
      axios host
        (log (emit (HttpPost (Config.ollamaApiUrl (settings w))
                             (Config.modelName (settings w)) prompt)
                   (emit_if (Extension.is_debug (settings w))
                            (Extension.sending_to (settings w)) w)))
      = inr cause) ->
  let result :=
    ExtensionWithRetry.getCorrectionFromOllama host codeSnippet languageId w in
  match Config.promptPrefix (settings w) with
  | inl _ =>
      fst result = Resolved None /\
      count_posts (added w (snd result)) = 1 /\
      shown (added w (snd result))
      = if Config.enableNotifications (settings w)
        then [ShowErrorMessage
                (js "Unexpected error: Cannot read properties of undefined (reading 'logger')")
                []]
        else []
  | inr error => result = (Rejected error, w)
  end.
Proof.
  intros Hbudget Hanswer.
  unfold ExtensionWithRetry.getCorrectionFromOllama.
  unfold Extension.build_prompt in *.
  destruct (Config.promptPrefix (settings w)) as [prefix|error]; [|reflexivity].
  specialize (Hanswer _ eq_refl).
  set (prompt := JsString.replace _ _ _ ++ _) in *. clearbody prompt.
  unfold ExtensionWithRetry.correction_try.
  rewrite withRetry_in_run.
  change (Retry.maxRetries (options (new_RetryManager w)))
    with (Config.maxRetries (settings w)).
  destruct (Z.ltb_spec (Config.maxRetries (settings w)) 0) as [Hneg|_]; [lia|].
  unfold axios_post.
  change (settings (emit_if (Extension.is_debug (settings w))
                            (Extension.sending_to (settings w)) w))
    with (settings w) in *.
  rewrite Hanswer. cbv zeta. cbn [fst snd]. split; [reflexivity|].
  clear Hanswer.
  unfold ExtensionWithRetry.correction_catch.
  rewrite <- logger_failure_text.
  generalize (ExtensionWithRetry.errorMessage (Some (TypeError_undefined "logger"))).
  intros text. unfold TypeError_undefined. cbv iota beta.
  generalize (js "[OllamaCodeFixer] Unexpected Error:"). intros line.
  unfold Extension.sending_to.
  generalize (js "[OllamaCodeFixer] Sending to " ++ Config.modelName (settings w)).
  intros sending.
  destruct (Extension.is_debug (settings w));
    destruct (Config.enableNotifications (settings w));
    unfold emit_if, added, emit; cbn [log];
    rewrite <- ?app_assoc, skipn_length_app; split; reflexivity.
Qed.

Lemma retried_correction_failure_message_ignores_the_cause_witness :
  fst (ExtensionWithRetry.getCorrectionFromOllama
         (Scenario.host_with (fun _ => inr (Scenario.http_error 404)))
         (js "x = 1") (js "python") Scenario.generate_store)
  = Resolved None /\
  shown (added Scenario.generate_store
           (snd (ExtensionWithRetry.getCorrectionFromOllama
                   (Scenario.host_with (fun _ => inr (Scenario.http_error 404)))
                   (js "x = 1") (js "python") Scenario.generate_store)))
  = [ShowErrorMessage
       (js "Unexpected error: Cannot read properties of undefined (reading 'logger')")
       []].
Proof.
  destruct (retried_correction_failure_message_ignores_the_cause
              (Scenario.host_with (fun _ => inr (Scenario.http_error 404)))
              (js "x = 1") (js "python") Scenario.generate_store
              (Scenario.http_error 404)
              ltac:(vm_compute; discriminate) (fun _ _ => eq_refl))
    as (Hnull & _ & Hshown).
  split; [exact Hnull|exact Hshown].
Defined.

(** X24.  The status command of this version always resolves and shows
    exactly one message: the one for an accessible API, or
    [Ollama API is not accessible. Unknown error occurred.]  The texts
    for a status, for a missing response and for a request error are
    never shown, whatever the host answers. *)
Theorem retried_status_check_reports_no_detail
        (host : Host)
        (url_parts : JsString.t -> option (JsString.t * JsString.t))
        (w : World) :
  let result := ExtensionWithRetry.checkApiStatus host url_parts w in
  fst result = Resolved tt /\
  (shown (added w (snd result))
   = [ShowInformationMessage
        (js "Ollama API is accessible! Base URL check successful.") []]
   \/
   shown (added w (snd result))
   = [ShowErrorMessage
        (js "Ollama API is not accessible. Unknown error occurred.") []]).
Proof.
  unfold ExtensionWithRetry.checkApiStatus.
  destruct (url_parts (Config.ollamaApiUrl (settings w))) as [[protocol authority]|];
    rewrite withRetry_in_run;
    (destruct (Retry.maxRetries _ <? 0)%Z;
     [|unfold axios_get; destruct (axios host _) as [found|e]]);
    cbn [fst snd]; (split; [reflexivity|]);
    rewrite <- unknown_status_text;
    unfold ExtensionWithRetry.statusDetail, TypeError_undefined;
    cbv iota beta;
    generalize (js "Ollama API is not accessible." ++ js " Unknown error occurred.");
    intros text;
    generalize (js "Ollama API is accessible! Base URL check successful.");
    intros good;
    unfold added, emit; cbn [log]; rewrite <- ?app_assoc, skipn_length_app;
    ((left; reflexivity) || (right; reflexivity)).
Qed.

(* ===================================================================== *)
(** * The status command of the version without the retry manager         *)
(* ===================================================================== *)

(** X25.  The status command of this version never asks the configured
    server.  It sends one request: to the fixed text of its template
    literal when the configured URL parses, and to
    [http://localhost:11434/] when it does not.  It always resolves and
    shows exactly one message. *)
Theorem status_check_ignores_the_configured_address
        (host : Host) (w : World) :
  let result := StatusCommand.checkApiStatus host w in
  fst result = Resolved tt /\
  gets (added w (snd result))
  = [if URL_ok host (Config.ollamaApiUrl (settings w))
     then StatusCommand.parsedBase else StatusCommand.defaultBase] /\
  List.length (shown (added w (snd result))) = 1.
Proof.
  unfold StatusCommand.checkApiStatus.
  destruct (URL_ok host (Config.ollamaApiUrl (settings w)));
    unfold axios_get; (destruct (axios host _) as [found|e]);
    cbn [fst snd]; (split; [reflexivity|]);
    unfold added; cbn [log emit]; rewrite <- ?app_assoc, skipn_length_app;
    split; reflexivity.
Qed.

(* ===================================================================== *)
(** * The logger                                                          *)
(* ===================================================================== *)

Lemma level_names_differ (s : JsString.t) (a b : string) :
  JsString.eqb (js a) (js b) = false ->
  JsString.eqb s (js a) = true -> JsString.eqb s (js b) = false.
Proof.
  intros Hab Ha. apply eqb_eq in Ha. now subst s.
Qed.

(** X26.  What a logger writes, by the configured level.  The
    configured string is compared after lower-casing, and a string that
    is none of the four names counts as [info].  A line of level [error]
    is always appended; a line of level [warn] unless the level is
    [error]; a line of level [info] unless the level is [warn] or
    [error]; a line of level [debug] only if the level is [debug].  The
    lines already written are kept. *)
Theorem logger_writes_by_configured_level
        (toLowerCase : JsString.t -> JsString.t)
        (level timestamp message : JsString.t) (data : option Logger.Data)
        (lines : list JsString.t) :
  let this := {| Logger.logLevel := Logger.getConfiguredLogLevel toLowerCase level;
                 Logger.outputChannel := lines |} in
  let lowered := toLowerCase level in
  let line name := Logger.formatMessage timestamp (js name) message data in
  Logger.outputChannel (Logger.error timestamp message data this)
  = lines ++ [line "ERROR"%string] /\
  Logger.outputChannel (Logger.warn timestamp message data this)
  = (if JsString.eqb lowered (js "error") then lines
     else lines ++ [line "WARN"%string]) /\
  Logger.outputChannel (Logger.info timestamp message data this)
  = (if JsString.eqb lowered (js "warn") || JsString.eqb lowered (js "error")
     then lines else lines ++ [line "INFO"%string]) /\
  Logger.outputChannel (Logger.debug timestamp message data this)
  = (if JsString.eqb lowered (js "debug") then lines ++ [line "DEBUG"%string]
     else lines).
Proof.
  intros this lowered line.
  unfold this, Logger.error, Logger.warn, Logger.info, Logger.debug, Logger.log,
    Logger.getConfiguredLogLevel. fold lowered. cbn [Logger.logLevel].
  destruct (JsString.eqb lowered (js "debug")) eqn:Hd.
  - rewrite (level_names_differ lowered "debug" "warn" eq_refl Hd).
    rewrite (level_names_differ lowered "debug" "error" eq_refl Hd).
    repeat split.
  - destruct (JsString.eqb lowered (js "info")) eqn:Hi.
    + rewrite (level_names_differ lowered "info" "warn" eq_refl Hi).
      rewrite (level_names_differ lowered "info" "error" eq_refl Hi).
      repeat split.
    + destruct (JsString.eqb lowered (js "warn")) eqn:Hw.
      * rewrite (level_names_differ lowered "warn" "error" eq_refl Hw).
        repeat split.
      * destruct (JsString.eqb lowered (js "error")); repeat split.
Qed.

(** X27.  Sending the request through the retry manager does not change
    what an answered request gives: when the attempt budget is not empty
    and the server answers the generation request, the version of
    [getCorrectionFromOllama] with the retry manager returns what the
    version without it returns; and when the prompt cannot be built, no
    request is made and both versions reject with the same error. *)
Theorem retry_manager_is_transparent_for_an_answered_request
        (host : Host) (codeSnippet languageId : JsString.t) (w : World) :
  (0 <= Config.maxRetries (settings w))%Z ->
  (forall prompt,
      Extension.build_prompt (settings w) codeSnippet languageId = inl prompt ->
      exists reply,
        axios host
          (log (emit (HttpPost (Config.ollamaApiUrl (settings w))
                               (Config.modelName (settings w)) prompt)
                     (emit_if (Extension.is_debug (settings w))
                              (Extension.sending_to (settings w)) w)))
        = inl reply) ->
  fst (ExtensionWithRetry.getCorrectionFromOllama host codeSnippet languageId w)
  = fst (Extension.getCorrectionFromOllama host codeSnippet languageId w).
Proof.
  intros Hbudget Hanswer.
  unfold ExtensionWithRetry.getCorrectionFromOllama,
    Extension.getCorrectionFromOllama.
  destruct (Extension.build_prompt (settings w) codeSnippet languageId)
    as [prompt|error]; [|reflexivity].
  destruct (Hanswer prompt eq_refl) as [reply Hreply].
  unfold ExtensionWithRetry.correction_try, Extension.correction_try.
  rewrite withRetry_in_run.
  change (Retry.maxRetries (options (new_RetryManager w)))
    with (Config.maxRetries (settings w)).
  destruct (Z.ltb_spec (Config.maxRetries (settings w)) 0) as [Hneg|_]; [lia|].
  unfold axios_post.
  change (settings (emit_if (Extension.is_debug (settings w))
                            (Extension.sending_to (settings w)) w))
    with (settings w) in *.
  rewrite Hreply. destruct reply as [body|kind]; [|reflexivity].
  destruct (response body) as [raw|failure]; reflexivity.
Qed.

Lemma retry_manager_is_transparent_for_an_answered_request_witness :
  fst (ExtensionWithRetry.getCorrectionFromOllama
         (Scenario.host_with (Scenario.serving [] "```js
x = 2
```"))
         (js "x = 1") (js "js") Scenario.generate_store)
  = fst (Extension.getCorrectionFromOllama
           (Scenario.host_with (Scenario.serving [] "```js
x = 2
```"))
           (js "x = 1") (js "js") Scenario.generate_store).
Proof.
  apply (retry_manager_is_transparent_for_an_answered_request
           (Scenario.host_with (Scenario.serving [] "```js
x = 2
```"))
           (js "x = 1") (js "js") Scenario.generate_store
           ltac:(vm_compute; discriminate)).
  intros prompt Hprompt.
  exists (Data (Scenario.reply_body "```js
x = 2
```")).
  reflexivity.
Defined.
